(** * TI-99/4A cassette tools: encoder, decoder pipeline and BASIC lister

    A shallow embedding of [ti99_4a_tape_encode.py], [ti99_4a_tape_decode.py]
    and [ti99_4a_list_basic.py], with the properties of the tape format that
    the specification states about them.

    Conventions of the embedding:
    - Python integers are [Z]; [&], [|], [<<] are [Z.land], [Z.lor],
      [Z.shiftl] (Python's integers are unbounded two's complement, as [Z]).
    - A Python 3 [str] is the list of its code points ([list Z]); [chr] and
      [ord] are then the identity on valid code points.  A byte string read
      from a file is a [list byte].
    - Objects are records; a method takes the record and returns the new one.
    - A raised exception is a value of [exn]; code that can raise lives in
      the [result] monad, code that also mutates an object in [St]. *)

From stdpp Require Import base numbers list gmap strings sorting pretty.
From Stdlib Require Import ZArith QArith Qabs Lia Strings.Byte.

#[local] Open Scope Z_scope.

(** ** Exceptions and the monads of the embedding *)

Inductive exn : Type :=
| IndexError
| ValueError
| TypeError
| AttributeError
| UnboundLocalError
| UnicodeEncodeError
| ZeroDivisionError
| RecursionError
| StructError
| SystemExit (code : Z)
| KeyError
| DecodeException (msg : string).

Inductive result (A : Type) : Type :=
| Ok (a : A)
| Raise (e : exn).
Arguments Ok {A} a.
Arguments Raise {A} e.

#[global] Instance result_ret : MRet result := @Ok.
#[global] Instance result_bind : MBind result := fun A B f m =>
  match m with
  | Ok a => f a
  | Raise e => Raise e
  end.

(** State and exceptions: a computation on an object of type [S]. *)
Definition St (S A : Type) : Type := S -> result (A * S).

#[global] Instance St_ret {S} : MRet (St S) := fun A a s => Ok (a, s).
#[global] Instance St_bind {S} : MBind (St S) := fun A B f m s =>
  match m s with
  | Ok (a, s') => f a s'
  | Raise e => Raise e
  end.

Definition get {S} : St S S := fun s => Ok (s, s).
Definition put {S} (s : S) : St S unit := fun _ => Ok (tt, s).
Definition modify {S} (f : S -> S) : St S unit := fun s => Ok (tt, f s).
Definition raise {S A} (e : exn) : St S A := fun _ => Raise e.
Definition lift {S A} (r : result A) : St S A := fun s =>
  match r with
  | Ok a => Ok (a, s)
  | Raise e => Raise e
  end.

(** [for x in xs: body x] *)
Fixpoint for_each {S A} (xs : list A) (body : A -> St S unit) : St S unit :=
  match xs with
  | [] => mret tt
  | x :: xs' => body x ;; for_each xs' body
  end.

(** ** Python sequences *)

Module Py.

(** [l[i]], with negative indices counted from the end. *)
Definition getitem {A} (l : list A) (i : Z) : result A :=
  let n := Z.of_nat (length l) in
  let j := if i <? 0 then i + n else i in
  if (0 <=? j) && (j <? n) then
    match l !! Z.to_nat j with
    | Some x => Ok x
    | None => Raise IndexError
    end
  else Raise IndexError.

(** Normalisation of a slice bound. *)
Definition bound (n i : Z) : Z :=
  if i <? 0 then Z.max (i + n) 0 else Z.min i n.

(** [l[a:b]] *)
Definition slice {A} (l : list A) (a b : Z) : list A :=
  let n := Z.of_nat (length l) in
  let lo := bound n a in
  let hi := bound n b in
  take (Z.to_nat (hi - lo)) (drop (Z.to_nat lo) l).

(** [l[a:]] *)
Definition slice_from {A} (l : list A) (a : Z) : list A :=
  drop (Z.to_nat (bound (Z.of_nat (length l)) a)) l.

(** [chr(v)]: the code point itself, [ValueError] outside Unicode. *)
Definition chr (v : Z) : result Z :=
  if (0 <=? v) && (v <? 0x110000) then Ok v else Raise ValueError.

(** [ord] of a byte of a byte string. *)
Definition ord (b : byte) : Z := Z.of_N (Byte.to_N b).

(** Python's [%] with a positive modulus and [//] agree with [Z.modulo]
    and [Z.div] (floor division). *)
Definition range (n : Z) : list Z := seqZ 0 n.

End Py.

(** ** The encoder, [ti99_4a_tape_encode.py] *)

Module Encoder.

Definition INITIAL_SYNC_LEN : Z := 768.
Definition SYMBOL_LEN : Z := 32.
Definition MAX_LEVEL : Z := 0x7fff.

(** The module's globals that the encoding touches: the current output
    [level] and the samples handed to the sink so far.  [use_hpf] is the
    constant [False] of the module, so the high-pass branch of
    [output_write] never runs and [last_level], [last_filtered_value]
    never change. *)
Record state : Type := mkState { level : Z; samples : list Z }.

Definition init : state := {| level := MAX_LEVEL; samples := [] |}.

(** [struct.pack("<h", level)] refuses what does not fit 16 bits. *)
Definition output_write (lv : Z) : St state unit := fun st =>
  if (-0x8000 <=? lv) && (lv <=? 0x7fff)
  then Ok (tt, {| level := level st; samples := samples st ++ [lv] |})
  else Raise StructError.

Definition flip_level : St state unit :=
  modify (fun st => {| level := level st * -1; samples := samples st |}).

(** [for i in xrange(0, int(SYMBOL_LEN / 2)): output_write(level)] *)
Definition half_symbol : St state unit :=
  for_each (Py.range (SYMBOL_LEN / 2))
           (fun _ => st ← get; output_write (level st)).

(** One turn of the loop of [write_byte]; returns the shifted [b]. *)
Definition write_bit (b : Z) : St state Z :=
  flip_level ;;
  half_symbol ;;
  (if Z.land b 0x80 =? 0 then mret tt else flip_level) ;;
  half_symbol ;;
  mret (Z.shiftl b 1).

Fixpoint write_bits (n : nat) (b : Z) : St state Z :=
  match n with
  | O => mret b
  | S n' => b' ← write_bit b; write_bits n' b'
  end.

Definition write_byte (b : Z) : St state unit :=
  write_bits 8 b ;; mret tt.

(** The payload loop of one record copy: sends the 64 bytes and returns
    the running [chksum]. *)
Fixpoint payload_loop (data : list byte) (i : Z) (js : list Z) (chksum : Z)
  : St state Z :=
  match js with
  | [] => mret chksum
  | j :: js' =>
      c ← lift (Py.getitem data (i * 64 + j));
      let b := Py.ord c in
      let chksum := chksum + b in
      write_byte b ;;
      payload_loop data i js' chksum
  end.

Definition write_copy (data : list byte) (i : Z) : St state unit :=
  for_each (Py.range 8) (fun _ => write_byte 0x00) ;;
  write_byte 0xff ;;
  chksum ← payload_loop data i (Py.range 64) 0;
  write_byte chksum.

Definition write_record (data : list byte) (i : Z) : St state unit :=
  for_each (Py.range 2) (fun _ => write_copy data i).

(** Padding of the input to whole records. *)
Definition pad (data : list byte) : list byte :=
  let padding := 64 - (Z.of_nat (length data) `mod` 64) in
  if padding =? 64 then data
  else data ++ replicate (Z.to_nat padding) Byte.x80.

(** [int(math.ceil(len(data) / 64))]; the script is Python 2, where [/]
    on integers is floor division and [ceil] then changes nothing. *)
Definition nrecords (data : list byte) : Z := Z.of_nat (length data) `div` 64.

(** The script from reading the input on: the samples written. *)
Definition main (input : list byte) : St state unit :=
  let data := pad input in
  let n := nrecords data in
  if 0xff <? n then raise (SystemExit 1)
  else
    for_each (Py.range INITIAL_SYNC_LEN) (fun _ => write_byte 0x00) ;;
    write_byte 0xff ;;
    write_byte n ;;
    write_byte n ;;
    for_each (Py.range n) (fun i => write_record data i).

Definition encode (input : list byte) : result (list Z) :=
  match main input init with
  | Ok (_, st) => Ok (samples st)
  | Raise e => Raise e
  end.

End Encoder.

(** ** The tape format as the specification words it *)

Module TapeFormat.

(** One bit: flip the level, half a symbol at that level; for a 1 flip
    again; half a symbol more.  Returns the samples and the level left. *)
Definition symbol (lv : Z) (bit : bool) : list Z * Z :=
  let l1 := lv * -1 in
  let l2 := if bit then l1 * -1 else l1 in
  (replicate 16 l1 ++ replicate 16 l2, l2).

Fixpoint symbols (lv : Z) (bits : list bool) : list Z * Z :=
  match bits with
  | [] => ([], lv)
  | bit :: bits' =>
      let '(w, l1) := symbol lv bit in
      let '(w', l2) := symbols l1 bits' in
      (w ++ w', l2)
  end.

(** Bit order within a byte: MSB first. *)
Definition msb_first (b : Z) : list bool :=
  Z.testbit b <$> [7; 6; 5; 4; 3; 2; 1; 0].

Fixpoint wave (lv : Z) (bytes : list Z) : list Z * Z :=
  match bytes with
  | [] => ([], lv)
  | b :: bytes' =>
      let '(w, l1) := symbols lv (msb_first b) in
      let '(w', l2) := wave l1 bytes' in
      (w ++ w', l2)
  end.

Definition sumZ (l : list Z) : Z := foldr Z.add 0 l.

(** [checksum = (Σ payload) mod 256] *)
Definition checksum (payload : list Z) : Z := sumZ payload `mod` 256.

(** One copy of a record: 8 sync bytes, the framing byte, payload,
    checksum. *)
Definition copy (payload : list Z) : list Z :=
  replicate 8 0x00 ++ [0xff] ++ payload ++ [checksum payload].

(** The whole tape for the records [recs]. *)
Definition tape (recs : list (list Z)) : list Z :=
  let n := Z.of_nat (length recs) in
  replicate 768 0x00 ++ [0xff; n; n] ++
  mjoin ((fun r => copy r ++ copy r) <$> recs).

End TapeFormat.

(** ** Auxiliary definitions for the encoder proofs *)

Section EncoderAux.

Import Encoder.

(** What a run of [write_byte] calls does to the encoder's globals. *)
Definition emit (st : state) (bytes : list Z) : state :=
  {| level := (TapeFormat.wave (level st) bytes).2;
     samples := samples st ++ (TapeFormat.wave (level st) bytes).1 |}.

Definition level_ok (st : state) : Prop := -0x7fff <= level st <= 0x7fff.

(** The bits the loop of [write_byte] sees in [n] turns, starting with
    [b]: bit 7 of [b], of [b << 1], ... *)
Fixpoint loop_bits (n : nat) (b : Z) : list bool :=
  match n with
  | O => []
  | S n' => Z.testbit b 7 :: loop_bits n' (Z.shiftl b 1)
  end.

(** The state part of [write_bit] depends on [b] through bit 7 only. *)
Definition write_bit_st (bit : bool) : St state unit :=
  flip_level ;;
  half_symbol ;;
  (if bit then flip_level else mret tt) ;;
  half_symbol.

End EncoderAux.

(** ** The decoder, [ti99_4a_tape_decode.py]: constants *)

Definition MAX_INITIAL_SYNC_SYMBOLS : Z := 800 * 8.
Definition MAX_RECORD_SYNC_SYMBOLS : Z := 8 * 8.
Definition END_OF_SYNC_SYMBOLS : Z := 8.
Definition RECORD_LEN : Z := 64.
Definition CHKSUM_LEN : Z := 1.

(** What [process_byte] can answer to the layer below ([None] is Python's
    [None]: nothing to report). *)
Inductive signal : Type := REQUEST_RESYNC | NOTIFY_DONE.

#[global] Instance signal_eq_dec : EqDecision signal.
Proof. solve_decision. Defined.

(** ** [DataProc]: record framing, checksum, dual-copy recovery *)

Module DataProc.

(** The object's attributes.  [rec_primary_buf] and
    [rec_primary_error_mask] do not exist until the first failed primary
    copy assigns them ([None] here); [files] is the file system as the
    object changes it: the contents written, with the index in the name.
    The file name's prefix and extension never change and are left out, and
    [debug_print] (a log line on standard output) is not modelled. *)
Record t : Type := mk {
  buf : list Z;
  buf_error_mask : list Z;
  read_header : bool;
  rec_cnt : Z;
  rec_idx : Z;
  rec_primary : bool;
  rec_processed : bool;
  data_corrupt : bool;
  data : list Z;
  rec_primary_buf : option (list Z);
  rec_primary_error_mask : option (list Z);
  file_idx : Z;
  files : list (Z * list Z)
}.

Definition clear_state (self : t) : t :=
  {| buf := []; buf_error_mask := [];
     read_header := true; rec_cnt := 0; rec_idx := 0;
     rec_primary := true; rec_processed := false;
     data_corrupt := false; data := [];
     rec_primary_buf := rec_primary_buf self;
     rec_primary_error_mask := rec_primary_error_mask self;
     file_idx := file_idx self; files := files self |}.

(** [DataProc(...)] *)
Definition init : t :=
  {| buf := []; buf_error_mask := [];
     read_header := true; rec_cnt := 0; rec_idx := 0;
     rec_primary := true; rec_processed := false;
     data_corrupt := false; data := [];
     rec_primary_buf := None; rec_primary_error_mask := None;
     file_idx := 0; files := [] |}.

Definition set_buf (v : list Z) (self : t) : t :=
  {| buf := v; buf_error_mask := buf_error_mask self;
     read_header := read_header self; rec_cnt := rec_cnt self;
     rec_idx := rec_idx self; rec_primary := rec_primary self;
     rec_processed := rec_processed self;
     data_corrupt := data_corrupt self; data := data self;
     rec_primary_buf := rec_primary_buf self;
     rec_primary_error_mask := rec_primary_error_mask self;
     file_idx := file_idx self; files := files self |}.

Definition set_buf_error_mask (v : list Z) (self : t) : t :=
  {| buf := buf self; buf_error_mask := v;
     read_header := read_header self; rec_cnt := rec_cnt self;
     rec_idx := rec_idx self; rec_primary := rec_primary self;
     rec_processed := rec_processed self;
     data_corrupt := data_corrupt self; data := data self;
     rec_primary_buf := rec_primary_buf self;
     rec_primary_error_mask := rec_primary_error_mask self;
     file_idx := file_idx self; files := files self |}.

Definition set_header (cnt : Z) (self : t) : t :=
  {| buf := buf self; buf_error_mask := buf_error_mask self;
     read_header := false; rec_cnt := cnt;
     rec_idx := 0; rec_primary := rec_primary self;
     rec_processed := rec_processed self;
     data_corrupt := data_corrupt self; data := data self;
     rec_primary_buf := rec_primary_buf self;
     rec_primary_error_mask := rec_primary_error_mask self;
     file_idx := file_idx self; files := files self |}.

Definition set_data (v : list Z) (self : t) : t :=
  {| buf := buf self; buf_error_mask := buf_error_mask self;
     read_header := read_header self; rec_cnt := rec_cnt self;
     rec_idx := rec_idx self; rec_primary := rec_primary self;
     rec_processed := rec_processed self;
     data_corrupt := data_corrupt self; data := v;
     rec_primary_buf := rec_primary_buf self;
     rec_primary_error_mask := rec_primary_error_mask self;
     file_idx := file_idx self; files := files self |}.

Definition set_data_corrupt (v : bool) (self : t) : t :=
  {| buf := buf self; buf_error_mask := buf_error_mask self;
     read_header := read_header self; rec_cnt := rec_cnt self;
     rec_idx := rec_idx self; rec_primary := rec_primary self;
     rec_processed := rec_processed self;
     data_corrupt := v; data := data self;
     rec_primary_buf := rec_primary_buf self;
     rec_primary_error_mask := rec_primary_error_mask self;
     file_idx := file_idx self; files := files self |}.

(** [rec_primary], [rec_processed] and [rec_idx] together. *)
Definition set_rec (primary processed : bool) (idx : Z) (self : t) : t :=
  {| buf := buf self; buf_error_mask := buf_error_mask self;
     read_header := read_header self; rec_cnt := rec_cnt self;
     rec_idx := idx; rec_primary := primary;
     rec_processed := processed;
     data_corrupt := data_corrupt self; data := data self;
     rec_primary_buf := rec_primary_buf self;
     rec_primary_error_mask := rec_primary_error_mask self;
     file_idx := file_idx self; files := files self |}.

Definition set_primary_copy (b m : list Z) (self : t) : t :=
  {| buf := buf self; buf_error_mask := buf_error_mask self;
     read_header := read_header self; rec_cnt := rec_cnt self;
     rec_idx := rec_idx self; rec_primary := rec_primary self;
     rec_processed := rec_processed self;
     data_corrupt := data_corrupt self; data := data self;
     rec_primary_buf := Some b;
     rec_primary_error_mask := Some m;
     file_idx := file_idx self; files := files self |}.

Definition write_file (content : list Z) (self : t) : t :=
  {| buf := buf self; buf_error_mask := buf_error_mask self;
     read_header := read_header self; rec_cnt := rec_cnt self;
     rec_idx := rec_idx self; rec_primary := rec_primary self;
     rec_processed := rec_processed self;
     data_corrupt := data_corrupt self; data := data self;
     rec_primary_buf := rec_primary_buf self;
     rec_primary_error_mask := rec_primary_error_mask self;
     file_idx := file_idx self + 1;
     files := files self ++ [(file_idx self, content)] |}.

(** [__verify_record] *)
Definition verify_record (self : t) : bool :=
  if negb (Z.of_nat (length (buf self)) =? RECORD_LEN + CHKSUM_LEN) then false
  else
    let chksum :=
      foldl (fun chksum x => Z.land (chksum + x) 0xff) 0
            (Py.slice (buf self) 0 (-1)) in
    match Py.getitem (buf self) (-1) with
    | Ok last => if negb (chksum =? last) then false else true
    | Raise _ => false
    end.

(** The loop of [__recover_record]: [Ok None] is the [return False] from
    inside the loop, [Ok (Some r)] the reconstructed buffer. *)
Fixpoint recover_loop (self : t) (pbuf pmask : list Z) (idxs : list Z)
         (reconstructed_buf : list Z) : result (option (list Z)) :=
  match idxs with
  | [] => Ok (Some reconstructed_buf)
  | i :: idxs' =>
      byte1_mask ← Py.getitem pmask i;
      byte2_mask ← Py.getitem (buf_error_mask self) i;
      if negb (Z.land byte1_mask byte2_mask =? 0) then Ok None
      else
        b2 ← Py.getitem (buf self) i;
        b1 ← Py.getitem pbuf i;
        c ← Py.chr (Z.lor b2 b1);
        recover_loop self pbuf pmask idxs' (reconstructed_buf ++ [c])
  end.

(** [__recover_record]; [xrange] is read as the range it names. *)
Definition recover_record : St t bool := fun self =>
  match rec_primary_buf self, rec_primary_error_mask self with
  | Some pbuf, Some pmask =>
      if bool_decide (pbuf = []) then Ok (false, self)
      else if negb (Z.of_nat (length (buf self)) =? Z.of_nat (length pbuf))
      then Ok (false, self)
      else
        match recover_loop self pbuf pmask
                           (Py.range (Z.of_nat (length (buf self)))) [] with
        | Raise e => Raise e
        | Ok None => Ok (false, self)
        | Ok (Some reconstructed_buf) =>
            let self := set_buf reconstructed_buf self in
            if verify_record self then Ok (true, self) else Ok (false, self)
        end
  | _, _ => Raise AttributeError
  end.

(** [data_complete]; [bytes(data, "latin-1")] refuses code points above
    255. *)
Definition data_complete : St t unit := fun self =>
  if data_corrupt self then Ok (tt, self)
  else if forallb (fun c => c <? 256) (data self)
  then Ok (tt, write_file (data self) self)
  else Raise UnicodeEncodeError.

(** [_process_record].  [record_data] is bound only when the buffer is
    not empty; reading it unbound is [UnboundLocalError]. *)
Definition process_record : St t (option signal) := fun self =>
  let record_data : option (list Z) :=
    if bool_decide (buf self = []) then None
    else Some (Py.slice (buf self) 0 (-1)) in
  let record_valid : bool :=
    if bool_decide (buf self = []) then false
    else if negb (verify_record self) then false else true in
  let use_record_data : result (list Z) :=
    match record_data with
    | Some d => Ok d
    | None => Raise UnboundLocalError
    end in
  let step : St t unit :=
    if rec_primary self then
      (if record_valid then
         d ← lift use_record_data;
         modify (fun s => set_rec (rec_primary s) true (rec_idx s)
                            (set_data (data s ++ d) s))
       else
         modify (fun s => set_primary_copy (buf s) (buf_error_mask s) s)) ;;
      modify (fun s => set_rec false (rec_processed s) (rec_idx s) s)
    else
      record_corrupt ←
        (if negb (rec_processed self) then
           if record_valid then
             d ← lift use_record_data;
             modify (fun s => set_data (data s ++ d) s) ;;
             mret false
           else
             recovered ← recover_record;
             if negb recovered then mret true
             else
               d ← lift use_record_data;
               modify (fun s => set_data (data s ++ d) s) ;;
               mret false
         else if record_valid then
           d ← lift use_record_data;
           s ← get;
           if negb (bool_decide (Py.slice_from (data s) (- RECORD_LEN) = d))
           then mret true else mret false
         else mret false);
      (if record_corrupt : bool
       then modify (set_data_corrupt true) else mret tt) ;;
      modify (fun s => set_rec true false (rec_idx s + 1) s)
  in
  (step ;;
   modify (fun s => set_buf_error_mask [] (set_buf [] s)) ;;
   s ← get;
   if rec_idx s =? rec_cnt s then
     data_complete ;;
     modify clear_state ;;
     mret (Some NOTIFY_DONE)
   else mret (Some REQUEST_RESYNC)) self.

(** [_process_header] *)
Definition process_header : St t (option signal) := fun self =>
  if Z.of_nat (length (buf self)) =? 2 then
    b0 ← Py.getitem (buf self) 0;
    b1 ← Py.getitem (buf self) 1;
    if negb (b0 =? b1) then Ok (Some NOTIFY_DONE, clear_state self)
    else Ok (Some REQUEST_RESYNC, set_buf [] (set_header b0 self))
  else Ok (None, self).

(** [process_byte] *)
Definition process_byte (val bit_error_mask : Z) : St t (option signal) :=
  c ← lift (Py.chr val);
  modify (fun s => set_buf (buf s ++ [c]) s) ;;
  m ← lift (Py.chr bit_error_mask);
  modify (fun s => set_buf_error_mask (buf_error_mask s ++ [m]) s) ;;
  s ← get;
  if read_header s then process_header
  else if Z.of_nat (length (buf s)) =? RECORD_LEN + CHKSUM_LEN
  then process_record
  else mret None.

(** [resync_failed_cb] *)
Definition resync_failed_cb : St t bool :=
  s ← get;
  if negb (read_header s) then
    r ← process_record;
    if bool_decide (r = Some REQUEST_RESYNC) then mret true else mret false
  else mret false.

(** [process_eof] *)
Definition process_eof : St t unit :=
  s ← get;
  (if negb (read_header s) then
     if (rec_idx s + 1 =? rec_cnt s) && rec_processed s
     then data_complete else mret tt
   else mret tt) ;;
  modify clear_state.

End DataProc.

(** ** Numbers that may be floating point

    [symbol_len], the envelope of the signal and the tolerances are Python
    floats.  The code is embedded over any type [F] with the operations it
    uses, so that what is proved of the control flow holds whatever the
    rounding; [Exact] instantiates [F] with the rationals, for running the
    code on inputs where no rounding decides a comparison. *)

Class PyFloat (F : Type) : Type := {
  of_int : Z -> F;            (* an integer used as a number *)
  fadd : F -> F -> F;
  fsub : F -> F -> F;
  fmul : F -> F -> F;
  fdiv : F -> F -> F;         (* the divisor is not zero *)
  fabs : F -> F;
  flt : F -> F -> bool;       (* [x < y] *)
  fis_zero : F -> bool;
  fround : F -> Z;            (* [int(round(x))], ties to even *)
  ftrunc : F -> Z             (* [int(x)] *)
}.

Module Exact.

Definition norm (x : Q) : Q := Qred x.
Definition ltb (x y : Q) : bool :=
  (Qnum x * Z.pos (Qden y) <? Qnum y * Z.pos (Qden x)).

Definition floor (x : Q) : Z := Qnum x `div` Z.pos (Qden x).

(** Round to the nearest integer, ties to the even one. *)
Definition round (x : Q) : Z :=
  let f := floor x in
  let twice_rest := 2 * (Qnum x - f * Z.pos (Qden x)) in
  if twice_rest <? Z.pos (Qden x) then f
  else if Z.pos (Qden x) <? twice_rest then f + 1
  else if Z.even f then f else f + 1.

(** Towards zero. *)
Definition trunc (x : Q) : Z := Qnum x `quot` Z.pos (Qden x).

#[global] Instance float : PyFloat Q := {|
  of_int n := inject_Z n;
  fadd x y := norm (Qplus x y);
  fsub x y := norm (Qminus x y);
  fmul x y := norm (Qmult x y);
  fdiv x y := norm (Qdiv x y);
  fabs x := norm (Qabs x);
  flt := ltb;
  fis_zero x := Qnum x =? 0;
  fround := round;
  ftrunc := trunc
|}.

End Exact.

(** ** Configuration profiles *)

Record Config (F : Type) : Type := mkConfig {
  use_peak : bool;
  training_threshold : Z;
  min_bit_len : Z;
  hysteresis : F;
  max_bit_diff : F;
  range_decay : F;
  continues_resync : bool
}.
Arguments mkConfig {F}.
Arguments use_peak {F}.
Arguments training_threshold {F}.
Arguments min_bit_len {F}.
Arguments hysteresis {F}.
Arguments max_bit_diff {F}.
Arguments range_decay {F}.
Arguments continues_resync {F}.

(** The decimal literal [n / 1000]. *)
Definition milli `{PyFloat F} (n : Z) : F := fdiv (of_int n) (of_int 1000).

Definition peak1 `{PyFloat F} : Config F :=
  {| use_peak := true; training_threshold := 400; min_bit_len := 10;
     hysteresis := milli 500; max_bit_diff := milli 240;
     range_decay := milli 990; continues_resync := true |}.

Definition edge1 `{PyFloat F} : Config F :=
  {| use_peak := false; training_threshold := 400; min_bit_len := 10;
     hysteresis := milli 800; max_bit_diff := milli 240;
     range_decay := milli 995; continues_resync := true |}.

(** ** [BitProc]: edges to bits *)

Module BitProc.

(** The object's attributes; [data_proc] is kept beside it, as the second
    component of the state the methods run on.  [resync_start_idx] and
    [resync_max_symbol] do not exist before the first [_start_resync]. *)
Record t (F : Type) : Type := mk {
  last_edge_idx : Z;
  training : bool;
  training_matches : list Z;
  training_start : Z;
  edge_cnt : Z;
  resync : bool;
  symbol_len : F;
  edges_within_symbol : Z;
  byte : Z;
  bit_error_mask : Z;
  bit_cnt : Z;
  resync_start_idx : option Z;
  resync_max_symbol : option Z
}.
Arguments mk {F}.
Arguments last_edge_idx {F}.
Arguments training {F}.
Arguments training_matches {F}.
Arguments training_start {F}.
Arguments edge_cnt {F}.
Arguments resync {F}.
Arguments symbol_len {F}.
Arguments edges_within_symbol {F}.
Arguments byte {F}.
Arguments bit_error_mask {F}.
Arguments bit_cnt {F}.
Arguments resync_start_idx {F}.
Arguments resync_max_symbol {F}.

Definition set_last_edge_idx {F} (v : Z) (self : t F) : t F :=
  {| last_edge_idx := v;
     training := training self;
     training_matches := training_matches self;
     training_start := training_start self;
     edge_cnt := edge_cnt self;
     resync := resync self;
     symbol_len := symbol_len self;
     edges_within_symbol := edges_within_symbol self;
     byte := byte self;
     bit_error_mask := bit_error_mask self;
     bit_cnt := bit_cnt self;
     resync_start_idx := resync_start_idx self;
     resync_max_symbol := resync_max_symbol self |}.

Definition set_training {F} (v : bool) (self : t F) : t F :=
  {| last_edge_idx := last_edge_idx self;
     training := v;
     training_matches := training_matches self;
     training_start := training_start self;
     edge_cnt := edge_cnt self;
     resync := resync self;
     symbol_len := symbol_len self;
     edges_within_symbol := edges_within_symbol self;
     byte := byte self;
     bit_error_mask := bit_error_mask self;
     bit_cnt := bit_cnt self;
     resync_start_idx := resync_start_idx self;
     resync_max_symbol := resync_max_symbol self |}.

Definition set_training_matches {F} (v : list Z) (self : t F) : t F :=
  {| last_edge_idx := last_edge_idx self;
     training := training self;
     training_matches := v;
     training_start := training_start self;
     edge_cnt := edge_cnt self;
     resync := resync self;
     symbol_len := symbol_len self;
     edges_within_symbol := edges_within_symbol self;
     byte := byte self;
     bit_error_mask := bit_error_mask self;
     bit_cnt := bit_cnt self;
     resync_start_idx := resync_start_idx self;
     resync_max_symbol := resync_max_symbol self |}.

Definition set_training_start {F} (v : Z) (self : t F) : t F :=
  {| last_edge_idx := last_edge_idx self;
     training := training self;
     training_matches := training_matches self;
     training_start := v;
     edge_cnt := edge_cnt self;
     resync := resync self;
     symbol_len := symbol_len self;
     edges_within_symbol := edges_within_symbol self;
     byte := byte self;
     bit_error_mask := bit_error_mask self;
     bit_cnt := bit_cnt self;
     resync_start_idx := resync_start_idx self;
     resync_max_symbol := resync_max_symbol self |}.

Definition set_edge_cnt {F} (v : Z) (self : t F) : t F :=
  {| last_edge_idx := last_edge_idx self;
     training := training self;
     training_matches := training_matches self;
     training_start := training_start self;
     edge_cnt := v;
     resync := resync self;
     symbol_len := symbol_len self;
     edges_within_symbol := edges_within_symbol self;
     byte := byte self;
     bit_error_mask := bit_error_mask self;
     bit_cnt := bit_cnt self;
     resync_start_idx := resync_start_idx self;
     resync_max_symbol := resync_max_symbol self |}.

Definition set_resync {F} (v : bool) (self : t F) : t F :=
  {| last_edge_idx := last_edge_idx self;
     training := training self;
     training_matches := training_matches self;
     training_start := training_start self;
     edge_cnt := edge_cnt self;
     resync := v;
     symbol_len := symbol_len self;
     edges_within_symbol := edges_within_symbol self;
     byte := byte self;
     bit_error_mask := bit_error_mask self;
     bit_cnt := bit_cnt self;
     resync_start_idx := resync_start_idx self;
     resync_max_symbol := resync_max_symbol self |}.

Definition set_symbol_len {F} (v : F) (self : t F) : t F :=
  {| last_edge_idx := last_edge_idx self;
     training := training self;
     training_matches := training_matches self;
     training_start := training_start self;
     edge_cnt := edge_cnt self;
     resync := resync self;
     symbol_len := v;
     edges_within_symbol := edges_within_symbol self;
     byte := byte self;
     bit_error_mask := bit_error_mask self;
     bit_cnt := bit_cnt self;
     resync_start_idx := resync_start_idx self;
     resync_max_symbol := resync_max_symbol self |}.

Definition set_edges_within_symbol {F} (v : Z) (self : t F) : t F :=
  {| last_edge_idx := last_edge_idx self;
     training := training self;
     training_matches := training_matches self;
     training_start := training_start self;
     edge_cnt := edge_cnt self;
     resync := resync self;
     symbol_len := symbol_len self;
     edges_within_symbol := v;
     byte := byte self;
     bit_error_mask := bit_error_mask self;
     bit_cnt := bit_cnt self;
     resync_start_idx := resync_start_idx self;
     resync_max_symbol := resync_max_symbol self |}.

Definition set_byte {F} (v : Z) (self : t F) : t F :=
  {| last_edge_idx := last_edge_idx self;
     training := training self;
     training_matches := training_matches self;
     training_start := training_start self;
     edge_cnt := edge_cnt self;
     resync := resync self;
     symbol_len := symbol_len self;
     edges_within_symbol := edges_within_symbol self;
     byte := v;
     bit_error_mask := bit_error_mask self;
     bit_cnt := bit_cnt self;
     resync_start_idx := resync_start_idx self;
     resync_max_symbol := resync_max_symbol self |}.

Definition set_bit_error_mask {F} (v : Z) (self : t F) : t F :=
  {| last_edge_idx := last_edge_idx self;
     training := training self;
     training_matches := training_matches self;
     training_start := training_start self;
     edge_cnt := edge_cnt self;
     resync := resync self;
     symbol_len := symbol_len self;
     edges_within_symbol := edges_within_symbol self;
     byte := byte self;
     bit_error_mask := v;
     bit_cnt := bit_cnt self;
     resync_start_idx := resync_start_idx self;
     resync_max_symbol := resync_max_symbol self |}.

Definition set_bit_cnt {F} (v : Z) (self : t F) : t F :=
  {| last_edge_idx := last_edge_idx self;
     training := training self;
     training_matches := training_matches self;
     training_start := training_start self;
     edge_cnt := edge_cnt self;
     resync := resync self;
     symbol_len := symbol_len self;
     edges_within_symbol := edges_within_symbol self;
     byte := byte self;
     bit_error_mask := bit_error_mask self;
     bit_cnt := v;
     resync_start_idx := resync_start_idx self;
     resync_max_symbol := resync_max_symbol self |}.

Definition set_resync_start_idx {F} (v : option Z) (self : t F) : t F :=
  {| last_edge_idx := last_edge_idx self;
     training := training self;
     training_matches := training_matches self;
     training_start := training_start self;
     edge_cnt := edge_cnt self;
     resync := resync self;
     symbol_len := symbol_len self;
     edges_within_symbol := edges_within_symbol self;
     byte := byte self;
     bit_error_mask := bit_error_mask self;
     bit_cnt := bit_cnt self;
     resync_start_idx := v;
     resync_max_symbol := resync_max_symbol self |}.

Definition set_resync_max_symbol {F} (v : option Z) (self : t F) : t F :=
  {| last_edge_idx := last_edge_idx self;
     training := training self;
     training_matches := training_matches self;
     training_start := training_start self;
     edge_cnt := edge_cnt self;
     resync := resync self;
     symbol_len := symbol_len self;
     edges_within_symbol := edges_within_symbol self;
     byte := byte self;
     bit_error_mask := bit_error_mask self;
     bit_cnt := bit_cnt self;
     resync_start_idx := resync_start_idx self;
     resync_max_symbol := v |}.

Section Methods.

Context {F : Type} `{PyFloat F} (CONFIG : Config F).

(** The state the methods run on: the object and its [data_proc]. *)
Definition pipeline : Type := (t F * DataProc.t)%type.

Definition self : St pipeline (t F) := s ← get; mret s.1.
Definition update (f : t F -> t F) : St pipeline unit :=
  modify (fun s => (f s.1, s.2)).

(** A call of a method of [data_proc]. *)
Definition data_proc {A} (m : St DataProc.t A) : St pipeline A := fun s =>
  match m s.2 with
  | Ok (a, d) => Ok (a, (s.1, d))
  | Raise e => Raise e
  end.

(** Reading an attribute that may not exist yet. *)
Definition attr {A} (o : option A) : St pipeline A :=
  match o with
  | Some a => mret a
  | None => raise AttributeError
  end.

Definition clear_state (b : t F) : t F :=
  {| last_edge_idx := 0;
     training := true;
     training_matches := [];
     training_start := 0;
     edge_cnt := 0;
     resync := false;
     symbol_len := of_int 0;
     edges_within_symbol := 0;
     byte := 0;
     bit_error_mask := 0;
     bit_cnt := 0;
     resync_start_idx := resync_start_idx b;
     resync_max_symbol := resync_max_symbol b |}.

(** [BitProc(data_proc)] *)
Definition init : t F :=
  {| last_edge_idx := 0;
     training := true;
     training_matches := [];
     training_start := 0;
     edge_cnt := 0;
     resync := false;
     symbol_len := of_int 0;
     edges_within_symbol := 0;
     byte := 0;
     bit_error_mask := 0;
     bit_cnt := 0;
     resync_start_idx := None;
     resync_max_symbol := None |}.

(** [_start_resync] *)
Definition start_resync (frame_idx max_symbols : Z) : St pipeline unit :=
  update (set_resync true) ;;
  update (set_resync_start_idx (Some frame_idx)) ;;
  update (set_resync_max_symbol
            (Some (max_symbols + END_OF_SYNC_SYMBOLS + 8))) ;;
  update (set_byte 0) ;;
  update (set_edges_within_symbol 0).

(** [abs(frame_idx - expected_idx) < symbol_len * max_bit_diff] *)
Definition at_boundary (b : t F) (frame_idx expected_idx : Z) : bool :=
  flt (of_int (Z.abs (frame_idx - expected_idx)))
      (fmul (symbol_len b) (max_bit_diff CONFIG)).

(** [int(round(training_start + (edge_cnt + 1) * symbol_len))] *)
Definition expected (b : t F) : Z :=
  fround (fadd (of_int (training_start b))
               (fmul (of_int (edge_cnt b + 1)) (symbol_len b))).

(** The bit read from the edges seen within the symbol. *)
Definition parity_bit (b : t F) : Z :=
  if edges_within_symbol b `mod` 2 =? 1 then 1 else 0.

(** [_process_symbol_training] *)
Definition process_symbol_training (frame_idx level_len : Z)
  : St pipeline unit :=
  b ← self;
  (if flt (fabs (fsub (of_int level_len) (symbol_len b)))
          (fmul (symbol_len b) (max_bit_diff CONFIG))
   then update (set_training_matches (training_matches b ++ [frame_idx]))
   else
     update (set_symbol_len (of_int level_len)) ;;
     update (set_training_start frame_idx) ;;
     update (set_training_matches [])) ;;
  b ← self;
  if (Z.of_nat (length (training_matches b)) =? training_threshold CONFIG)
     && flt (of_int (min_bit_len CONFIG)) (symbol_len b)
  then
    last ← lift (Py.getitem (training_matches b) (-1));
    update (set_symbol_len
              (fdiv (of_int (last - training_start b))
                    (of_int (Z.of_nat (length (training_matches b)))))) ;;
    (if continues_resync CONFIG then
       update (set_training_start frame_idx) ;;
       update (set_edge_cnt 0)
     else mret tt) ;;
    update (set_training_matches []) ;;
    update (set_training false) ;;
    update (set_edges_within_symbol 0) ;;
    start_resync frame_idx
                 (MAX_INITIAL_SYNC_SYMBOLS - training_threshold CONFIG)
  else mret tt.

(** What [_process_symbol_resync] does once the deadline test has
    passed. *)
Definition resync_symbol (frame_idx level_len : Z) : St pipeline unit :=
  b ← self;
  let expected_idx := expected b in
  if at_boundary b frame_idx expected_idx then
    update (set_byte (Z.land (Z.lor (Z.shiftl (byte b) 1) (parity_bit b))
                             0xff)) ;;
    b ← self;
    start ← attr (resync_start_idx b);
    (if frame_idx <? start then mret tt
     else if byte b =? 0xff then update (set_resync false)
     else mret tt) ;;
    (if continues_resync CONFIG then
       update (set_training_start frame_idx) ;;
       update (set_edge_cnt 0)
     else update (fun b => set_edge_cnt (edge_cnt b + 1) b)) ;;
    update (set_edges_within_symbol 0)
  else if frame_idx <? expected_idx then
    update (fun b => set_edges_within_symbol (edges_within_symbol b + 1) b)
  else
    update (set_byte 0) ;;
    update (set_edges_within_symbol 0) ;;
    (if fis_zero (symbol_len b) then raise ZeroDivisionError else mret tt) ;;
    let missed_symbol_cnt :=
      fround (fdiv (fadd (of_int level_len)
                         (fmul (symbol_len b) (max_bit_diff CONFIG)))
                   (symbol_len b)) in
    if continues_resync CONFIG then
      update (set_training_start frame_idx) ;;
      update (set_edge_cnt 0)
    else update (fun b => set_edge_cnt (edge_cnt b + missed_symbol_cnt) b).

(** [_process_symbol_resync]; [depth] is the depth of recursion the
    interpreter still allows. *)
Fixpoint process_symbol_resync (depth : nat) (frame_idx level_len : Z)
  : St pipeline unit :=
  match depth with
  | O => raise RecursionError
  | S depth' =>
      b ← self;
      start ← attr (resync_start_idx b);
      max_symbol ← attr (resync_max_symbol b);
      if flt (fadd (of_int start) (fmul (of_int max_symbol) (symbol_len b)))
             (of_int frame_idx)
      then
        skip ← data_proc DataProc.resync_failed_cb;
        if skip : bool then
          let start :=
            start + ftrunc (fmul (of_int (MAX_RECORD_SYNC_SYMBOLS
                                          + END_OF_SYNC_SYMBOLS
                                          + (RECORD_LEN + CHKSUM_LEN) * 8))
                                 (symbol_len b)) in
          let start := start + ftrunc (fmul (of_int 8) (symbol_len b)) in
          update (set_resync_start_idx (Some start)) ;;
          if start <? frame_idx
          then process_symbol_resync depth' frame_idx level_len
          else mret tt
        else update clear_state
      else resync_symbol frame_idx level_len
  end.

(** One activation of [_process_symbol_active], up to its recursive
    call: [Some level_len'] asks for the call
    [_process_symbol_active(frame_idx, level_len')]. *)
Definition active_symbol (frame_idx level_len : Z)
  : St pipeline (option Z) :=
  b ← self;
  let expected_idx := expected b in
  if negb (at_boundary b frame_idx expected_idx)
     && (frame_idx <? expected_idx)
  then
    (* Edge within symbol *)
    update (set_edges_within_symbol (edges_within_symbol b + 1)) ;;
    mret None
  else
    let missed := negb (at_boundary b frame_idx expected_idx) in
    let bit := parity_bit b in
    let bit_error := if missed then 1 else 0 in
    let recurse := missed in
    update (set_edges_within_symbol 0) ;;
    update (fun b => set_edge_cnt (edge_cnt b + 1) b) ;;
    update (fun b => set_byte
                       (Z.land (Z.lor (Z.shiftl (byte b) 1) bit) 0xff) b) ;;
    update (fun b => set_bit_error_mask
                       (Z.land (Z.lor (Z.shiftl (bit_error_mask b) 1)
                                      bit_error) 0xff) b) ;;
    update (fun b => set_bit_cnt (bit_cnt b + 1) b) ;;
    b ← self;
    recurse ←
      (if bit_cnt b =? 8 then
         ret ← data_proc (DataProc.process_byte (byte b) (bit_error_mask b));
         recurse ←
           match ret with
           | Some REQUEST_RESYNC =>
               start_resync frame_idx MAX_RECORD_SYNC_SYMBOLS ;;
               mret recurse
           | Some NOTIFY_DONE =>
               update clear_state ;;
               mret false
           | None => mret recurse
           end;
         update (set_bit_cnt 0) ;;
         update (set_byte 0) ;;
         mret recurse
       else mret recurse);
    (if continues_resync CONFIG then
       (if recurse : bool
        then update (set_training_start expected_idx)
        else update (set_training_start frame_idx)) ;;
       update (set_edge_cnt 0)
     else mret tt) ;;
    if (recurse : bool) then
      b ← self;
      mret (Some (fround (fsub (of_int level_len) (symbol_len b))))
    else mret None.

(** [_process_symbol_active] *)
Fixpoint process_symbol_active (depth : nat) (frame_idx level_len : Z)
  : St pipeline unit :=
  match depth with
  | O => raise RecursionError
  | S depth' =>
      next ← active_symbol frame_idx level_len;
      match next with
      | Some level_len' => process_symbol_active depth' frame_idx level_len'
      | None => mret tt
      end
  end.

(** [process_edge].  Without [use_peak] the method reads its local
    [frame_idx] before any assignment. *)
Definition process_edge (depth : nat) (edge_idx peak_idx new_level : Z)
  : St pipeline unit :=
  b ← self;
  frame_idx ←
    (if use_peak CONFIG then
       if flt (fadd (of_int peak_idx) (fmul (symbol_len b) (of_int 8)))
              (of_int edge_idx)
       then mret edge_idx else mret peak_idx
     else raise UnboundLocalError);
  let level_len := frame_idx - last_edge_idx b in
  update (set_last_edge_idx frame_idx) ;;
  if training b then process_symbol_training frame_idx level_len
  else if resync b then process_symbol_resync depth frame_idx level_len
  else process_symbol_active depth frame_idx level_len.

(** [process_sample] is inherited from [BitProcIface]: [pass]. *)
Definition process_sample (frame_idx level : Z) : St pipeline unit :=
  mret tt.

(** [process_eof] *)
Definition process_eof (frame_idx : Z) : St pipeline unit :=
  data_proc DataProc.process_eof.

End Methods.

End BitProc.

(** ** [SignalProc]: samples to levels and edges *)

(** The calls [SignalProc] makes on its [bit_proc]. *)
Inductive bit_call : Type :=
| CallSample (frame_idx level : Z)
| CallEdge (edge_idx peak_idx new_level : Z).



Module SignalProc.

(** The object's attributes ([bit_proc] is kept beside it; the debug wave
    file is not modelled). *)
Record t (F : Type) : Type := mk {
  frame_idx : Z;
  range_max : F;
  range_min : F;
  idle : bool;
  level : Z;
  peak : Z;
  peak_idx : Z
}.
Arguments mk {F}.
Arguments frame_idx {F}.
Arguments range_max {F}.
Arguments range_min {F}.
Arguments idle {F}.
Arguments level {F}.
Arguments peak {F}.
Arguments peak_idx {F}.

Section Methods.

Context {F : Type} `{PyFloat F} (CONFIG : Config F).

(** [SignalProc(bit_proc)] *)
Definition init : t F :=
  {| frame_idx := 0;
     range_max := of_int (-0x10000);
     range_min := of_int 0x10000;
     idle := true;
     level := 0;
     peak := 0;
     peak_idx := 0 |}.

(** The envelope after the decay and the saturation by [sample]. *)
Definition new_range_max (self : t F) (sample : Z) : F :=
  let range_max := fmul (range_max self) (range_decay CONFIG) in
  if flt range_max (of_int sample) then of_int sample else range_max.

Definition new_range_min (self : t F) (sample : Z) : F :=
  let range_min := fmul (range_min self) (range_decay CONFIG) in
  if flt (of_int sample) range_min then of_int sample else range_min.

Definition dyn_range (self : t F) (sample : Z) : F :=
  fsub (new_range_max self sample) (new_range_min self sample).

Definition threshold (self : t F) (sample : Z) : F :=
  fadd (new_range_min self sample)
       (fdiv (dyn_range self sample) (of_int 2)).

(** [sample > threshold + (dyn_range/2) * CONFIG['hysteresis']] *)
Definition above_band (self : t F) (sample : Z) : bool :=
  flt (fadd (threshold self sample)
            (fmul (fdiv (dyn_range self sample) (of_int 2))
                  (hysteresis CONFIG)))
      (of_int sample).

(** [sample < threshold - (dyn_range/2) * CONFIG['hysteresis']] *)
Definition below_band (self : t F) (sample : Z) : bool :=
  flt (of_int sample)
      (fsub (threshold self sample)
            (fmul (fdiv (dyn_range self sample) (of_int 2))
                  (hysteresis CONFIG))).

(** The test of the peak detection. *)
Definition new_peak (self : t F) (sample : Z) : bool :=
  ((level self =? 1) && (peak self <? sample))
  || ((level self =? 0) && (sample <? peak self)).

(** [process_sample]: the object after the sample, and the calls made
    on [bit_proc], in order. *)
Definition process_sample (self : t F) (sample : Z)
  : t F * list bit_call :=
  let range_max := new_range_max self sample in
  let range_min := new_range_min self sample in
  (* Peak detection *)
  let '(peak, peak_idx) :=
    if new_peak self sample then (sample, frame_idx self)
    else (peak self, peak_idx self) in
  (* Determine Logic Level and Edge detection *)
  let '(level, edge) :=
    if (level self =? 0) && above_band self sample then (1, true)
    else if (level self =? 1) && below_band self sample then (0, true)
    else (level self, false) in
  (* Bit processor callbacks *)
  let calls :=
    CallSample (frame_idx self) level
    :: (if edge then [CallEdge (frame_idx self) peak_idx level] else []) in
  ({| frame_idx := frame_idx self + 1;
      range_max := range_max;
      range_min := range_min;
      idle := idle self;
      level := level;
      peak := peak;
      peak_idx := peak_idx |},
   calls).

End Methods.

End SignalProc.

(** ** The three stages wired together *)

Module Decoder.

Section Methods.

Context {F : Type} `{PyFloat F} (CONFIG : Config F).

Definition t : Type := (SignalProc.t F * BitProc.pipeline (F := F))%type.

Definition init : t :=
  (SignalProc.init, (BitProc.init, DataProc.init)).

(** The interpreter's recursion limit. *)
Definition recursion_limit : nat := 1000.

Definition dispatch (c : bit_call) : St BitProc.pipeline unit :=
  match c with
  | CallSample frame_idx level => BitProc.process_sample frame_idx level
  | CallEdge edge_idx peak_idx new_level =>
      BitProc.process_edge CONFIG recursion_limit edge_idx peak_idx new_level
  end.

(** [sig_proc.process_sample(sample)] *)
Definition process_sample (sample : Z) : St t unit := fun s =>
  let '(sp, calls) := SignalProc.process_sample CONFIG s.1 sample in
  match for_each calls dispatch s.2 with
  | Ok (_, bp) => Ok (tt, (sp, bp))
  | Raise e => Raise e
  end.

(** [sig_proc.process_eof()] *)
Definition process_eof : St t unit := fun s =>
  match BitProc.process_eof (SignalProc.frame_idx s.1) s.2 with
  | Ok (_, bp) => Ok (tt, (s.1, bp))
  | Raise e => Raise e
  end.

(** The main loop over the samples of the input. *)
Definition decode (input : list Z) : St t unit :=
  for_each input process_sample ;; process_eof.

End Methods.

End Decoder.

(** ** The BASIC lister, [ti99_4a_list_basic.py] *)

(** Code that prints and may raise: the lines written to standard output,
    and the outcome. *)
Definition Out (A : Type) : Type := (list string * result A)%type.

#[global] Instance Out_ret : MRet Out := fun A a => ([], Ok a).
#[global] Instance Out_bind : MBind Out := fun A B f m =>
  match m with
  | (w, Ok a) => let '(w', r) := f a in (w ++ w', r)
  | (w, Raise e) => (w, Raise e)
  end.

Definition print (s : string) : Out unit := ([s], Ok tt).
Definition fail {A} (e : exn) : Out A := ([], Raise e).
Definition quiet {A} (r : result A) : Out A := ([], r).

Module Basic.

Definition HDR_LEN : Z := 8.

(** [struct.unpack_from(">H", data, offset)[0]]; a negative offset counts
    from the end, and the two bytes must lie in the buffer. *)
Definition unpack_H (data : list byte) (offset : Z) : result Z :=
  let n := Z.of_nat (length data) in
  let o := if offset <? 0 then offset + n else offset in
  if (o <? 0) || (n <? o + 2) then Raise StructError
  else
    hi ← Py.getitem data o;
    lo ← Py.getitem data (o + 1);
    Ok (Py.ord hi * 256 + Py.ord lo).

(** [struct.unpack_from(">h", data, offset)[0]] *)
Definition unpack_h (data : list byte) (offset : Z) : result Z :=
  u ← unpack_H data offset;
  Ok (if u <? 0x8000 then u else u - 0x10000).

Record header : Type := mkHeader {
  chkword : Z;
  line_table_start : Z;
  line_table_end : Z;
  memory_end : Z
}.

(** [parse_header]; [None] is the [return None] of a checksum failure. *)
Definition parse_header (data : list byte) : Out (option header) :=
  if Z.of_nat (length data) <? HDR_LEN then
    print "ERROR: data to small to fit header" ;;
    fail (SystemExit 1)
  else
    chkword ← quiet (unpack_H data 0);
    line_table_start ← quiet (unpack_H data 2);
    line_table_end ← quiet (unpack_H data 4);
    memory_end ← quiet (unpack_H data 6);
    if negb (Z.lxor line_table_start line_table_end
             =? Z.land chkword 0x7fff)
    then print "header checksum failure" ;; mret None
    else mret (Some {| chkword := chkword;
                       line_table_start := line_table_start;
                       line_table_end := line_table_end;
                       memory_end := memory_end |}).

(** [header['line_table_start'] + 1 - header['line_table_end']] *)
Definition lt_len (h : header) : Z :=
  line_table_start h + 1 - line_table_end h.

(** [range(0, n, 4)] *)
Definition range_by_4 (n : Z) : list Z :=
  (fun k => 4 * k) <$> seqZ 0 ((n + 3) `div` 4).

(** The loop of [parse_line_table]. *)
Fixpoint line_table_loop (data : list byte) (h : header) (idxs : list Z)
         (lt : gmap Z Z) : result (gmap Z Z) :=
  match idxs with
  | [] => Ok lt
  | i :: idxs' =>
      entry0 ← unpack_H data (HDR_LEN + lt_len h - 4 - i);
      entry1 ← unpack_H data (HDR_LEN + lt_len h - 4 - i + 2);
      let lt := <[entry0 := entry1 - (line_table_start h + 1) + HDR_LEN
                            + lt_len h]> lt in
      let lt := <[entry0 := entry1 - (line_table_start h + 1) + HDR_LEN
                            + lt_len h - 1]> lt in
      line_table_loop data h idxs' lt
  end.

(** [parse_line_table] *)
Definition parse_line_table (data : list byte) (h : header)
  : Out (gmap Z Z) :=
  if Z.of_nat (length data) <? lt_len h + HDR_LEN then
    print "ERROR: Line table length to big for data" ;;
    fail (SystemExit 1)
  else if negb (lt_len h `mod` 4 =? 0) then
    print "ERROR: Line table length not multiple of 4" ;;
    fail (SystemExit 1)
  else
    quiet (line_table_loop data h (range_by_4 (lt_len h)) ∅).

(** The tokens that stand for a fixed text. *)
Definition simple_tokens : list (Z * string) :=
  [(0x81, "ELSE "); (0x82, " :: "); (0x84, "IF "); (0x85, "GO ");
   (0x86, "GOTO "); (0x87, "GOSUB "); (0x88, "RETURN "); (0x89, "DEF ");
   (0x8a, "DIM "); (0x8b, "END "); (0x8c, "FOR "); (0x8d, "LET ");
   (0x8e, "BREAK "); (0x8f, "UNBREAK "); (0x90, "TRACE "); (0x91, "UNTRACE ");
   (0x92, "INPUT "); (0x93, "DATA "); (0x94, "RESTORE "); (0x95, "RANDOMIZE ");
   (0x96, "NEXT "); (0x97, "READ "); (0x98, "STOP "); (0x99, "DELETE ");
   (0x9b, "ON "); (0x9c, "PRINT "); (0x9d, "CALL "); (0x9e, "OPTION ");
   (0x9f, "OPEN "); (0xa0, "CLOSE "); (0xa1, "SUB "); (0xa2, "DISPLAY ");
   (0xa3, "IMAGE "); (0xa4, "ACCEPT "); (0xa5, "ERROR "); (0xa6, "WARNING ");
   (0xa7, "SUBEXIT "); (0xa8, "SUBEND "); (0xa9, "RUN "); (0xaa, "LINPUT ");
   (0xb0, "THEN "); (0xb1, "TO "); (0xb2, "STEP "); (0xb3, ", ");
   (0xb4, " ; "); (0xb5, " : "); (0xb6, ") "); (0xb7, "( ");
   (0xb8, "& "); (0xba, "OR "); (0xbb, "AND "); (0xbc, "XOR ");
   (0xbd, "NOT "); (0xbe, "= "); (0xbf, "< "); (0xc0, "> ");
   (0xc1, "+ "); (0xc2, "- "); (0xc3, "* "); (0xc4, "/ ");
   (0xc5, "^ "); (0xca, "EOF "); (0xcb, "ABS "); (0xcc, "ATN ");
   (0xcd, "COS "); (0xce, "EXP "); (0xcf, "INT "); (0xd0, "LOG ");
   (0xd1, "SGN "); (0xd2, "SIN "); (0xd3, "SQR "); (0xd4, "TAN ");
   (0xd5, "LEN "); (0xd6, "CHR$ "); (0xd7, "RND "); (0xd8, "SEG$ ");
   (0xd9, "POS "); (0xda, "VAL "); (0xdb, "STR$ "); (0xdc, "ASC ");
   (0xdd, "PI "); (0xde, "REC "); (0xdf, "MAX "); (0xe0, "MIN ");
   (0xe1, "RPT$ "); (0xe8, "NUMERIC "); (0xe9, "DIGIT "); (0xea, "UALPHA ");
   (0xeb, "SIZE "); (0xec, "ALL "); (0xed, "USING "); (0xee, "BEEP ");
   (0xef, "ERASE "); (0xf0, "AT "); (0xf1, "BASE "); (0xf3, "VARIABLE ");
   (0xf4, "RELATIVE "); (0xf5, "INTERNAL "); (0xf6, "SEQUENTIAL "); (0xf7, "OUTPUT ");
   (0xf8, "UPDATE "); (0xf9, "APPEND "); (0xfa, "FIXED "); (0xfb, "PERMANENT ");
   (0xfc, "TAB "); (0xfd, "# "); (0xfe, "VALIDATE ")].

Fixpoint lookup_token (t : Z) (table : list (Z * string)) : option string :=
  match table with
  | [] => None
  | (k, s) :: table' => if t =? k then Some s else lookup_token t table'
  end.

Definition between (lo x hi : Z) : bool := (lo <=? x) && (x <=? hi).

(** The bytes that start an identifier. *)
Definition ident_start (token : Z) : bool :=
  between 65 token 90 || between 97 token 122
  || (token =? 92) || (token =? 91) || (token =? 93)
  || (token =? 95) || (token =? 64).

(** The characters that continue one; the three comparisons of the
    integer [token] with a string in the source are always false. *)
Definition ident_next (next_char : Z) : bool :=
  between 65 next_char 90 || between 97 next_char 122
  || between 48 next_char 57
  || (next_char =? 36) || (next_char =? 95) || (next_char =? 64).

(** [bytes.decode(encoding='latin-1')] *)
Definition latin1 (bs : list byte) : string := String.string_of_list_byte bs.

Definition dquote : string := latin1 [Byte.x22].

(** The inner [while] of the identifier branch; entered with the
    character at [addr + off] still to be read.  Every turn moves [off]
    on, and reading past the data raises, so twice the length of the data
    bounds the turns. *)
Fixpoint ident_loop (turns : nat) (data : list byte) (addr off : Z)
         (line : string) : result (string * Z) :=
  c ← Py.getitem data (addr + off);
  if ident_next (Py.ord c) then
    let off := off + 1 in
    let line := line +:+ latin1 [c] in
    if Py.ord c =? 36 then Ok (line, off)
    else
      match turns with
      | O => Raise IndexError
      | S turns' => ident_loop turns' data addr off line
      end
  else Ok (line, off).

(** One turn of the [while off < line_len] loop of [decode_line]: the
    new [line] and [off]. *)
Definition decode_token (data : list byte) (addr line_len : Z)
           (line : string) (off : Z) : Out (string * Z) :=
  t ← quiet (Py.getitem data (addr + off));
  let token := Py.ord t in
  let off := off + 1 in
  match lookup_token token simple_tokens with
  | Some text => mret (line +:+ text, off)
  | None =>
      if token =? 0x83 then
        mret (line +:+ " ! "
              +:+ latin1 (Py.slice data (addr + off) (addr + line_len)),
              line_len)
      else if token =? 0x9a then
        mret (line +:+ "REM "
              +:+ latin1 (Py.slice data (addr + off) (addr + line_len)),
              line_len)
      else if token =? 0xc7 then
        if line_len <? off + 1
        then fail (DecodeException "Quoted str. argument beyond EOL")
        else
          a ← quiet (Py.getitem data (addr + off));
          let arg_len := Py.ord a in
          let off := off + 1 in
          if line_len <? off + arg_len
          then fail (DecodeException "Quoted str. argument beyond EOL")
          else
            mret (line +:+ dquote
                  +:+ latin1 (Py.slice data (addr + off)
                                       (addr + off + arg_len))
                  +:+ dquote +:+ " ",
                  off + arg_len)
      else if token =? 0xc8 then
        if line_len <? off + 1
        then fail (DecodeException "Unquoted str. argument beyond EOL")
        else
          a ← quiet (Py.getitem data (addr + off));
          let arg_len := Py.ord a in
          let off := off + 1 in
          if line_len <? off + arg_len
          then fail (DecodeException "Unquoted str. argument beyond EOL")
          else
            mret (line
                  +:+ latin1 (Py.slice data (addr + off)
                                       (addr + off + arg_len))
                  +:+ " ",
                  off + arg_len)
      else if token =? 0xc9 then
        if line_len <? off + 2
        then fail (DecodeException "line # argument beyond EOL")
        else
          arg ← quiet (unpack_h data (addr + off));
          mret (line +:+ pretty arg, off + 2)
      else if ident_start token then
        r ← quiet (ident_loop (2 * length data) data addr off
                              (line +:+ latin1 [t]));
        mret (r.1 +:+ " ", r.2)
      else
        (* [print(line)], then the hex dump: [bytes] has no [encode], so
           this is where Python 3 leaves the function, before the
           [raise DecodeException("Invalid token ...")] below it *)
        print line ;;
        fail AttributeError
  end.

(** The [while] loop; a line is at most 255 bytes and every turn moves
    [off] on, so [turns] = 256 is never used up ([None]). *)
Fixpoint decode_loop (turns : nat) (data : list byte) (addr line_len : Z)
         (line : string) (off : Z) : option (Out string) :=
  if off <? line_len then
    match turns with
    | O => None
    | S turns' =>
        match decode_token data addr line_len line off with
        | (w, Ok (line, off)) =>
            match decode_loop turns' data addr line_len line off with
            | Some (w', r) => Some (w ++ w', r)
            | None => None
            end
        | (w, Raise e) => Some (w, Raise e)
        end
    end
  else Some ([], Ok line).

(** [decode_line] *)
Definition decode_line (data : list byte) (addr : Z) : Out string :=
  l ← quiet (Py.getitem data addr);
  let line_len := Py.ord l in
  if Z.of_nat (length data) <=? addr + line_len
  then fail (DecodeException "Line length beyond end of data")
  else
    eol ← quiet (Py.getitem data (addr + line_len));
    if negb (Py.ord eol =? 0)
    then fail (DecodeException "DECODE ERROR: Invalid EOL byte")
    else
      match decode_loop 256 data addr line_len EmptyString 1 with
      | Some r => r
      | None => fail RecursionError
      end.

(** ["{:5} {}".format(line, text)] *)
Definition format_line (line : Z) (text : string) : string :=
  let num := pretty line in
  latin1 (replicate (5 - String.length num) Byte.x20)
  +:+ num +:+ " " +:+ text.

(** [sorted(lt)] *)
Definition sorted (lt : gmap Z Z) : list Z :=
  merge_sort Z.le (map_to_list lt).*1.

(** The listing loop over the line numbers [lines]. *)
Fixpoint list_lines (data : list byte) (lt : gmap Z Z) (lines : list Z)
  : Out unit :=
  match lines with
  | [] => mret tt
  | line :: lines' =>
      (match lt !! line with
       | Some addr =>
           text ← decode_line data addr;
           print (format_line line text)
       | None => fail KeyError
       end) ;;
      list_lines data lt lines'
  end.

(** The script from reading the file on. *)
Definition main (data : list byte) : Out unit :=
  header ← parse_header data;
  match header with
  | None => fail TypeError
  | Some header =>
      lt ← parse_line_table data header;
      list_lines data lt (sorted lt)
  end.

End Basic.

(** ** Example inputs *)

(** The payload of the specification's round-trip scenario: the 64 bytes
    [0x01 .. 0x40]. *)
Definition payload_01_40 : list byte :=
  [Byte.x01; Byte.x02; Byte.x03; Byte.x04; Byte.x05; Byte.x06;
   Byte.x07; Byte.x08; Byte.x09; Byte.x0a; Byte.x0b; Byte.x0c;
   Byte.x0d; Byte.x0e; Byte.x0f; Byte.x10; Byte.x11; Byte.x12;
   Byte.x13; Byte.x14; Byte.x15; Byte.x16; Byte.x17; Byte.x18;
   Byte.x19; Byte.x1a; Byte.x1b; Byte.x1c; Byte.x1d; Byte.x1e;
   Byte.x1f; Byte.x20; Byte.x21; Byte.x22; Byte.x23; Byte.x24;
   Byte.x25; Byte.x26; Byte.x27; Byte.x28; Byte.x29; Byte.x2a;
   Byte.x2b; Byte.x2c; Byte.x2d; Byte.x2e; Byte.x2f; Byte.x30;
   Byte.x31; Byte.x32; Byte.x33; Byte.x34; Byte.x35; Byte.x36;
   Byte.x37; Byte.x38; Byte.x39; Byte.x3a; Byte.x3b; Byte.x3c;
   Byte.x3d; Byte.x3e; Byte.x3f; Byte.x40].

(** A run of [process_byte] calls, with the answers given. *)
Fixpoint feed (bytes : list (Z * Z)) : St DataProc.t (list (option signal)) :=
  match bytes with
  | [] => mret []
  | (val, bit_error_mask) :: rest =>
      r ← DataProc.process_byte val bit_error_mask;
      rs ← feed rest;
      mret (r :: rs)
  end.

(** A one-record program whose two copies are both damaged, in different
    bits.  The record on tape is [0x01] followed by 63 zero bytes, with
    checksum [0x01].  In the primary copy the low bit of the checksum byte
    was missed (received 0, flagged); in the secondary copy the low bit of
    the first payload byte was missed (received 0, flagged). *)
Module TwoDamagedCopies.

Definition true_payload : list Z := 1 :: replicate 63 0.
Definition header : list (Z * Z) := [(1, 0); (1, 0)].
Definition primary : list (Z * Z) :=
  zip (true_payload ++ [0]) (replicate 64 0 ++ [1]).



End TwoDamagedCopies.

(** A run of [process_edge] calls on a [BitProc] and its [DataProc]; each
    edge is given by its peak frame, is detected 4 frames later, and the
    levels alternate. *)
Definition run_edges `{PyFloat F} (CONFIG : Config F) (peaks : list Z)
  : St (BitProc.pipeline (F := F)) unit :=
  for_each (imap (fun n peak_idx => (n, peak_idx)) peaks)
           (fun '(n, peak_idx) =>
              BitProc.process_edge CONFIG 1000 (peak_idx + 4) peak_idx
                                   (if Nat.even n then 1 else 0)).

(** A tape with one boundary edge lost.  Symbols are 32 frames long.
    [pilot]: an edge at frame 0 and 401 zero symbols, which complete the
    training at frame 12832; [framing]: the byte [0xFF], eight symbols with
    an edge in the middle, which ends the resync at frame 13088;
    [first_byte]: the byte [0x80], whose first symbol has its middle edge
    at 13104 and whose second symbol lost the edge due at 13120. *)
Module LostEdge.

Definition pilot : list Z := 0 :: ((fun k => 32 * k) <$> seqZ 1 401).

Definition framing : list Z :=
  mjoin ((fun j => [12832 + 32 * j + 16; 12832 + 32 * (j + 1)])
           <$> seqZ 0 8).

Definition first_byte : list Z :=
  [13104; 13152; 13184; 13216; 13248; 13280; 13312; 13344].

Definition start : BitProc.pipeline (F := Q) :=
  (BitProc.init, DataProc.init).

End LostEdge.

(** BASIC images.  The line table starts at [0x37F7]; a line whose length
    byte is at offset [a] of the image has the pointer [a + 0x37E9] when the
    table has two entries. *)
Module Images.

(** Line 10 is the single byte [0x80], which is no token; line 20 is
    [PRINT "HI"]. *)
Definition bad_line_first : list byte :=
  [Byte.x00; Byte.x07; Byte.x37; Byte.xf7; Byte.x37; Byte.xf0;
   Byte.x37; Byte.xff;
   Byte.x00; Byte.x14; Byte.x37; Byte.xfc;
   Byte.x00; Byte.x0a; Byte.x37; Byte.xf9;
   Byte.x02; Byte.x80; Byte.x00;
   Byte.x06; Byte.x9c; Byte.xc7; Byte.x02; Byte.x48; Byte.x49; Byte.x00].

(** The same two lines with the numbers exchanged: [PRINT "HI"] is line
    10 and the bad line is line 20. *)
Definition bad_line_last : list byte :=
  [Byte.x00; Byte.x07; Byte.x37; Byte.xf7; Byte.x37; Byte.xf0;
   Byte.x37; Byte.xff;
   Byte.x00; Byte.x0a; Byte.x37; Byte.xfc;
   Byte.x00; Byte.x14; Byte.x37; Byte.xf9;
   Byte.x02; Byte.x80; Byte.x00;
   Byte.x06; Byte.x9c; Byte.xc7; Byte.x02; Byte.x48; Byte.x49; Byte.x00].

(** A header alone, whose line table has length 0:
    [line_table_end = line_table_start + 1]. *)
Definition empty_table : list byte :=
  [Byte.x00; Byte.x0f; Byte.x37; Byte.xf7; Byte.x37; Byte.xf8;
   Byte.x37; Byte.xff].

Definition empty_table_header : Basic.header :=
  {| Basic.chkword := 0x000f;
     Basic.line_table_start := 0x37f7;
     Basic.line_table_end := 0x37f8;
     Basic.memory_end := 0x37ff |}.

(** A header whose line table would have length 6. *)
Definition odd_table_header : Basic.header :=
  {| Basic.chkword := 0x0007;
     Basic.line_table_start := 0x37f7;
     Basic.line_table_end := 0x37f2;
     Basic.memory_end := 0x37ff |}.

End Images.

(** The bytes at which the token loop of [decode_line] gives up. *)
Definition invalid_token (token : Z) : bool :=
  match Basic.lookup_token token Basic.simple_tokens with
  | Some _ => false
  | None =>
      negb ((token =? 0x83) || (token =? 0x9a) || (token =? 0xc7)
            || (token =? 0xc8) || (token =? 0xc9)
            || Basic.ident_start token)
  end.

(** ** Auxiliary definitions for the claims about [BitProc] *)

Section BitProcAux.

Context {F : Type} `{PyFloat F} (CONFIG : Config F).

Import BitProc.

(** The byte and the error mask that the eighth bit completes. *)
Definition byte_done (b : t F) : Z :=
  Z.land (Z.lor (Z.shiftl (byte b) 1) (parity_bit b)) 0xff.

Definition mask_done (b : t F) (frame_idx : Z) : Z :=
  Z.land (Z.lor (Z.shiftl (bit_error_mask b) 1)
                (if negb (at_boundary CONFIG b frame_idx (expected b))
                 then 1 else 0)) 0xff.

(** [BitProc] after [NOTIFY_DONE]: the state [__clear_state] leaves, with
    [training_start] moved to the frame of the edge when the profile
    resyncs on every symbol. *)
Definition after_done (b : t F) (frame_idx : Z) : t F :=
  {| last_edge_idx := 0;
     training := true;
     training_matches := [];
     training_start := if continues_resync CONFIG then frame_idx else 0;
     edge_cnt := 0;
     resync := false;
     symbol_len := of_int 0;
     edges_within_symbol := 0;
     byte := 0;
     bit_error_mask := 0;
     bit_cnt := 0;
     resync_start_idx := resync_start_idx b;
     resync_max_symbol := resync_max_symbol b |}.

End BitProcAux.

(** ** Auxiliary definitions for further properties of the encoder *)

(** Record [i] of the padded data, as byte values. *)
Definition record_at (data : list byte) (i : nat) : list Z :=
  Py.ord <$> take 64 (drop (64 * i) data).

(** The records of the padded data. *)
Definition records_of (data : list byte) : list (list Z) :=
  record_at data <$> seq 0 (length data / 64).

(** ** Auxiliary definitions for further properties of [DataProc] *)

(** A value that fits a byte. *)
Definition is_byte (v : Z) : Prop := 0 <= v < 256.

(** A record payload: 64 byte values. *)
Definition is_record (r : list Z) : Prop :=
  length r = 64%nat /\ Forall is_byte r.

(** One copy of a record as [DataProc] receives it from a clean tape: the
    payload and the checksum, no bit flagged. *)
Definition clean_copy (r : list Z) : list (Z * Z) :=
  (fun v => (v, 0)) <$> (r ++ [TapeFormat.checksum r]).

(** All the bytes [DataProc] receives from a clean tape of the records
    [recs]: the record count twice, then both copies of every record. *)
Definition clean_stream (recs : list (list Z)) : list (Z * Z) :=
  [(Z.of_nat (length recs), 0); (Z.of_nat (length recs), 0)]
  ++ mjoin ((fun r => clean_copy r ++ clean_copy r) <$> recs).

(** [DataProc] between two records: [k] of [n] records done, their payloads
    [D] collected, nothing yet found corrupt. *)
Definition between_records (n k : Z) (D mask : list Z)
           (pb pm : option (list Z)) (fi : Z) (fs : list (Z * list Z))
  : DataProc.t :=
  {| DataProc.buf := []; DataProc.buf_error_mask := mask;
     DataProc.read_header := false; DataProc.rec_cnt := n;
     DataProc.rec_idx := k; DataProc.rec_primary := true;
     DataProc.rec_processed := false; DataProc.data_corrupt := false;
     DataProc.data := D;
     DataProc.rec_primary_buf := pb; DataProc.rec_primary_error_mask := pm;
     DataProc.file_idx := fi; DataProc.files := fs |}.

(** A [DataProc] that holds a failed primary copy and has received a
    secondary copy that fails too; the two error masks share bit 0 of the
    first byte. *)
Module OverlappingErrors.

Definition copy : list Z := replicate 64 0 ++ [1].
Definition mask : list Z := [1] ++ replicate 64 0.

Definition state : DataProc.t :=
  {| DataProc.buf := copy; DataProc.buf_error_mask := mask;
     DataProc.read_header := false; DataProc.rec_cnt := 2;
     DataProc.rec_idx := 0; DataProc.rec_primary := false;
     DataProc.rec_processed := false; DataProc.data_corrupt := false;
     DataProc.data := [];
     DataProc.rec_primary_buf := Some copy;
     DataProc.rec_primary_error_mask := Some mask;
     DataProc.file_idx := 0; DataProc.files := [] |}.

End OverlappingErrors.

(** * Properties *)

(** ** Python helpers *)

Lemma ord_range b : 0 <= Py.ord b < 256.
Proof.
  unfold Py.ord. pose proof (Byte.to_N_bounded b) as H. lia.
Qed.

(** ** Encoder *)

Section EncoderFacts.

Import Encoder.


Lemma land_0x80 b : (Z.land b 0x80 =? 0) = negb (Z.testbit b 7).
Proof.
  destruct (Z.testbit b 7) eqn:Hb; simpl.
  - apply Z.eqb_neq. intros H.
    assert (Z.testbit (Z.land b 0x80) 7 = true) as Ht.
    { rewrite Z.land_spec, Hb. reflexivity. }
    rewrite H in Ht. discriminate.
  - apply Z.eqb_eq. apply Z.bits_inj'. intros n Hn.
    rewrite Z.land_spec, Z.bits_0.
    change 0x80 with (2 ^ 7). rewrite Z.pow2_bits_eqb by lia.
    destruct (Z.eqb_spec 7 n) as [<-|]; [now rewrite Hb|].
    apply andb_false_r.
Qed.

Lemma half_symbol_ok st :
  level_ok st ->
  half_symbol st
  = Ok (tt, {| level := level st;
               samples := samples st ++ replicate 16 (level st) |}).
Proof.
  intros Hok. unfold level_ok in Hok.
  unfold half_symbol, Py.range, SYMBOL_LEN.
  change (seqZ 0 (32 `div` 2)) with (Z.of_nat <$> seq 0 16).
  destruct st as [lv w]. simpl in *.
  assert ((-0x8000 <=? lv) && (lv <=? 0x7fff) = true) as Hr.
  { apply andb_true_iff. split; apply Z.leb_le; lia. }
  unfold mbind, St_bind, get, output_write, mret, St_ret; simpl.
  repeat (rewrite Hr; simpl).
  repeat rewrite <- app_assoc. reflexivity.
Qed.

Lemma write_bit_ok b st :
  level_ok st ->
  write_bit b st
  = Ok (Z.shiftl b 1,
        {| level := (TapeFormat.symbol (level st) (Z.testbit b 7)).2;
           samples := samples st
                      ++ (TapeFormat.symbol (level st) (Z.testbit b 7)).1 |}).
Proof.
  intros Hok. unfold write_bit.
  unfold mbind at 1, St_bind at 1. unfold flip_level at 1, modify.
  unfold mbind at 1, St_bind at 1.
  rewrite half_symbol_ok by (unfold level_ok in *; simpl; lia).
  simpl level. simpl samples.
  rewrite land_0x80. unfold TapeFormat.symbol.
  destruct (Z.testbit b 7); simpl negb; cbv iota.
  - unfold mbind at 1, St_bind at 1. unfold flip_level, modify.
    unfold mbind at 1, St_bind at 1.
    rewrite half_symbol_ok by (unfold level_ok in *; simpl; lia).
    simpl. rewrite <- app_assoc. reflexivity.
  - unfold mbind at 1, St_bind at 1. unfold mret at 1, St_ret at 1.
    unfold mbind at 1, St_bind at 1.
    rewrite half_symbol_ok by (unfold level_ok in *; simpl; lia).
    simpl. rewrite <- app_assoc. reflexivity.
Qed.

Lemma symbol_level_ok lv bit :
  -0x7fff <= lv <= 0x7fff ->
  -0x7fff <= (TapeFormat.symbol lv bit).2 <= 0x7fff.
Proof. unfold TapeFormat.symbol. destruct bit; simpl; lia. Qed.

Lemma symbols_level_ok bits : forall lv,
  -0x7fff <= lv <= 0x7fff ->
  -0x7fff <= (TapeFormat.symbols lv bits).2 <= 0x7fff.
Proof.
  induction bits as [|bit bits IH]; intros lv Hlv;
    cbn [TapeFormat.symbols snd]; [lia|].
  pose proof (symbol_level_ok lv bit Hlv) as H1.
  destruct (TapeFormat.symbol lv bit) as [w l1]. simpl in H1.
  specialize (IH l1 H1).
  destruct (TapeFormat.symbols l1 bits) as [w' l2]. exact IH.
Qed.

Lemma wave_level_ok bytes : forall lv,
  -0x7fff <= lv <= 0x7fff ->
  -0x7fff <= (TapeFormat.wave lv bytes).2 <= 0x7fff.
Proof.
  induction bytes as [|b bytes IH]; intros lv Hlv;
    cbn [TapeFormat.wave snd]; [lia|].
  pose proof (symbols_level_ok (TapeFormat.msb_first b) lv Hlv) as H1.
  destruct (TapeFormat.symbols lv _) as [w l1]. simpl in H1.
  specialize (IH l1 H1).
  destruct (TapeFormat.wave l1 bytes) as [w' l2]. exact IH.
Qed.

Lemma emit_level_ok st bytes : level_ok st -> level_ok (emit st bytes).
Proof. intros H. apply wave_level_ok, H. Qed.


Lemma write_bits_ok n : forall b st,
  level_ok st ->
  write_bits n b st
  = Ok (Z.shiftl b (Z.of_nat n),
        {| level := (TapeFormat.symbols (level st) (loop_bits n b)).2;
           samples := samples st
                      ++ (TapeFormat.symbols (level st) (loop_bits n b)).1 |}).
Proof.
  induction n as [|n IH]; intros b st Hok.
  - simpl. unfold mret, St_ret. rewrite app_nil_r, Z.shiftl_0_r.
    destruct st; reflexivity.
  - cbn [write_bits loop_bits TapeFormat.symbols].
    unfold mbind, St_bind. rewrite write_bit_ok by assumption.
    rewrite IH by (apply symbol_level_ok, Hok). cbn [level samples].
    destruct (TapeFormat.symbol (level st) (Z.testbit b 7)) as [w l1].
    cbn [fst snd].
    destruct (TapeFormat.symbols l1 _) as [w' l2]. cbn [fst snd].
    rewrite Z.shiftl_shiftl by lia.
    replace (1 + Z.of_nat n) with (Z.of_nat (S n)) by lia.
    rewrite app_assoc. reflexivity.
Qed.

Lemma loop_bits_msb_first b : loop_bits 8 b = TapeFormat.msb_first b.
Proof.
  unfold TapeFormat.msb_first. cbn [loop_bits fmap list_fmap].
  rewrite !Z.shiftl_shiftl by lia.
  rewrite !Z.shiftl_spec by lia. reflexivity.
Qed.

Lemma write_byte_ok b st :
  level_ok st -> write_byte b st = Ok (tt, emit st [b]).
Proof.
  intros Hok. unfold write_byte, mbind, St_bind.
  rewrite write_bits_ok by assumption. rewrite loop_bits_msb_first.
  unfold emit. cbn [TapeFormat.wave mret St_ret].
  destruct (TapeFormat.symbols _ _) as [w l]. cbn [fst snd].
  rewrite app_nil_r. reflexivity.
Qed.

Lemma wave_app xs : forall lv ys,
  TapeFormat.wave lv (xs ++ ys)
  = ((TapeFormat.wave lv xs).1
       ++ (TapeFormat.wave (TapeFormat.wave lv xs).2 ys).1,
     (TapeFormat.wave (TapeFormat.wave lv xs).2 ys).2).
Proof.
  induction xs as [|x xs IH]; intros lv ys;
    cbn [TapeFormat.wave app fst snd].
  - destruct (TapeFormat.wave lv ys); reflexivity.
  - destruct (TapeFormat.symbols lv _) as [w l1]. rewrite IH.
    destruct (TapeFormat.wave l1 xs) as [w1 l2]. cbn [fst snd].
    rewrite app_assoc. reflexivity.
Qed.

Lemma emit_app st xs ys : emit st (xs ++ ys) = emit (emit st xs) ys.
Proof.
  unfold emit. rewrite wave_app. cbn [fst snd level samples].
  rewrite app_assoc. reflexivity.
Qed.

Lemma emit_nil st : emit st [] = st.
Proof. unfold emit. simpl. rewrite app_nil_r. destruct st; reflexivity. Qed.

(** A loop that sends [f x] for every [x] of [xs]. *)
Lemma for_each_write_byte {A} (f : A -> Z) (xs : list A) : forall st,
  level_ok st ->
  for_each xs (fun x => write_byte (f x)) st = Ok (tt, emit st (f <$> xs)).
Proof.
  induction xs as [|x xs IH]; intros st Hok.
  - cbn. rewrite emit_nil. reflexivity.
  - cbn [for_each fmap list_fmap]. unfold mbind, St_bind.
    rewrite write_byte_ok by assumption.
    rewrite IH by (apply emit_level_ok, Hok).
    rewrite <- emit_app. reflexivity.
Qed.

(** *** [write_byte] without an assumption on the level *)


Lemma write_bit_factor b st :
  write_bit b st
  = match write_bit_st (Z.testbit b 7) st with
    | Ok (_, s) => Ok (Z.shiftl b 1, s)
    | Raise e => Raise e
    end.
Proof.
  unfold write_bit, write_bit_st. rewrite land_0x80.
  unfold mbind, St_bind.
  destruct (flip_level st) as [[[] s1]|]; [|reflexivity].
  destruct (half_symbol s1) as [[[] s2]|]; [|reflexivity].
  destruct (Z.testbit b 7); cbn [negb].
  - destruct (flip_level s2) as [[[] s3]|]; [|reflexivity].
    destruct (half_symbol s3) as [[[] s4]|]; reflexivity.
  - unfold mret, St_ret.
    destruct (half_symbol s2) as [[[] s4]|]; reflexivity.
Qed.

Lemma write_bits_congr n : forall b b' st,
  loop_bits n b = loop_bits n b' ->
  (write_bits n b ;; mret tt) st = (write_bits n b' ;; mret tt) st.
Proof.
  induction n as [|n IH]; intros b b' st Hbits; [reflexivity|].
  cbn [loop_bits] in Hbits.
  assert (Z.testbit b 7 = Z.testbit b' 7) as H7 by congruence.
  assert (loop_bits n (Z.shiftl b 1) = loop_bits n (Z.shiftl b' 1)) as Hrest
    by congruence.
  clear Hbits.
  specialize (IH _ _ (match write_bit_st (Z.testbit b 7) st with
                      | Ok (_, s) => s | Raise _ => st end) Hrest).
  cbn [write_bits]. unfold mbind, St_bind in *.
  rewrite !write_bit_factor, <- H7.
  destruct (write_bit_st (Z.testbit b 7) st) as [[[] s]|]; [|reflexivity].
  exact IH.
Qed.

Lemma msb_first_mod b : TapeFormat.msb_first (b `mod` 256) = TapeFormat.msb_first b.
Proof.
  unfold TapeFormat.msb_first. cbn [fmap list_fmap].
  change 256 with (2 ^ 8).
  rewrite !Z.mod_pow2_bits_low by lia. reflexivity.
Qed.

Lemma write_byte_mod b st : write_byte b st = write_byte (b `mod` 256) st.
Proof.
  unfold write_byte. apply write_bits_congr.
  rewrite !loop_bits_msb_first. symmetry. apply msb_first_mod.
Qed.

Lemma for_each_output_len (xs : list Z) : forall st st',
  for_each xs (fun _ => s ← get; output_write (level s)) st = Ok (tt, st') ->
  exists w, length w = length xs /\ samples st' = samples st ++ w.
Proof.
  induction xs as [|x xs IH]; intros st st' H.
  - cbn in H. injection H as <-. exists []. now rewrite app_nil_r.
  - cbn [for_each] in H. unfold mbind, St_bind, get in H.
    unfold output_write at 1 in H.
    destruct ((-0x8000 <=? level st) && (level st <=? 0x7fff)); [|discriminate].
    apply IH in H as (w & Hlen & Hs). cbn [samples] in Hs.
    exists (level st :: w). split; [cbn; lia|].
    rewrite Hs, <- app_assoc. reflexivity.
Qed.

Lemma half_symbol_len st st' :
  half_symbol st = Ok (tt, st') ->
  exists w, length w = 16%nat /\ samples st' = samples st ++ w.
Proof. intros H. apply for_each_output_len in H. exact H. Qed.

Lemma write_bit_len b b' st st' :
  write_bit b st = Ok (b', st') ->
  exists w, length w = 32%nat /\ samples st' = samples st ++ w.
Proof.
  rewrite write_bit_factor. unfold write_bit_st, mbind, St_bind.
  unfold flip_level at 1, modify.
  destruct (half_symbol _) as [[[] s2]|] eqn:H1; [|discriminate].
  apply half_symbol_len in H1 as (w1 & Hl1 & Hs1). cbn [samples] in Hs1.
  assert (exists s3, (if Z.testbit b 7 then flip_level else mret tt) s2
                     = Ok (tt, s3) /\ samples s3 = samples s2) as (s3 & -> & Hs3).
  { destruct (Z.testbit b 7); eexists; split; reflexivity. }
  destruct (half_symbol s3) as [[[] s4]|] eqn:H2; [|discriminate].
  apply half_symbol_len in H2 as (w2 & Hl2 & Hs2).
  intros [= _ <-]. exists (w1 ++ w2). split.
  - rewrite length_app. lia.
  - rewrite Hs2, Hs3, Hs1, app_assoc. reflexivity.
Qed.

Lemma write_bits_len n : forall b b' st st',
  write_bits n b st = Ok (b', st') ->
  exists w, length w = (32 * n)%nat /\ samples st' = samples st ++ w.
Proof.
  induction n as [|n IH]; intros b b' st st' H.
  - cbn in H. injection H as _ <-. exists []. now rewrite app_nil_r.
  - cbn [write_bits] in H. unfold mbind, St_bind in H.
    destruct (write_bit b st) as [[b1 s1]|] eqn:H1; [|discriminate].
    apply write_bit_len in H1 as (w1 & Hl1 & Hs1).
    apply IH in H as (w2 & Hl2 & Hs2).
    exists (w1 ++ w2). split; [rewrite length_app; lia|].
    rewrite Hs2, Hs1, app_assoc. reflexivity.
Qed.

Lemma write_byte_len b st st' :
  write_byte b st = Ok (tt, st') ->
  exists w, length w = 256%nat /\ samples st' = samples st ++ w.
Proof.
  unfold write_byte, mbind, St_bind.
  destruct (write_bits 8 b st) as [[b1 s1]|] eqn:H1; [|discriminate].
  intros [= <-]. apply write_bits_len in H1. exact H1.
Qed.

(** *** The payload loop *)

Lemma payload_loop_inv data i js : forall chksum st c st',
  payload_loop data i js chksum st = Ok (c, st') ->
  exists cs, Forall2 (fun j x => Py.getitem data (i * 64 + j) = Ok x) js cs
             /\ c = chksum + TapeFormat.sumZ (Py.ord <$> cs).
Proof.
  induction js as [|j js IH]; intros chksum st c st' H.
  - cbn in H. injection H as <- _. exists []. split; [constructor|cbn; lia].
  - cbn [payload_loop] in H. unfold mbind, St_bind, lift in H.
    destruct (Py.getitem data (i * 64 + j)) as [x|] eqn:Hx; [|discriminate].
    destruct (write_byte (Py.ord x) st) as [[[] s1]|]; [|discriminate].
    apply IH in H as (cs & Hcs & ->).
    exists (x :: cs). split; [constructor; assumption|].
    cbn. unfold TapeFormat.sumZ. lia.
Qed.

Lemma payload_loop_ok data i js cs : forall chksum st,
  level_ok st ->
  Forall2 (fun j x => Py.getitem data (i * 64 + j) = Ok x) js cs ->
  payload_loop data i js chksum st
  = Ok (chksum + TapeFormat.sumZ (Py.ord <$> cs), emit st (Py.ord <$> cs)).
Proof.
  intros chksum st Hok H. revert chksum st Hok.
  induction H as [|j x js cs Hx _ IH]; intros chksum st Hok.
  - cbn. rewrite emit_nil, Z.add_0_r. reflexivity.
  - cbn [payload_loop]. unfold mbind, St_bind, lift. rewrite Hx.
    rewrite write_byte_ok by assumption.
    rewrite IH by (apply emit_level_ok, Hok).
    rewrite <- emit_app. cbn. f_equal. f_equal. unfold TapeFormat.sumZ. lia.
Qed.

Lemma const_range (c : Z) (n : nat) :
  (fun _ : Z => c) <$> Py.range (Z.of_nat n) = replicate n c.
Proof.
  unfold Py.range, seqZ. rewrite Nat2Z.id, <- list_fmap_compose.
  generalize 0%nat. induction n as [|n IH]; intros k; [reflexivity|].
  cbn. f_equal. apply IH.
Qed.

Lemma emit_mod st c : emit st [c `mod` 256] = emit st [c].
Proof. unfold emit. cbn [TapeFormat.wave]. rewrite msb_first_mod. reflexivity. Qed.

Lemma write_copy_ok data i cs st :
  level_ok st ->
  Forall2 (fun j x => Py.getitem data (i * 64 + j) = Ok x) (Py.range 64) cs ->
  write_copy data i st = Ok (tt, emit st (TapeFormat.copy (Py.ord <$> cs))).
Proof.
  intros Hok Hcs. unfold write_copy, mbind, St_bind.
  rewrite (for_each_write_byte (fun _ => 0x00)) by assumption.
  set (s1 := emit st _).
  assert (level_ok s1) as H1 by (apply emit_level_ok, Hok).
  rewrite write_byte_ok by assumption.
  set (s2 := emit s1 _).
  assert (level_ok s2) as H2 by (apply emit_level_ok, H1).
  rewrite (payload_loop_ok _ _ _ cs) by assumption.
  rewrite write_byte_ok by (apply emit_level_ok, H2).
  rewrite Z.add_0_l, <- emit_mod. subst s2 s1.
  rewrite <- !emit_app.
  change (Py.range 8) with (Py.range (Z.of_nat 8)).
  rewrite (const_range 0x00 8). reflexivity.
Qed.

Lemma getitem_whole_record (P : list byte) :
  length P = 64%nat ->
  Forall2 (fun j x => Py.getitem P (0 * 64 + j) = Ok x) (Py.range 64) P.
Proof.
  intros Hlen. apply Forall2_same_length_lookup_2.
  - unfold Py.range. rewrite length_seqZ, Hlen. reflexivity.
  - intros k j x Hj Hx. unfold Py.range in Hj.
    apply lookup_seqZ in Hj as [-> Hk].
    unfold Py.getitem. rewrite Hlen.
    replace (0 * 64 + (0 + Z.of_nat k)) with (Z.of_nat k) by lia.
    destruct (Z.ltb_spec (Z.of_nat k) 0); [lia|].
    destruct (Z.leb_spec 0 (Z.of_nat k)); [|lia].
    destruct (Z.ltb_spec (Z.of_nat k) (Z.of_nat 64)); [|lia].
    cbn [andb]. rewrite Nat2Z.id, Hx. reflexivity.
Qed.

Lemma symbols_length bits : forall lv,
  length (TapeFormat.symbols lv bits).1 = (32 * length bits)%nat.
Proof.
  induction bits as [|bit bits IH]; intros lv; [reflexivity|].
  cbn [TapeFormat.symbols].
  assert (length (TapeFormat.symbol lv bit).1 = 32%nat) as Hs.
  { unfold TapeFormat.symbol. cbn [fst].
    rewrite length_app, !length_replicate. reflexivity. }
  destruct (TapeFormat.symbol lv bit) as [w l1].
  specialize (IH l1). destruct (TapeFormat.symbols l1 bits) as [w' l2].
  cbn [fst] in *. rewrite length_app, IH, Hs. cbn [length]. lia.
Qed.

Lemma wave_length bytes : forall lv,
  length (TapeFormat.wave lv bytes).1 = (8 * 32 * length bytes)%nat.
Proof.
  induction bytes as [|b bytes IH]; intros lv; [reflexivity|].
  cbn [TapeFormat.wave].
  pose proof (symbols_length (TapeFormat.msb_first b) lv) as Hs.
  destruct (TapeFormat.symbols lv _) as [w l1].
  specialize (IH l1). destruct (TapeFormat.wave l1 bytes) as [w' l2].
  cbn [fst] in *. rewrite length_app, IH, Hs.
  unfold TapeFormat.msb_first. cbn [fmap list_fmap length]. lia.
Qed.

Lemma main_single_record (P : list byte) :
  length P = 64%nat ->
  main P init = Ok (tt, emit init (TapeFormat.tape [Py.ord <$> P])).
Proof.
  intros Hlen. unfold main.
  assert (pad P = P) as ->.
  { unfold pad. rewrite Hlen. reflexivity. }
  assert (nrecords P = 1) as ->.
  { unfold nrecords. rewrite Hlen. reflexivity. }
  change (0xff <? 1) with false. cbv iota.
  assert (level_ok init) as H0 by (unfold level_ok, init, MAX_LEVEL; simpl; lia).
  unfold mbind, St_bind.
  rewrite (for_each_write_byte (fun _ => 0x00)) by assumption.
  set (s1 := emit init _).
  assert (level_ok s1) as H1 by (apply emit_level_ok, H0).
  rewrite write_byte_ok by assumption.
  set (s2 := emit s1 _).
  assert (level_ok s2) as H2 by (apply emit_level_ok, H1).
  rewrite write_byte_ok by assumption.
  set (s3 := emit s2 _).
  assert (level_ok s3) as H3 by (apply emit_level_ok, H2).
  rewrite write_byte_ok by assumption.
  set (s4 := emit s3 _).
  assert (level_ok s4) as H4 by (apply emit_level_ok, H3).
  change (Py.range 1) with [0]. cbn [for_each].
  unfold write_record. change (Py.range 2) with [0; 1]. cbn [for_each].
  unfold mbind, St_bind.
  rewrite (write_copy_ok P 0 P) by (auto using getitem_whole_record).
  set (s5 := emit s4 _).
  assert (level_ok s5) as H5 by (apply emit_level_ok, H4).
  rewrite (write_copy_ok P 0 P) by (auto using getitem_whole_record).
  unfold mret, St_ret. subst s5 s4 s3 s2 s1.
  rewrite <- !emit_app.
  change (Py.range INITIAL_SYNC_LEN) with (Py.range (Z.of_nat 768)).
  rewrite (const_range 0x00 768).
  unfold TapeFormat.tape. cbn [length fmap list_fmap mjoin list_join].
  rewrite app_nil_r. reflexivity.
Qed.

Lemma copy_length (payload : list Z) :
  length (TapeFormat.copy payload) = (8 + 1 + length payload + 1)%nat.
Proof.
  unfold TapeFormat.copy.
  repeat (rewrite length_app || rewrite length_replicate).
  cbn [length]. lia.
Qed.

Lemma tape_single_length (payload : list Z) :
  length payload = 64%nat ->
  length (TapeFormat.tape [payload]) = 919%nat.
Proof.
  intros Hlen. unfold TapeFormat.tape.
  rewrite length_app, length_replicate.
  change ([255; Z.of_nat (length [payload]); Z.of_nat (length [payload])]
          ++ mjoin ((fun r => TapeFormat.copy r ++ TapeFormat.copy r)
                      <$> [payload]))
    with (255 :: 1 :: 1
          :: (TapeFormat.copy payload ++ TapeFormat.copy payload) ++ []).
  cbn [length]. rewrite app_nil_r, length_app, !copy_length, Hlen.
  reflexivity.
Qed.

End EncoderFacts.

(** ** DataProc: the record checksum *)

Section ChecksumFacts.

Import DataProc.

Lemma land_0xff x : Z.land x 0xff = x `mod` 256.
Proof. change 0xff with (Z.ones 8). rewrite Z.land_ones by lia. reflexivity. Qed.

Lemma checksum_loop (P : list Z) : forall a,
  foldl (fun chksum x => Z.land (chksum + x) 0xff) (a `mod` 256) P
  = (a + TapeFormat.sumZ P) `mod` 256.
Proof.
  induction P as [|x P IH]; intros a; cbn [foldl TapeFormat.sumZ foldr].
  - rewrite Z.add_0_r. reflexivity.
  - rewrite land_0xff, IH. fold (TapeFormat.sumZ P).
    rewrite <- Z.add_assoc, Z.add_mod_idemp_l by lia. reflexivity.
Qed.

Lemma slice_drop_last {A} (l : list A) (x : A) : Py.slice (l ++ [x]) 0 (-1) = l.
Proof.
  unfold Py.slice, Py.bound. rewrite length_app. cbn [length].
  change (0 <? 0) with false. change (-1 <? 0) with true. cbv iota.
  rewrite Z.min_l by lia. rewrite Z.max_l by lia.
  replace (Z.to_nat (-1 + Z.of_nat (length l + 1) - 0)) with (length l) by lia.
  cbn [Z.to_nat drop]. apply take_app_length.
Qed.

Lemma getitem_last {A} (l : list A) (x : A) : Py.getitem (l ++ [x]) (-1) = Ok x.
Proof.
  unfold Py.getitem. rewrite length_app. cbn [length].
  change (-1 <? 0) with true. cbv iota.
  destruct (Z.leb_spec 0 (-1 + Z.of_nat (length l + 1))); [|lia].
  destruct (Z.ltb_spec (-1 + Z.of_nat (length l + 1))
                       (Z.of_nat (length l + 1))); [|lia].
  cbn [andb].
  replace (Z.to_nat (-1 + Z.of_nat (length l + 1))) with (length l) by lia.
  rewrite list_lookup_middle by reflexivity. reflexivity.
Qed.

(** [__verify_record] on a buffer of 64 payload characters and one more. *)
Lemma verify_record_spec (self : t) (P : list Z) (c : Z) :
  buf self = P ++ [c] ->
  length P = 64%nat ->
  verify_record self = (TapeFormat.sumZ P `mod` 256 =? c).
Proof.
  intros Hbuf Hlen. unfold verify_record. rewrite Hbuf.
  rewrite length_app, Hlen. cbn [length Nat.add].
  change (Z.of_nat 65 =? RECORD_LEN + CHKSUM_LEN) with true. cbn [negb].
  rewrite slice_drop_last, getitem_last.
  change 0 with (0 `mod` 256) at 1. rewrite checksum_loop, Z.add_0_l.
  destruct (_ =? c); reflexivity.
Qed.

End ChecksumFacts.

(** ** Claims about the encoder and the checksum *)

(** C1.  For every 64-byte payload [P]: the checksum the encoder computes
    for a record copy is the sum of the payload bytes, and the copy it emits
    (8 zero bytes, [0xFF], the payload, the checksum) carries that sum
    modulo 256 as its last byte; the decoder's [__verify_record] accepts a
    65-character buffer made of [P] and one more character [c] exactly when
    [c] is the sum of the bytes of [P] modulo 256, and rejects it
    otherwise. *)
Theorem C1_checksum_law (P : list byte) :
  length P = 64%nat ->
  (forall st, level_ok st ->
     Encoder.payload_loop P 0 (Py.range 64) 0 st
     = Ok (TapeFormat.sumZ (Py.ord <$> P), emit st (Py.ord <$> P))
     /\ Encoder.write_copy P 0 st
        = Ok (tt, emit st (replicate 8 0x00 ++ [0xff] ++ (Py.ord <$> P)
                           ++ [TapeFormat.sumZ (Py.ord <$> P) `mod` 256])))
  /\ (forall (self : DataProc.t) (c : Z),
        DataProc.buf self = (Py.ord <$> P) ++ [c] ->
        (c = TapeFormat.sumZ (Py.ord <$> P) `mod` 256 ->
         DataProc.verify_record self = true)
        /\ (c <> TapeFormat.sumZ (Py.ord <$> P) `mod` 256 ->
            DataProc.verify_record self = false)).
Proof.
  intros Hlen. split.
  - intros st Hok. split.
    + rewrite (payload_loop_ok P 0 _ P) by auto using getitem_whole_record.
      reflexivity.
    + rewrite (write_copy_ok P 0 P) by auto using getitem_whole_record.
      reflexivity.
  - intros self c Hbuf.
    rewrite (verify_record_spec self (Py.ord <$> P) c Hbuf)
      by (rewrite length_fmap; exact Hlen).
    split; intros Hc.
    + apply Z.eqb_eq. congruence.
    + apply Z.eqb_neq. congruence.
Qed.

Lemma C1_checksum_law_witness :
  (forall st, level_ok st ->
     Encoder.payload_loop payload_01_40 0 (Py.range 64) 0 st
     = Ok (TapeFormat.sumZ (Py.ord <$> payload_01_40),
           emit st (Py.ord <$> payload_01_40))
     /\ Encoder.write_copy payload_01_40 0 st
        = Ok (tt, emit st (replicate 8 0x00 ++ [0xff]
                           ++ (Py.ord <$> payload_01_40)
                           ++ [TapeFormat.sumZ (Py.ord <$> payload_01_40)
                               `mod` 256])))
  /\ (forall (self : DataProc.t) (c : Z),
        DataProc.buf self = (Py.ord <$> payload_01_40) ++ [c] ->
        (c = TapeFormat.sumZ (Py.ord <$> payload_01_40) `mod` 256 ->
         DataProc.verify_record self = true)
        /\ (c <> TapeFormat.sumZ (Py.ord <$> payload_01_40) `mod` 256 ->
            DataProc.verify_record self = false)).
Proof. apply (C1_checksum_law payload_01_40). reflexivity. Defined.

(** C6.  A 64-byte input gives one record, and the samples written are the
    wave form, MSB first and 32 samples a bit, of: 768 zero bytes, [0xFF],
    the record count 1 twice, then two copies of 8 zero bytes, [0xFF], the
    64 payload bytes and the checksum byte; that is
    (768 + 1 + 1 + 1 + 2 * (8 + 1 + 64 + 1)) * 8 * 32 samples. *)
Theorem C6_single_record_tape (P : list byte) :
  length P = 64%nat ->
  Encoder.nrecords (Encoder.pad P) = 1
  /\ exists w,
       Encoder.encode P = Ok w
       /\ w = (TapeFormat.wave Encoder.MAX_LEVEL
                 (replicate 768 0x00 ++ [0xff; 1; 1]
                  ++ (replicate 8 0x00 ++ [0xff] ++ (Py.ord <$> P)
                      ++ [TapeFormat.checksum (Py.ord <$> P)])
                  ++ (replicate 8 0x00 ++ [0xff] ++ (Py.ord <$> P)
                      ++ [TapeFormat.checksum (Py.ord <$> P)]))).1
       /\ Z.of_nat (length w)
          = (768 + 1 + 1 + 1 + 2 * (8 + 1 + 64 + 1)) * 8 * 32.
Proof.
  intros Hlen. split.
  - unfold Encoder.pad. rewrite Hlen.
    change (64 - Z.of_nat 64 `mod` 64 =? 64) with true. cbv iota.
    unfold Encoder.nrecords. rewrite Hlen. reflexivity.
  - eexists. split; [|split].
    + unfold Encoder.encode. rewrite main_single_record by assumption.
      reflexivity.
    + unfold emit, Encoder.init, TapeFormat.tape, TapeFormat.copy.
      cbn [Encoder.samples Encoder.level app length fmap list_fmap
           mjoin list_join].
      rewrite app_nil_r, <- !app_assoc. reflexivity.
    + unfold emit. cbn [Encoder.samples Encoder.init app].
      rewrite wave_length, tape_single_length
        by (rewrite length_fmap; exact Hlen).
      rewrite !Nat2Z.inj_mul. reflexivity.
Qed.

Lemma C6_single_record_tape_witness :
  Encoder.nrecords (Encoder.pad payload_01_40) = 1
  /\ exists w,
       Encoder.encode payload_01_40 = Ok w
       /\ w = (TapeFormat.wave Encoder.MAX_LEVEL
                 (replicate 768 0x00 ++ [0xff; 1; 1]
                  ++ (replicate 8 0x00 ++ [0xff] ++ (Py.ord <$> payload_01_40)
                      ++ [TapeFormat.checksum (Py.ord <$> payload_01_40)])
                  ++ (replicate 8 0x00 ++ [0xff] ++ (Py.ord <$> payload_01_40)
                      ++ [TapeFormat.checksum (Py.ord <$> payload_01_40)]))).1
       /\ Z.of_nat (length w)
          = (768 + 1 + 1 + 1 + 2 * (8 + 1 + 64 + 1)) * 8 * 32.
Proof. apply (C6_single_record_tape payload_01_40). reflexivity. Defined.

(** C10.  For every non-negative [b], [write_byte(b)] does what
    [write_byte(b mod 256)] does, and what it writes is 256 samples: the
    wave form of the low eight bits of [b]; so the checksum, summed without
    masking in the record loop, goes on tape as the sum of the payload bytes
    modulo 256. *)
Theorem C10_write_byte_low_eight_bits (b : Z) :
  0 <= b ->
  (forall st, Encoder.write_byte b st = Encoder.write_byte (b `mod` 256) st)
  /\ (forall st st',
        Encoder.write_byte b st = Ok (tt, st') ->
        exists w, length w = 256%nat
                  /\ Encoder.samples st' = Encoder.samples st ++ w)
  /\ (forall st, level_ok st ->
        Encoder.write_byte b st = Ok (tt, emit st [b `mod` 256]))
  /\ (forall data i st chksum st',
        Encoder.payload_loop data i (Py.range 64) 0 st = Ok (chksum, st') ->
        exists payload,
          Forall2 (fun j x => Py.getitem data (i * 64 + j) = Ok x)
                  (Py.range 64) payload
          /\ chksum = TapeFormat.sumZ (Py.ord <$> payload)
          /\ Encoder.write_byte chksum st'
             = Encoder.write_byte
                 (TapeFormat.checksum (Py.ord <$> payload)) st').
Proof.
  intros _. split; [|split; [|split]].
  - intros st. apply write_byte_mod.
  - intros st st'. apply write_byte_len.
  - intros st Hok. rewrite write_byte_ok by assumption.
    rewrite emit_mod. reflexivity.
  - intros data i st chksum st' Hloop.
    apply payload_loop_inv in Hloop as (payload & Hp & ->).
    exists payload. split; [exact Hp|]. split; [lia|].
    rewrite Z.add_0_l. apply write_byte_mod.
Qed.

Lemma C10_write_byte_low_eight_bits_witness :
  (forall st, Encoder.write_byte 0x1a5 st
              = Encoder.write_byte (0x1a5 `mod` 256) st)
  /\ (forall st st',
        Encoder.write_byte 0x1a5 st = Ok (tt, st') ->
        exists w, length w = 256%nat
                  /\ Encoder.samples st' = Encoder.samples st ++ w)
  /\ (forall st, level_ok st ->
        Encoder.write_byte 0x1a5 st = Ok (tt, emit st [0x1a5 `mod` 256]))
  /\ (forall data i st chksum st',
        Encoder.payload_loop data i (Py.range 64) 0 st = Ok (chksum, st') ->
        exists payload,
          Forall2 (fun j x => Py.getitem data (i * 64 + j) = Ok x)
                  (Py.range 64) payload
          /\ chksum = TapeFormat.sumZ (Py.ord <$> payload)
          /\ Encoder.write_byte chksum st'
             = Encoder.write_byte
                 (TapeFormat.checksum (Py.ord <$> payload)) st').
Proof. apply (C10_write_byte_low_eight_bits 0x1a5). lia. Defined.

(** ** Claims about [DataProc] *)

Section DataProcFacts.

Import DataProc.

Lemma recover_record_keeps (self self' : t) (ok : bool) :
  recover_record self = Ok (ok, self') ->
  rec_idx self' = rec_idx self /\ rec_cnt self' = rec_cnt self
  /\ data self' = data self.
Proof.
  unfold recover_record. intros Hrec.
  destruct (rec_primary_buf self), (rec_primary_error_mask self);
    try discriminate.
  repeat match type of Hrec with
         | (if ?c then _ else _) = _ => destruct c; try discriminate
         | match ?c with _ => _ end = _ => destruct c; try discriminate
         end;
    injection Hrec as _ <-; auto.
Qed.

(** What the secondary copy's turn of [_process_record] appends when both
    copies failed and the reconstruction validates: [record_data], the
    slice taken of the buffer before [__recover_record] replaced it. *)
Lemma process_record_recovered (self self' : t) :
  buf self <> [] ->
  rec_primary self = false ->
  rec_processed self = false ->
  verify_record self = false ->
  recover_record self = Ok (true, self') ->
  rec_idx self + 1 <> rec_cnt self ->
  exists final,
    process_record self = Ok (Some REQUEST_RESYNC, final)
    /\ data final = data self ++ Py.slice (buf self) 0 (-1).
Proof.
  intros Hbuf Hprim Hproc Hver Hrec Hne.
  destruct (recover_record_keeps _ _ _ Hrec) as (Hi & Hc & Hd).
  unfold process_record. rewrite Hprim, Hproc, Hver.
  rewrite bool_decide_eq_false_2 by assumption. cbn [negb].
  unfold mbind at 1, St_bind at 1. unfold mbind at 1, St_bind at 1.
  unfold mbind at 1, St_bind at 1. unfold mbind at 1, St_bind at 1.
  rewrite Hrec. cbn [negb lift].
  unfold mbind, St_bind, modify, mret, St_ret, get, lift. cbn.
  rewrite Hi, Hc.
  destruct (Z.eqb_spec (rec_idx self + 1) (rec_cnt self)) as [Heq|_];
    [contradiction|].
  eexists. split; [reflexivity|]. cbn. rewrite Hd. reflexivity.
Qed.

Lemma chr_byte v : 0 <= v < 256 -> Py.chr v = Ok v.
Proof.
  intros Hv. unfold Py.chr.
  destruct (Z.leb_spec 0 v); [|lia].
  destruct (Z.ltb_spec v 0x110000); [|lia]. reflexivity.
Qed.

(** The first byte of a header is kept, and nothing is reported. *)
Lemma header_first_byte (self : t) (v m : Z) :
  read_header self = true ->
  buf self = [] ->
  0 <= v < 256 -> 0 <= m < 256 ->
  process_byte v m self
  = Ok (None, set_buf_error_mask (buf_error_mask self ++ [m])
                                 (set_buf [v] self)).
Proof.
  intros Hh Hb Hv Hm. unfold process_byte.
  unfold mbind, St_bind, lift, modify, get.
  rewrite !chr_byte by assumption. cbn. rewrite Hh, Hb. reflexivity.
Qed.

(** The second byte decides. *)
Lemma header_second_byte (self : t) (v1 v2 m : Z) :
  read_header self = true ->
  buf self = [v1] ->
  0 <= v2 < 256 -> 0 <= m < 256 ->
  process_byte v2 m self
  = if v1 =? v2
    then Ok (Some REQUEST_RESYNC,
             set_buf [] (set_header v1
               (set_buf_error_mask (buf_error_mask self ++ [m])
                                   (set_buf [v1; v2] self))))
    else Ok (Some NOTIFY_DONE, clear_state self).
Proof.
  intros Hh Hb Hv Hm. unfold process_byte.
  unfold mbind, St_bind, lift, modify, get.
  rewrite !chr_byte by assumption. cbn. rewrite Hh, Hb.
  unfold process_header. cbn. unfold mbind, result_bind.
  change (Z.of_nat 2 =? 2) with true.
  change (Py.getitem [v1; v2] 0) with (Ok v1).
  change (Py.getitem [v1; v2] 1) with (Ok v2).
  cbv iota. destruct (v1 =? v2); reflexivity.
Qed.

End DataProcFacts.


(** ** Claims about [BitProc] *)

Section BitProcFacts.

Context {F : Type} `{PyFloat F} (CONFIG : Config F).

Import BitProc.

Lemma land_0xff_range x : 0 <= Z.land x 0xff < 256.
Proof. rewrite land_0xff. apply Z.mod_pos_bound. lia. Qed.

(** The eighth bit of the second header byte, when the two bytes
    differ. *)
Lemma active_symbol_header_mismatch (b : t F) (d : DataProc.t)
      (frame_idx level_len v1 : Z) :
  negb (at_boundary CONFIG b frame_idx (expected b))
    && (frame_idx <? expected b) = false ->
  bit_cnt b = 7 ->
  DataProc.read_header d = true ->
  DataProc.buf d = [v1] ->
  v1 <> byte_done b ->
  active_symbol CONFIG frame_idx level_len (b, d)
  = Ok (None, (after_done CONFIG b frame_idx, DataProc.clear_state d)).
Proof.
  intros Hsym Hcnt Hh Hbuf Hne.
  unfold active_symbol, self, update, data_proc, modify, get.
  unfold mbind, St_bind, mret, St_ret.
  cbn [fst snd]. rewrite Hsym.
  cbn [fst snd bit_cnt set_bit_cnt set_byte set_bit_error_mask
       set_edge_cnt set_edges_within_symbol byte bit_error_mask edge_cnt].
  rewrite Hcnt. change (7 + 1 =? 8) with true. cbv iota beta.
  cbn [fst snd].
  fold (byte_done b). fold (mask_done CONFIG b frame_idx).
  rewrite (header_second_byte d v1 (byte_done b) (mask_done CONFIG b frame_idx))
    by (assumption || (unfold byte_done, mask_done; apply land_0xff_range)).
  destruct (Z.eqb_spec v1 (byte_done b)) as [|_]; [contradiction|].
  cbn [fst snd]. unfold after_done.
  destruct (continues_resync CONFIG); reflexivity.
Qed.

End BitProcFacts.

(** C3, the code at a tape with one lost edge (profile [peak1], symbols of
    32 frames).  After the pilot and the framing byte the decoder is in the
    ACTIVE phase; the first symbol of the next byte has an edge in its
    middle, and the edge that should end it is lost.  At the next edge the
    symbol is found missed, and the bit synthesized for it is 1, flagged in
    the error mask; the byte handed to [DataProc] is [0x80] with the error
    mask [0x80]. *)
Theorem C3_missed_symbol_bit_not_zero :
  exists b d,
    run_edges peak1 (LostEdge.pilot ++ LostEdge.framing ++ [13104])
              LostEdge.start = Ok (tt, (b, d))
    /\ BitProc.training b = false /\ BitProc.resync b = false
    /\ BitProc.edges_within_symbol b = 1
    /\ BitProc.bit_cnt b = 0 /\ BitProc.bit_error_mask b = 0
    /\ BitProc.byte b = 0xff
    (* the edge at 13152 is beyond the expected boundary: a missed symbol *)
    /\ BitProc.expected b = 13120
    /\ BitProc.at_boundary peak1 b 13152 13120 = false
    /\ exists b' d',
         BitProc.process_edge peak1 1000 13156 13152 1 (b, d)
         = Ok (tt, (b', d'))
         (* two bits were shifted in: the synthesized one and the one that
            the edge itself ends *)
         /\ BitProc.bit_cnt b' = 2
         /\ BitProc.byte b' = 0xfe
         /\ BitProc.bit_error_mask b' = 0x02
         /\ exists b'' d'',
              run_edges peak1
                        (LostEdge.pilot ++ LostEdge.framing
                         ++ LostEdge.first_byte)
                        LostEdge.start = Ok (tt, (b'', d''))
              /\ DataProc.buf d'' = [0x80]
              /\ DataProc.buf_error_mask d'' = [0x80]
              /\ Z.land 0x80 0x80 <> 0.
Proof.
  eexists _, _. split; [vm_compute; reflexivity|].
  repeat (split; [reflexivity|]).
  eexists _, _. split; [vm_compute; reflexivity|].
  repeat (split; [reflexivity|]).
  eexists _, _. split; [vm_compute; reflexivity|].
  repeat (split; [reflexivity|]). discriminate.
Qed.

(** C4.  In the header phase [DataProc] collects two bytes: the first is
    kept and nothing is reported.  If the second differs, no data is
    appended and no file written, the state is cleared and [NOTIFY_DONE]
    is returned; [BitProc], whose eighth bit completed that byte, then
    clears its own state and is in TRAINING again (its [training_start]
    alone is set to the frame of the edge, when the profile resyncs on
    every symbol).  If the two are equal, their value is [rec_cnt] and
    [REQUEST_RESYNC] is returned. *)
Theorem C4_header_two_bytes {F : Type} `{PyFloat F} (CONFIG : Config F)
        (d : DataProc.t) (v1 m1 v2 m2 : Z) :
  DataProc.read_header d = true ->
  DataProc.buf d = [] ->
  0 <= v1 < 256 -> 0 <= m1 < 256 -> 0 <= v2 < 256 -> 0 <= m2 < 256 ->
  exists d1,
    DataProc.process_byte v1 m1 d = Ok (None, d1)
    /\ DataProc.read_header d1 = true
    /\ DataProc.buf d1 = [v1]
    /\ (v1 <> v2 ->
        DataProc.process_byte v2 m2 d1
        = Ok (Some NOTIFY_DONE, DataProc.clear_state d)
        /\ DataProc.data (DataProc.clear_state d) = []
        /\ DataProc.files (DataProc.clear_state d) = DataProc.files d
        /\ DataProc.read_header (DataProc.clear_state d) = true
        /\ forall (b : BitProc.t F) (frame_idx level_len : Z),
             negb (BitProc.at_boundary CONFIG b frame_idx (BitProc.expected b))
               && (frame_idx <? BitProc.expected b) = false ->
             BitProc.bit_cnt b = 7 ->
             byte_done b = v2 ->
             BitProc.active_symbol CONFIG frame_idx level_len (b, d1)
             = Ok (None, (after_done CONFIG b frame_idx,
                          DataProc.clear_state d))
             /\ BitProc.training (after_done CONFIG b frame_idx) = true
             /\ BitProc.resync (after_done CONFIG b frame_idx) = false)
    /\ (v1 = v2 ->
        exists d2,
          DataProc.process_byte v2 m2 d1 = Ok (Some REQUEST_RESYNC, d2)
          /\ DataProc.rec_cnt d2 = v1
          /\ DataProc.rec_idx d2 = 0
          /\ DataProc.read_header d2 = false
          /\ DataProc.buf d2 = []
          /\ DataProc.data d2 = DataProc.data d
          /\ DataProc.files d2 = DataProc.files d).
Proof.
  intros Hh Hb Hv1 Hm1 Hv2 Hm2.
  eexists. split; [apply header_first_byte; assumption|].
  split; [exact Hh|]. split; [reflexivity|]. split.
  - intros Hne.
    split.
    { rewrite (header_second_byte _ v1 v2 m2) by (assumption || reflexivity).
      destruct (Z.eqb_spec v1 v2); [contradiction|]. reflexivity. }
    split; [reflexivity|]. split; [reflexivity|]. split; [reflexivity|].
    intros b frame_idx level_len Hsym Hcnt Hdone.
    split; [|split; reflexivity].
    rewrite (active_symbol_header_mismatch CONFIG b _ frame_idx level_len v1)
      by (assumption || reflexivity || congruence).
    reflexivity.
  - intros Heq. eexists. split.
    { rewrite (header_second_byte _ v1 v2 m2) by (assumption || reflexivity).
      destruct (Z.eqb_spec v1 v2); [|contradiction]. reflexivity. }
    repeat split.
Qed.

Lemma C4_header_two_bytes_witness :
  exists d1,
    DataProc.process_byte 3 0 DataProc.init = Ok (None, d1)
    /\ DataProc.read_header d1 = true
    /\ DataProc.buf d1 = [3]
    /\ (3 <> 4 ->
        DataProc.process_byte 4 0 d1
        = Ok (Some NOTIFY_DONE, DataProc.clear_state DataProc.init)
        /\ DataProc.data (DataProc.clear_state DataProc.init) = []
        /\ DataProc.files (DataProc.clear_state DataProc.init) = DataProc.files DataProc.init
        /\ DataProc.read_header (DataProc.clear_state DataProc.init) = true
        /\ forall (b : BitProc.t Q) (frame_idx level_len : Z),
             negb (BitProc.at_boundary (peak1 (F := Q)) b frame_idx (BitProc.expected b))
               && (frame_idx <? BitProc.expected b) = false ->
             BitProc.bit_cnt b = 7 ->
             byte_done b = 4 ->
             BitProc.active_symbol (peak1 (F := Q)) frame_idx level_len (b, d1)
             = Ok (None, (after_done (peak1 (F := Q)) b frame_idx,
                          DataProc.clear_state DataProc.init))
             /\ BitProc.training (after_done (peak1 (F := Q)) b frame_idx) = true
             /\ BitProc.resync (after_done (peak1 (F := Q)) b frame_idx) = false)
    /\ (3 = 4 ->
        exists d2,
          DataProc.process_byte 4 0 d1 = Ok (Some REQUEST_RESYNC, d2)
          /\ DataProc.rec_cnt d2 = 3
          /\ DataProc.rec_idx d2 = 0
          /\ DataProc.read_header d2 = false
          /\ DataProc.buf d2 = []
          /\ DataProc.data d2 = DataProc.data DataProc.init
          /\ DataProc.files d2 = DataProc.files DataProc.init).
Proof.
  apply (C4_header_two_bytes (peak1 (F := Q)) DataProc.init 3 0 4 0);
    (reflexivity || lia).
Defined.

(** ** Claims about [SignalProc] *)

Section SignalProcFacts.

Context {F : Type} `{PyFloat F} (CONFIG : Config F).

Import SignalProc.



End SignalProcFacts.





(** ** Claims about the BASIC lister *)

Section BasicFacts.

Import Basic.

(** A failure of one line ends the listing loop. *)
Lemma list_lines_stops (data : list byte) (lt : gmap Z Z)
      (post : list Z) (k addr : Z) (w : list string) (e : exn) :
  forall pre,
    (list_lines data lt pre).2 = Ok tt ->
    lt !! k = Some addr ->
    decode_line data addr = (w, Raise e) ->
    list_lines data lt (pre ++ k :: post)
    = ((list_lines data lt pre).1 ++ w, Raise e).
Proof.
  induction pre as [|l pre IH]; intros Hpre Hk Hfail.
  - cbn [app list_lines fst]. rewrite Hk.
    unfold mbind, Out_bind. rewrite Hfail. reflexivity.
  - cbn [app list_lines] in *. unfold mbind at 1, Out_bind at 1.
    unfold mbind at 1, Out_bind at 1 in Hpre.
    destruct (match lt !! l with
              | Some a => text ← decode_line data a; print (format_line l text)
              | None => fail KeyError
              end) as [w1 [[]|e1]]; [|discriminate].
    destruct (list_lines data lt pre) as [w2 r2] eqn:H2.
    cbn [fst snd] in *. rewrite IH by assumption.
    rewrite app_assoc. reflexivity.
Qed.

(** A byte that is no token ends the decoding of the line. *)
Lemma decode_loop_invalid (turns : nat) (data : list byte)
      (addr line_len off : Z) (line : string) (t : byte) :
  off < line_len ->
  Py.getitem data (addr + off) = Ok t ->
  invalid_token (Py.ord t) = true ->
  decode_loop (S turns) data addr line_len line off
  = Some ([line], Raise AttributeError).
Proof.
  intros Hoff Ht Hinv. cbn [decode_loop].
  destruct (Z.ltb_spec off line_len); [|lia].
  unfold decode_token, quiet. rewrite Ht.
  unfold mbind at 1, Out_bind at 1. cbn [app].
  unfold invalid_token in Hinv.
  destruct (lookup_token (Py.ord t) simple_tokens); [discriminate|].
  apply negb_true_iff in Hinv.
  repeat (apply orb_false_elim in Hinv as [Hinv ?]).
  repeat match goal with
         | H : ?c = false |- context [if ?c then _ else _] => rewrite H
         end.
  reflexivity.
Qed.

End BasicFacts.

(** C5, the claim as stated fails.  The image has the lines 10 and 20 in
    its table; line 10 is a byte that is no token, line 20 decodes to
    [PRINT "HI"].  The listing prints the empty partial line of line 10 and
    ends with the exception; line 20 is not listed. *)
Lemma C5_counterexample :
  (exists h lt,
     Basic.parse_header Images.bad_line_first = ([], Ok (Some h))
     /\ Basic.parse_line_table Images.bad_line_first h = ([], Ok lt)
     /\ Basic.sorted lt = [10; 20]
     /\ lt !! 20 = Some 19
     /\ Basic.decode_line Images.bad_line_first 19
        = ([], Ok ("PRINT " +:+ Basic.dquote +:+ "HI" +:+ Basic.dquote
                   +:+ " ")))
  /\ Basic.main Images.bad_line_first = ([EmptyString], Raise AttributeError)
  /\ ~ In (Basic.format_line 20 ("PRINT " +:+ Basic.dquote +:+ "HI"
                                 +:+ Basic.dquote +:+ " "))
          (Basic.main Images.bad_line_first).1.
Proof.
  split; [|split].
  - eexists _, _. split; [vm_compute; reflexivity|].
    split; [vm_compute; reflexivity|].
    split; [vm_compute; reflexivity|].
    split; vm_compute; reflexivity.
  - vm_compute. reflexivity.
  - vm_compute. intros [Heq|[]]. discriminate.
Qed.

(** C5, amended.  When the token loop of [decode_line] meets a byte that
    is neither a token nor the start of an identifier, the decoding of the
    line ends there: the partial line is printed and an exception leaves
    the function.  The listing loop does not catch the failure of a line:
    the lines before it have been listed, and the failing line and every
    line after it are not. *)
Theorem C5_listing_stops_at_failing_line (data : list byte) (lt : gmap Z Z)
        (pre post : list Z) (k addr : Z) (w : list string) (e : exn) :
  (Basic.list_lines data lt pre).2 = Ok tt ->
  lt !! k = Some addr ->
  Basic.decode_line data addr = (w, Raise e) ->
  Basic.list_lines data lt (pre ++ k :: post)
  = ((Basic.list_lines data lt pre).1 ++ w, Raise e)
  /\ forall (turns : nat) (a line_len off : Z) (line : string) (t : byte),
       off < line_len ->
       Py.getitem data (a + off) = Ok t ->
       invalid_token (Py.ord t) = true ->
       Basic.decode_loop (S turns) data a line_len line off
       = Some ([line], Raise AttributeError).
Proof.
  intros Hpre Hk Hfail. split.
  - apply list_lines_stops with (addr := addr); assumption.
  - intros. apply decode_loop_invalid with (t := t); assumption.
Qed.

Lemma C5_listing_stops_at_failing_line_witness :
  Basic.list_lines Images.bad_line_last
                   (<[10 := 19]> (<[20 := 16]> ∅)) ([10] ++ 20 :: [])
  = ((Basic.list_lines Images.bad_line_last
                       (<[10 := 19]> (<[20 := 16]> ∅)) [10]).1
     ++ [EmptyString], Raise AttributeError)
  /\ forall (turns : nat) (a line_len off : Z) (line : string) (t : byte),
       off < line_len ->
       Py.getitem Images.bad_line_last (a + off) = Ok t ->
       invalid_token (Py.ord t) = true ->
       Basic.decode_loop (S turns) Images.bad_line_last a line_len line off
       = Some ([line], Raise AttributeError).
Proof.
  apply (C5_listing_stops_at_failing_line
           Images.bad_line_last (<[10 := 19]> (<[20 := 16]> ∅))
           [10] [] 20 16 [EmptyString] AttributeError).
  - vm_compute. reflexivity.
  - vm_compute. reflexivity.
  - vm_compute. reflexivity.
Defined.

(** C9, the claim as stated fails.  A header whose line table has length 0
    passes [parse_header], and [parse_line_table] returns the empty table
    for it; the listing then ends without a line and without an error. *)
Lemma C9_counterexample :
  Basic.parse_header Images.empty_table
  = ([], Ok (Some Images.empty_table_header))
  /\ Basic.lt_len Images.empty_table_header = 0
  /\ Basic.parse_line_table Images.empty_table Images.empty_table_header
     = ([], Ok ∅)
  /\ Basic.main Images.empty_table = ([], Ok tt).
Proof. repeat split; vm_compute; reflexivity. Qed.

(** C9, amended.  The line-table length
    [line_table_start + 1 - line_table_end] must be a multiple of 4: when it
    is not, [parse_line_table] ends with an error instead of a table.  A
    length that is zero or a negative multiple of 4 is not refused: the
    table returned is empty. *)
Theorem C9_line_table_length (data : list byte) (h : Basic.header) :
  (Basic.lt_len h `mod` 4 <> 0 ->
   exists msg,
     Basic.parse_line_table data h = ([msg], Raise (SystemExit 1)))
  /\ (Basic.lt_len h <= 0 ->
      Basic.lt_len h `mod` 4 = 0 ->
      Basic.lt_len h + Basic.HDR_LEN <= Z.of_nat (length data) ->
      Basic.parse_line_table data h = ([], Ok ∅)).
Proof.
  split.
  - intros Hmod. unfold Basic.parse_line_table.
    destruct (Z.of_nat (length data) <? Basic.lt_len h + Basic.HDR_LEN).
    + eexists. reflexivity.
    + destruct (Z.eqb_spec (Basic.lt_len h `mod` 4) 0); [contradiction|].
      eexists. reflexivity.
  - intros Hle Hmod Hfit. unfold Basic.parse_line_table.
    destruct (Z.ltb_spec (Z.of_nat (length data))
                         (Basic.lt_len h + Basic.HDR_LEN)); [lia|].
    rewrite Hmod. cbn [Z.eqb negb].
    unfold Basic.range_by_4. rewrite seqZ_nil; [reflexivity|].
    assert ((Basic.lt_len h + 3) `div` 4 < 1)
      by (apply Z.div_lt_upper_bound; lia).
    lia.
Qed.

Lemma C9_line_table_length_witness :
  (exists msg,
     Basic.parse_line_table Images.bad_line_first Images.odd_table_header
     = ([msg], Raise (SystemExit 1)))
  /\ Basic.parse_line_table Images.empty_table Images.empty_table_header
     = ([], Ok ∅).
Proof.
  split.
  - apply (proj1 (C9_line_table_length Images.bad_line_first
                                       Images.odd_table_header)).
    vm_compute. discriminate.
  - apply (proj2 (C9_line_table_length Images.empty_table
                                       Images.empty_table_header));
      vm_compute; (reflexivity || discriminate).
Defined.

(** ** Further properties of the encoder *)

Section EncoderMore.

Import Encoder.

Lemma pad_length_multiple (input : list byte) :
  Z.of_nat (length (pad input)) `mod` 64 = 0.
Proof.
  unfold pad.
  pose proof (Z.mod_pos_bound (Z.of_nat (length input)) 64 ltac:(lia)) as Hb.
  destruct (Z.eqb_spec (64 - Z.of_nat (length input) `mod` 64) 64) as [He|Hne].
  - lia.
  - rewrite length_app, length_replicate, Nat2Z.inj_add, Z2Nat.id by lia.
    replace (Z.of_nat (length input)
             + (64 - Z.of_nat (length input) `mod` 64))
      with (Z.of_nat (length input) - Z.of_nat (length input) `mod` 64
            + 1 * 64) by lia.
    rewrite Z.mod_add by lia.
    rewrite Zminus_mod_idemp_r, Z.sub_diag. reflexivity.
Qed.

Lemma getitem_nat {A} (l : list A) (k : nat) (x : A) :
  l !! k = Some x -> Py.getitem l (Z.of_nat k) = Ok x.
Proof.
  intros Hx. pose proof (lookup_lt_Some _ _ _ Hx) as Hlt.
  unfold Py.getitem.
  destruct (Z.ltb_spec (Z.of_nat k) 0); [lia|].
  destruct (Z.leb_spec 0 (Z.of_nat k)); [|lia].
  destruct (Z.ltb_spec (Z.of_nat k) (Z.of_nat (length l))); [|lia].
  cbn [andb]. rewrite Nat2Z.id, Hx. reflexivity.
Qed.

Lemma getitem_record (data : list byte) (i : nat) :
  (64 * (i + 1) <= length data)%nat ->
  Forall2 (fun j x => Py.getitem data (Z.of_nat i * 64 + j) = Ok x)
          (Py.range 64) (take 64 (drop (64 * i) data)).
Proof.
  intros Hlen. apply Forall2_same_length_lookup_2.
  - unfold Py.range. rewrite length_seqZ, length_take, length_drop. lia.
  - intros k j x Hj Hx. unfold Py.range in Hj.
    apply lookup_seqZ in Hj as [-> Hk].
    rewrite lookup_take_Some in Hx. destruct Hx as [Hx _].
    rewrite lookup_drop in Hx.
    replace (Z.of_nat i * 64 + (0 + Z.of_nat k))
      with (Z.of_nat (64 * i + k)) by lia.
    apply getitem_nat. exact Hx.
Qed.

Lemma write_record_ok (data : list byte) (i : nat) st :
  level_ok st ->
  (64 * (i + 1) <= length data)%nat ->
  write_record data (Z.of_nat i) st
  = Ok (tt, emit st (TapeFormat.copy (record_at data i)
                     ++ TapeFormat.copy (record_at data i))).
Proof.
  intros Hok Hlen. unfold write_record.
  change (Py.range 2) with [0; 1]. cbn [for_each].
  unfold mbind, St_bind.
  rewrite (write_copy_ok data _ (take 64 (drop (64 * i) data)))
    by auto using getitem_record.
  rewrite (write_copy_ok data _ (take 64 (drop (64 * i) data)))
    by auto using getitem_record, emit_level_ok.
  unfold mret, St_ret. rewrite <- emit_app. reflexivity.
Qed.

Lemma write_records_ok (data : list byte) (idxs : list nat) : forall st,
  level_ok st ->
  Forall (fun i => 64 * (i + 1) <= length data)%nat idxs ->
  for_each (Z.of_nat <$> idxs) (fun i => write_record data i) st
  = Ok (tt, emit st (mjoin ((fun r => TapeFormat.copy r ++ TapeFormat.copy r)
                              <$> (record_at data <$> idxs)))).
Proof.
  induction idxs as [|i idxs IH]; intros st Hok Hall.
  - cbn. rewrite emit_nil. reflexivity.
  - inversion Hall as [|? ? Hi Hrest]; subst.
    cbn [fmap list_fmap for_each mjoin list_join].
    unfold mbind, St_bind. rewrite write_record_ok by assumption.
    rewrite IH by auto using emit_level_ok.
    rewrite <- emit_app. reflexivity.
Qed.

(** The script on any input of whole records. *)
Lemma main_whole_records (data : list byte) :
  Z.of_nat (length data) `mod` 64 = 0 ->
  (length data <= 255 * 64)%nat ->
  main data init = Ok (tt, emit init (TapeFormat.tape (records_of data))).
Proof.
  intros Hmod Hlen. unfold main.
  assert (pad data = data) as ->.
  { unfold pad. rewrite Hmod. reflexivity. }
  assert (nrecords data = Z.of_nat (length data / 64)) as Hn.
  { unfold nrecords. rewrite Nat2Z.inj_div. reflexivity. }
  assert (length data / 64 <= 255)%nat as Hn255.
  { apply Nat.Div0.div_le_upper_bound. lia. }
  rewrite Hn.
  destruct (Z.ltb_spec 0xff (Z.of_nat (length data / 64))); [lia|].
  assert (level_ok init) as H0 by (unfold level_ok, init, MAX_LEVEL; simpl; lia).
  unfold mbind, St_bind.
  rewrite (for_each_write_byte (fun _ => 0x00)) by assumption.
  set (s1 := emit init _).
  assert (level_ok s1) as H1 by (apply emit_level_ok, H0).
  rewrite write_byte_ok by assumption.
  set (s2 := emit s1 _).
  assert (level_ok s2) as H2 by (apply emit_level_ok, H1).
  rewrite write_byte_ok by assumption.
  set (s3 := emit s2 _).
  assert (level_ok s3) as H3 by (apply emit_level_ok, H2).
  rewrite write_byte_ok by assumption.
  set (s4 := emit s3 _).
  assert (level_ok s4) as H4 by (apply emit_level_ok, H3).
  assert (Py.range (Z.of_nat (length data / 64))
          = Z.of_nat <$> seq 0 (length data / 64)) as ->.
  { unfold Py.range, seqZ. rewrite Nat2Z.id.
    apply list_fmap_ext. intros; lia. }
  rewrite write_records_ok; [|assumption|].
  2:{ apply Forall_forall. intros i Hi. apply elem_of_seq in Hi.
      assert (64 * (length data / 64) <= length data)%nat
        by (apply Nat.Div0.mul_div_le).
      lia. }
  subst s4 s3 s2 s1. rewrite <- !emit_app.
  change (Py.range INITIAL_SYNC_LEN) with (Py.range (Z.of_nat 768)).
  rewrite (const_range 0x00 768).
  unfold TapeFormat.tape, records_of.
  rewrite length_fmap, length_seq. reflexivity.
Qed.

End EncoderMore.

Section EncoderExtras.

Import Encoder.

Lemma pad_shape (input : list byte) :
  pad input
  = input ++ replicate (Z.to_nat ((64 - Z.of_nat (length input) `mod` 64)
                                  `mod` 64)) Byte.x80.
Proof.
  unfold pad.
  pose proof (Z.mod_pos_bound (Z.of_nat (length input)) 64 ltac:(lia)) as Hb.
  destruct (Z.eqb_spec (64 - Z.of_nat (length input) `mod` 64) 64) as [He|Hne].
  - rewrite He. cbn. rewrite app_nil_r. reflexivity.
  - rewrite (Z.mod_small (64 - _) 64) by lia. reflexivity.
Qed.

Lemma pad_length_bound (input : list byte) :
  (length input <= 255 * 64)%nat -> (length (pad input) <= 255 * 64)%nat.
Proof.
  intros Hlen. pose proof (pad_length_multiple input) as Hm.
  rewrite pad_shape in *. rewrite length_app, length_replicate in *.
  pose proof (Z.mod_pos_bound (64 - Z.of_nat (length input) `mod` 64) 64
                              ltac:(lia)) as Hb.
  set (k := Z.to_nat _) in *. assert (k < 64)%nat as Hk by lia.
  apply Z.mod_divide in Hm as [q Hq]; [|lia]. lia.
Qed.

Lemma symbol_samples lv bit :
  Forall (fun s => s = lv \/ s = - lv) (TapeFormat.symbol lv bit).1
  /\ ((TapeFormat.symbol lv bit).2 = lv \/ (TapeFormat.symbol lv bit).2 = - lv).
Proof.
  unfold TapeFormat.symbol. cbn [fst snd]. split.
  - apply Forall_app. split; apply Forall_replicate; destruct bit; lia.
  - destruct bit; lia.
Qed.

Lemma symbols_samples bits : forall lv,
  Forall (fun s => s = lv \/ s = - lv) (TapeFormat.symbols lv bits).1
  /\ ((TapeFormat.symbols lv bits).2 = lv
      \/ (TapeFormat.symbols lv bits).2 = - lv).
Proof.
  induction bits as [|bit bits IH]; intros lv; cbn [TapeFormat.symbols].
  - split; [constructor|left; reflexivity].
  - destruct (symbol_samples lv bit) as [H1 H2].
    destruct (TapeFormat.symbol lv bit) as [w l1]. cbn [fst snd] in *.
    destruct (IH l1) as [H3 H4].
    destruct (TapeFormat.symbols l1 bits) as [w' l2]. cbn [fst snd] in *.
    split.
    + apply Forall_app. split; [exact H1|].
      eapply Forall_impl; [exact H3|]. cbn. intros s Hs. lia.
    + lia.
Qed.

Lemma wave_samples bytes : forall lv,
  Forall (fun s => s = lv \/ s = - lv) (TapeFormat.wave lv bytes).1
  /\ ((TapeFormat.wave lv bytes).2 = lv \/ (TapeFormat.wave lv bytes).2 = - lv).
Proof.
  induction bytes as [|b bytes IH]; intros lv; cbn [TapeFormat.wave].
  - split; [constructor|left; reflexivity].
  - destruct (symbols_samples (TapeFormat.msb_first b) lv) as [H1 H2].
    destruct (TapeFormat.symbols lv _) as [w l1]. cbn [fst snd] in *.
    destruct (IH l1) as [H3 H4].
    destruct (TapeFormat.wave l1 bytes) as [w' l2]. cbn [fst snd] in *.
    split.
    + apply Forall_app. split; [exact H1|].
      eapply Forall_impl; [exact H3|]. cbn. intros s Hs. lia.
    + lia.
Qed.

Lemma tape_length (recs : list (list Z)) :
  Forall (fun r => length r = 64%nat) recs ->
  length (TapeFormat.tape recs) = (768 + 3 + 2 * 74 * length recs)%nat.
Proof.
  intros Hall.
  assert (length (mjoin ((fun r => TapeFormat.copy r ++ TapeFormat.copy r)
                           <$> recs)) = (2 * 74 * length recs)%nat) as Hj.
  { induction Hall as [|r recs Hr _ IH]; [reflexivity|].
    change (mjoin ((fun r => TapeFormat.copy r ++ TapeFormat.copy r)
                     <$> r :: recs))
      with ((TapeFormat.copy r ++ TapeFormat.copy r)
            ++ mjoin ((fun r => TapeFormat.copy r ++ TapeFormat.copy r)
                        <$> recs)).
    rewrite !length_app, !copy_length, Hr, IH. cbn [length]. lia. }
  unfold TapeFormat.tape.
  rewrite !length_app, length_replicate, Hj. cbn [length]. lia.
Qed.

Lemma records_of_length (data : list byte) :
  Z.of_nat (length data) `mod` 64 = 0 ->
  Forall (fun r => length r = 64%nat) (records_of data).
Proof.
  intros Hmod. unfold records_of. apply Forall_fmap, Forall_forall.
  intros i Hi. apply elem_of_seq in Hi. cbn.
  unfold record_at. rewrite length_fmap, length_take, length_drop.
  assert (64 * (length data / 64) <= length data)%nat
    by (apply Nat.Div0.mul_div_le).
  lia.
Qed.

Lemma encode_ok (input : list byte) :
  (length input <= 255 * 64)%nat ->
  encode input
  = Ok (TapeFormat.wave MAX_LEVEL
          (TapeFormat.tape (records_of (pad input)))).1.
Proof.
  intros Hlen.
  pose proof (pad_length_multiple input) as Hm.
  pose proof (pad_length_bound input Hlen) as Hb.
  unfold encode, main.
  assert (pad (pad input) = pad input) as Hpp.
  { unfold pad at 1. rewrite Hm. reflexivity. }
  pose proof (main_whole_records (pad input) Hm Hb) as Hmain.
  unfold main in Hmain. rewrite Hpp in Hmain.
  rewrite Hmain. unfold emit. cbn [samples level init app]. reflexivity.
Qed.

Lemma main_refused (input : list byte) :
  (255 * 64 < length input)%nat ->
  main input init = Raise (SystemExit 1).
Proof.
  intros Hlen. unfold main.
  pose proof (pad_length_multiple input) as Hm.
  assert (length input <= length (pad input))%nat as Hle.
  { rewrite pad_shape, length_app. lia. }
  assert (0xff < nrecords (pad input)) as Hn.
  { unfold nrecords.
    apply Z.mod_divide in Hm as [q Hq]; [|lia].
    rewrite Hq, Z.div_mul by lia. lia. }
  destruct (Z.ltb_spec 0xff (nrecords (pad input))); [|lia].
  reflexivity.
Qed.

End EncoderExtras.

(** X1.  For every input of at most 255 records after padding, the
    encoder writes the wave form of the whole tape: the pilot, the header
    with the record count, and both copies of every record of the padded
    input; the number of samples follows from the number of records. *)
Theorem X1_encode_is_tape_wave (input : list byte) :
  (length input <= 255 * 64)%nat ->
  exists w,
    Encoder.encode input = Ok w
    /\ w = (TapeFormat.wave Encoder.MAX_LEVEL
              (TapeFormat.tape (records_of (Encoder.pad input)))).1
    /\ Z.of_nat (length (records_of (Encoder.pad input)))
       = Encoder.nrecords (Encoder.pad input)
    /\ Z.of_nat (length w)
       = (768 + 1 + 1 + 1
          + 2 * (8 + 1 + 64 + 1) * Encoder.nrecords (Encoder.pad input))
         * 8 * 32.
Proof.
  intros Hlen.
  pose proof (pad_length_multiple input) as Hm.
  assert (Z.of_nat (length (records_of (Encoder.pad input)))
          = Encoder.nrecords (Encoder.pad input)) as Hn.
  { unfold records_of, Encoder.nrecords.
    rewrite length_fmap, length_seq, Nat2Z.inj_div. reflexivity. }
  eexists. split; [apply encode_ok, Hlen|].
  split; [reflexivity|]. split; [exact Hn|].
  rewrite wave_length, tape_length by (apply records_of_length, Hm).
  rewrite <- Hn. lia.
Qed.

Lemma X1_encode_is_tape_wave_witness :
  exists w,
    Encoder.encode [Byte.x41; Byte.x42; Byte.x43] = Ok w
    /\ w = (TapeFormat.wave Encoder.MAX_LEVEL
              (TapeFormat.tape
                 (records_of (Encoder.pad [Byte.x41; Byte.x42; Byte.x43])))).1
    /\ Z.of_nat (length (records_of
                           (Encoder.pad [Byte.x41; Byte.x42; Byte.x43])))
       = Encoder.nrecords (Encoder.pad [Byte.x41; Byte.x42; Byte.x43])
    /\ Z.of_nat (length w)
       = (768 + 1 + 1 + 1
          + 2 * (8 + 1 + 64 + 1)
            * Encoder.nrecords (Encoder.pad [Byte.x41; Byte.x42; Byte.x43]))
         * 8 * 32.
Proof.
  apply (X1_encode_is_tape_wave [Byte.x41; Byte.x42; Byte.x43]).
  cbn. lia.
Defined.

(** X2.  The padding: the input is kept, followed by fewer than 64 bytes
    [0x80], as many as make the length a multiple of 64; an input of whole
    records, the empty one included, is not padded. *)
Theorem X2_pad (input : list byte) :
  exists k : nat,
    Encoder.pad input = input ++ replicate k Byte.x80
    /\ (k < 64)%nat
    /\ ((length input + k) mod 64 = 0)%nat
    /\ (Z.of_nat (length input) `mod` 64 = 0 -> Encoder.pad input = input).
Proof.
  pose proof (pad_length_multiple input) as Hm.
  rewrite pad_shape in *.
  pose proof (Z.mod_pos_bound (64 - Z.of_nat (length input) `mod` 64) 64
                              ltac:(lia)) as Hb.
  eexists. split; [reflexivity|]. split; [lia|]. split.
  - rewrite length_app, length_replicate in Hm.
    apply Nat2Z.inj. rewrite Nat2Z.inj_mod. exact Hm.
  - intros H0. rewrite H0. cbn. apply app_nil_r.
Qed.

(** X3.  An input of more than 255 records is refused: the script exits
    with status 1 before it writes a sample. *)
Theorem X3_too_many_records (input : list byte) :
  (255 * 64 < length input)%nat ->
  Encoder.main input Encoder.init = Raise (SystemExit 1)
  /\ Encoder.encode input = Raise (SystemExit 1).
Proof.
  intros Hlen. pose proof (main_refused input Hlen) as Hmain.
  split; [exact Hmain|]. unfold Encoder.encode. rewrite Hmain. reflexivity.
Qed.

Lemma X3_too_many_records_witness :
  Encoder.main (replicate (Z.to_nat 16321) Byte.x00) Encoder.init = Raise (SystemExit 1)
  /\ Encoder.encode (replicate (Z.to_nat 16321) Byte.x00) = Raise (SystemExit 1).
Proof.
  apply (X3_too_many_records (replicate (Z.to_nat 16321) Byte.x00)).
  rewrite length_replicate. lia.
Defined.

(** X4.  Whatever the input, every sample the encoder writes is the full
    positive or the full negative level. *)
Theorem X4_samples_full_scale (input : list byte) :
  match Encoder.encode input with
  | Ok w => Forall (fun s => s = 0x7fff \/ s = -0x7fff) w
  | Raise e => e = SystemExit 1
  end.
Proof.
  destruct (Nat.le_gt_cases (length input) (255 * 64)) as [Hle|Hgt].
  - rewrite encode_ok by assumption.
    apply (wave_samples _ Encoder.MAX_LEVEL).
  - unfold Encoder.encode. rewrite main_refused by assumption. reflexivity.
Qed.

(** ** Further properties of [DataProc] *)

Section DataProcMore.

Import DataProc.

Lemma feed_app (xs ys : list (Z * Z)) : forall d,
  feed (xs ++ ys) d
  = match feed xs d with
    | Ok (s1, d1) =>
        match feed ys d1 with
        | Ok (s2, d2) => Ok (s1 ++ s2, d2)
        | Raise e => Raise e
        end
    | Raise e => Raise e
    end.
Proof.
  induction xs as [|[v m] xs IH]; intros d.
  - cbn. destruct (feed ys d) as [[s2 d2]|]; reflexivity.
  - cbn [app feed]. unfold mbind, St_bind.
    destruct (process_byte v m d) as [[r d1]|]; [|reflexivity].
    rewrite IH. destruct (feed xs d1) as [[s1 d2]|]; [|reflexivity].
    unfold mret, St_ret.
    destruct (feed ys d2) as [[s2 d3]|]; reflexivity.
Qed.

(** A byte that neither ends the header nor completes a record is only
    collected. *)
Lemma process_byte_collect (d : t) (v m : Z) :
  read_header d = false ->
  (length (buf d) < 64)%nat ->
  is_byte v -> is_byte m ->
  process_byte v m d
  = Ok (None, set_buf_error_mask (buf_error_mask d ++ [m])
                                 (set_buf (buf d ++ [v]) d)).
Proof.
  intros Hh Hlen Hv Hm. unfold process_byte.
  unfold mbind, St_bind, lift, modify, get.
  rewrite !chr_byte by assumption. cbn. rewrite Hh.
  rewrite length_app. cbn [length].
  destruct (Z.eqb_spec (Z.of_nat (length (buf d) + 1))
                       (RECORD_LEN + CHKSUM_LEN)) as [He|_].
  - unfold RECORD_LEN, CHKSUM_LEN in He. lia.
  - reflexivity.
Qed.

(** The byte that completes a record starts [_process_record]. *)
Lemma process_byte_complete (d : t) (v m : Z) :
  read_header d = false ->
  length (buf d) = 64%nat ->
  is_byte v -> is_byte m ->
  process_byte v m d
  = process_record (set_buf_error_mask (buf_error_mask d ++ [m])
                                       (set_buf (buf d ++ [v]) d)).
Proof.
  intros Hh Hlen Hv Hm. unfold process_byte.
  unfold mbind, St_bind, lift, modify, get.
  rewrite !chr_byte by assumption. cbn. rewrite Hh.
  rewrite length_app, Hlen. reflexivity.
Qed.

Lemma feed_collect (bs : list (Z * Z)) : forall d,
  read_header d = false ->
  (length (buf d) + length bs <= 64)%nat ->
  Forall (fun b => is_byte b.1 /\ is_byte b.2) bs ->
  feed bs d
  = Ok (replicate (length bs) None,
        set_buf_error_mask (buf_error_mask d ++ bs.*2)
                           (set_buf (buf d ++ bs.*1) d)).
Proof.
  induction bs as [|[v m] bs IH]; intros d Hh Hlen Hall.
  - cbn. rewrite !app_nil_r. destruct d; reflexivity.
  - inversion Hall as [|? ? [Hv Hm] Hrest]; subst. cbn [fst snd] in *.
    cbn [feed length] in *. unfold mbind, St_bind.
    rewrite process_byte_collect by (assumption || lia).
    rewrite IH; [| exact Hh | cbn; rewrite length_app; cbn; lia
                 | assumption].
    unfold mret, St_ret. cbn. rewrite <- !app_assoc. reflexivity.
Qed.

End DataProcMore.

Section DataProcRecords.

Import DataProc.

Lemma buf_nonempty {A} (P : list A) (c : A) : bool_decide (P ++ [c] = []) = false.
Proof. apply bool_decide_eq_false_2. destruct P; discriminate. Qed.

Lemma slice_from_last64 (D P : list Z) :
  length P = 64%nat -> Py.slice_from (D ++ P) (- RECORD_LEN) = P.
Proof.
  intros Hlen. change (- RECORD_LEN) with (-64).
  unfold Py.slice_from, Py.bound.
  change (-64 <? 0) with true. cbv iota.
  rewrite length_app, Hlen.
  replace (Z.to_nat (Z.max (-64 + Z.of_nat (length D + 64)) 0))
    with (length D) by lia.
  apply drop_app_length.
Qed.

(** A primary copy with a valid checksum: the payload is appended. *)
Lemma process_record_primary_valid (d : t) (P : list Z) :
  rec_primary d = true ->
  buf d = P ++ [TapeFormat.checksum P] ->
  length P = 64%nat ->
  rec_idx d <> rec_cnt d ->
  process_record d
  = Ok (Some REQUEST_RESYNC,
        {| buf := []; buf_error_mask := [];
           read_header := read_header d; rec_cnt := rec_cnt d;
           rec_idx := rec_idx d; rec_primary := false;
           rec_processed := true; data_corrupt := data_corrupt d;
           data := data d ++ P;
           rec_primary_buf := rec_primary_buf d;
           rec_primary_error_mask := rec_primary_error_mask d;
           file_idx := file_idx d; files := files d |}).
Proof.
  intros Hprim Hbuf Hlen Hne.
  assert (verify_record d = true) as Hver.
  { rewrite (verify_record_spec d P _ Hbuf Hlen). apply Z.eqb_refl. }
  unfold process_record. rewrite Hver.
  rewrite Hprim, Hbuf, buf_nonempty, slice_drop_last. cbn [negb].
  unfold mbind, St_bind, modify, mret, St_ret, get, lift. cbn.
  destruct (Z.eqb_spec (rec_idx d) (rec_cnt d)); [contradiction|].
  reflexivity.
Qed.

(** A secondary copy with a valid checksum, after an accepted primary that
    it agrees with: nothing is appended, and the record is done. *)
Lemma process_record_secondary_agrees (d : t) (D P : list Z) :
  rec_primary d = false ->
  rec_processed d = true ->
  buf d = P ++ [TapeFormat.checksum P] ->
  length P = 64%nat ->
  data d = D ++ P ->
  data_corrupt d = false ->
  Forall is_byte (data d) ->
  process_record d
  = if rec_idx d + 1 =? rec_cnt d then
      Ok (Some NOTIFY_DONE,
          {| buf := []; buf_error_mask := [];
             read_header := true; rec_cnt := 0; rec_idx := 0;
             rec_primary := true; rec_processed := false;
             data_corrupt := false; data := [];
             rec_primary_buf := rec_primary_buf d;
             rec_primary_error_mask := rec_primary_error_mask d;
             file_idx := file_idx d + 1;
             files := files d ++ [(file_idx d, data d)] |})
    else
      Ok (Some REQUEST_RESYNC,
          {| buf := []; buf_error_mask := [];
             read_header := read_header d; rec_cnt := rec_cnt d;
             rec_idx := rec_idx d + 1; rec_primary := true;
             rec_processed := false; data_corrupt := false;
             data := data d;
             rec_primary_buf := rec_primary_buf d;
             rec_primary_error_mask := rec_primary_error_mask d;
             file_idx := file_idx d; files := files d |}).
Proof.
  intros Hprim Hproc Hbuf Hlen Hdata Hcor Hbytes.
  assert (verify_record d = true) as Hver.
  { rewrite (verify_record_spec d P _ Hbuf Hlen). apply Z.eqb_refl. }
  unfold process_record. rewrite Hver.
  rewrite Hprim, Hproc, Hbuf, buf_nonempty, slice_drop_last. cbn [negb].
  unfold mbind, St_bind, modify, mret, St_ret, get, lift. cbn.
  rewrite Hdata, slice_from_last64 by assumption.
  rewrite bool_decide_eq_true_2 by reflexivity. cbn.
  destruct (rec_idx d + 1 =? rec_cnt d).
  - unfold data_complete. cbn. rewrite Hcor, Hdata.
    assert (forallb (fun c => c <? 256) (D ++ P) = true) as ->.
    { apply forallb_forall. intros x Hx. rewrite <- Hdata in Hx.
      rewrite Forall_forall in Hbytes.
      apply list_elem_of_In, Hbytes in Hx. unfold is_byte in Hx.
      apply Z.ltb_lt. lia. }
    reflexivity.
  - unfold set_buf_error_mask, set_buf, set_rec. cbn.
    rewrite Hcor, Hdata. reflexivity.
Qed.

End DataProcRecords.

Section DataProcRoundTrip.

Import DataProc.

Lemma checksum_is_byte (r : list Z) : is_byte (TapeFormat.checksum r).
Proof. unfold is_byte, TapeFormat.checksum. apply Z.mod_pos_bound. lia. Qed.

Lemma clean_bytes (r : list Z) :
  Forall is_byte r ->
  Forall (fun b : Z * Z => is_byte b.1 /\ is_byte b.2)
         ((fun v => (v, 0)) <$> r).
Proof.
  intros Hr. apply Forall_fmap. eapply Forall_impl; [exact Hr|].
  cbn. intros v Hv. split; [exact Hv|]. unfold is_byte. lia.
Qed.

(** One copy of a record, fed to a [DataProc] that waits for a record with
    an empty buffer: [_process_record] runs on the 65 bytes. *)
Lemma feed_clean_copy (d : t) (r : list Z) :
  read_header d = false ->
  buf d = [] ->
  is_record r ->
  exists sigs m,
    feed (clean_copy r) d
    = match process_record
              (set_buf_error_mask m
                 (set_buf (r ++ [TapeFormat.checksum r]) d)) with
      | Ok (s, d') => Ok (sigs ++ [s], d')
      | Raise e => Raise e
      end.
Proof.
  intros Hh Hbuf [Hlen Hbytes]. unfold clean_copy.
  rewrite fmap_app. cbn [fmap list_fmap]. rewrite feed_app.
  rewrite feed_collect;
    [| assumption | rewrite Hbuf, length_fmap; cbn; lia
     | apply clean_bytes; assumption].
  cbn [feed]. unfold mbind, St_bind.
  rewrite process_byte_complete;
    [| assumption
     | cbn [buf set_buf set_buf_error_mask]; rewrite Hbuf; cbn [app];
       rewrite !length_fmap; exact Hlen
     | apply checksum_is_byte | unfold is_byte; lia].
  assert (((fun v : Z => (v, 0)) <$> r).*1 = r) as Hfst.
  { rewrite <- list_fmap_compose. rewrite <- (list_fmap_id r) at 2.
    apply list_fmap_ext. reflexivity. }
  match goal with
  | |- context [process_record ?s] =>
      assert (s = set_buf_error_mask
                    ((buf_error_mask d ++ ((fun v : Z => (v, 0)) <$> r).*2)
                     ++ [0])
                    (set_buf (r ++ [TapeFormat.checksum r]) d)) as ->
  end.
  { unfold set_buf_error_mask, set_buf.
    cbn [buf buf_error_mask read_header rec_cnt rec_idx rec_primary
         rec_processed data_corrupt data rec_primary_buf
         rec_primary_error_mask file_idx files].
    rewrite Hbuf, Hfst. reflexivity. }
  exists (replicate (length ((fun v : Z => (v, 0)) <$> r)) None),
    ((buf_error_mask d ++ ((fun v : Z => (v, 0)) <$> r).*2) ++ [0]).
  match goal with
  | |- context [process_record ?s] =>
      destruct (process_record s) as [[sg d']|]; reflexivity
  end.
Qed.

(** Both copies of one record from a clean tape. *)
Lemma feed_clean_pair (n k fi : Z) (D mask r : list Z)
      (pb pm : option (list Z)) (fs : list (Z * list Z)) :
  k <> n ->
  is_record r ->
  Forall is_byte D ->
  exists sigs,
    feed (clean_copy r ++ clean_copy r)
         (between_records n k D mask pb pm fi fs)
    = Ok (sigs,
          if k + 1 =? n
          then {| buf := []; buf_error_mask := [];
                  read_header := true; rec_cnt := 0; rec_idx := 0;
                  rec_primary := true; rec_processed := false;
                  data_corrupt := false; data := [];
                  rec_primary_buf := pb; rec_primary_error_mask := pm;
                  file_idx := fi + 1;
                  files := fs ++ [(fi, D ++ r)] |}
          else between_records n (k + 1) (D ++ r) [] pb pm fi fs).
Proof.
  intros Hk Hr HD. rewrite feed_app.
  destruct (feed_clean_copy (between_records n k D mask pb pm fi fs) r)
    as (s1 & m1 & ->); [reflexivity|reflexivity|assumption|].
  rewrite (process_record_primary_valid _ r);
    [| reflexivity | reflexivity | apply Hr | exact Hk].
  cbn [buf buf_error_mask read_header rec_cnt rec_idx rec_primary
       rec_processed data_corrupt data rec_primary_buf
       rec_primary_error_mask file_idx files set_buf set_buf_error_mask
       between_records].
  match goal with
  | |- context [feed (clean_copy r) ?d] =>
      destruct (feed_clean_copy d r)
        as (s2 & m2 & ->); [reflexivity|reflexivity|assumption|]
  end.
  rewrite (process_record_secondary_agrees _ D r);
    [| reflexivity | reflexivity | reflexivity | apply Hr | reflexivity
     | reflexivity
     | cbn; apply Forall_app; split; [assumption|apply Hr]].
  cbn [buf buf_error_mask read_header rec_cnt rec_idx rec_primary
       rec_processed data_corrupt data rec_primary_buf
       rec_primary_error_mask file_idx files set_buf set_buf_error_mask].
  destruct (k + 1 =? n); eexists; reflexivity.
Qed.

(** The records that are left, from between two records on. *)
Lemma feed_clean_records (n fi : Z) (pb pm : option (list Z))
      (fs : list (Z * list Z)) (recs : list (list Z)) :
  forall (k : Z) (D mask : list Z),
    recs <> [] ->
    Forall is_record recs ->
    Forall is_byte D ->
    k + Z.of_nat (length recs) = n ->
    exists sigs,
      feed (mjoin ((fun r => clean_copy r ++ clean_copy r) <$> recs))
           (between_records n k D mask pb pm fi fs)
      = Ok (sigs,
            {| buf := []; buf_error_mask := [];
               read_header := true; rec_cnt := 0; rec_idx := 0;
               rec_primary := true; rec_processed := false;
               data_corrupt := false; data := [];
               rec_primary_buf := pb; rec_primary_error_mask := pm;
               file_idx := fi + 1;
               files := fs ++ [(fi, D ++ mjoin recs)] |}).
Proof.
  induction recs as [|r recs IH]; intros k D mask Hne Hall HD Hn;
    [contradiction|].
  inversion Hall as [|? ? Hr Hrest]; subst.
  change (mjoin ((fun r => clean_copy r ++ clean_copy r) <$> r :: recs))
    with ((clean_copy r ++ clean_copy r)
          ++ mjoin ((fun r => clean_copy r ++ clean_copy r) <$> recs)).
  rewrite feed_app.
  destruct (feed_clean_pair (k + Z.of_nat (length (r :: recs))) k fi D mask r
                            pb pm fs) as (s1 & ->);
    [cbn [length]; lia | assumption | assumption |].
  destruct recs as [|r' recs].
  - cbn [length]. destruct (Z.eqb_spec (k + 1) (k + Z.of_nat 1)); [|lia].
    cbn. rewrite !app_nil_r. eexists. reflexivity.
  - destruct (Z.eqb_spec (k + 1) (k + Z.of_nat (length (r :: r' :: recs))));
      [cbn [length] in *; lia|].
    destruct (IH (k + 1) (D ++ r) []) as (s2 & Hs2);
      [discriminate | assumption
       | apply Forall_app; split; [assumption|apply Hr] | cbn [length]; lia |].
    rewrite Hs2. eexists. do 4 f_equal.
    change (mjoin (r :: r' :: recs)) with (r ++ mjoin (r' :: recs)).
    rewrite app_assoc. reflexivity.
Qed.

End DataProcRoundTrip.

(** X5.  A clean tape is received whole: when [DataProc], in its cleared
    state, is given the record count twice and then both copies of each
    of 1 to 255 records, payload and checksum, it writes one file that
    holds the payloads in order, and is in its cleared state again. *)
Theorem X5_clean_stream_is_written (d : DataProc.t) (recs : list (list Z)) :
  Forall is_record recs ->
  (1 <= length recs <= 255)%nat ->
  exists sigs d',
    feed (clean_stream recs) (DataProc.clear_state d) = Ok (sigs, d')
    /\ DataProc.files d'
       = DataProc.files d ++ [(DataProc.file_idx d, mjoin recs)]
    /\ DataProc.file_idx d' = DataProc.file_idx d + 1
    /\ DataProc.clear_state d' = d'.
Proof.
  intros Hall Hlen. unfold clean_stream. rewrite feed_app.
  cbn [feed]. unfold mbind at 1 2, St_bind at 1 2.
  rewrite header_first_byte by (reflexivity || lia).
  unfold mbind at 1 2, St_bind at 1 2.
  rewrite (header_second_byte _ (Z.of_nat (length recs)))
    by (reflexivity || lia).
  rewrite Z.eqb_refl. unfold mret, St_ret.
  match goal with
  | |- context [feed _ ?s] =>
      change s with (between_records (Z.of_nat (length recs)) 0 [] [0; 0]
                       (DataProc.rec_primary_buf d)
                       (DataProc.rec_primary_error_mask d)
                       (DataProc.file_idx d) (DataProc.files d))
  end.
  destruct (feed_clean_records (Z.of_nat (length recs)) (DataProc.file_idx d)
              (DataProc.rec_primary_buf d) (DataProc.rec_primary_error_mask d)
              (DataProc.files d) recs 0 [] [0; 0]) as (s & ->);
    [destruct recs; [cbn in Hlen; lia|discriminate]
    | assumption | constructor | lia |].
  eexists _, _. split; [reflexivity|]. repeat split.
Qed.

Lemma X5_clean_stream_is_written_witness :
  exists sigs d',
    feed (clean_stream [Py.ord <$> payload_01_40])
         (DataProc.clear_state DataProc.init) = Ok (sigs, d')
    /\ DataProc.files d'
       = DataProc.files DataProc.init
         ++ [(DataProc.file_idx DataProc.init,
              mjoin [Py.ord <$> payload_01_40])]
    /\ DataProc.file_idx d' = DataProc.file_idx DataProc.init + 1
    /\ DataProc.clear_state d' = d'.
Proof.
  apply (X5_clean_stream_is_written DataProc.init
                                    [Py.ord <$> payload_01_40]).
  - constructor; [|constructor]. split; [reflexivity|].
    repeat (constructor; [unfold is_byte; cbn; lia|]). constructor.
  - cbn. lia.
Defined.

Section DataProcCopies.

Import DataProc.

(** Any 65 bytes received while a record is awaited: [_process_record] runs
    on them. *)
Lemma feed_copy (d : t) (body : list (Z * Z)) (c mc : Z) :
  read_header d = false ->
  buf d = [] ->
  length body = 64%nat ->
  Forall (fun b : Z * Z => is_byte b.1 /\ is_byte b.2) body ->
  is_byte c -> is_byte mc ->
  feed (body ++ [(c, mc)]) d
  = match process_record
            (set_buf_error_mask ((buf_error_mask d ++ body.*2) ++ [mc])
               (set_buf (body.*1 ++ [c]) d)) with
    | Ok (s, d') => Ok (replicate 64 None ++ [s], d')
    | Raise e => Raise e
    end.
Proof.
  intros Hh Hbuf Hlen Hbytes Hc Hmc. rewrite feed_app.
  rewrite feed_collect; [| assumption | rewrite Hbuf, Hlen; cbn; lia
                         | assumption].
  cbn [feed]. unfold mbind, St_bind.
  rewrite process_byte_complete;
    [| assumption
     | cbn [buf set_buf set_buf_error_mask]; rewrite Hbuf; cbn [app];
       rewrite length_fmap; exact Hlen
     | assumption | assumption].
  match goal with
  | |- context [process_record ?s] =>
      assert (s = set_buf_error_mask ((buf_error_mask d ++ body.*2) ++ [mc])
                    (set_buf (body.*1 ++ [c]) d)) as ->
  end.
  { unfold set_buf_error_mask, set_buf.
    cbn [buf buf_error_mask read_header rec_cnt rec_idx rec_primary
         rec_processed data_corrupt data rec_primary_buf
         rec_primary_error_mask file_idx files].
    rewrite Hbuf. reflexivity. }
  rewrite Hlen.
  match goal with
  | |- context [process_record ?s] =>
      destruct (process_record s) as [[sg d']|]; reflexivity
  end.
Qed.

(** A primary copy whose checksum fails is kept aside, with its error
    masks. *)
Lemma process_record_primary_invalid (d : t) (P : list Z) (c : Z) :
  rec_primary d = true ->
  buf d = P ++ [c] ->
  length P = 64%nat ->
  c <> TapeFormat.checksum P ->
  rec_idx d <> rec_cnt d ->
  process_record d
  = Ok (Some REQUEST_RESYNC,
        {| buf := []; buf_error_mask := [];
           read_header := read_header d; rec_cnt := rec_cnt d;
           rec_idx := rec_idx d; rec_primary := false;
           rec_processed := rec_processed d;
           data_corrupt := data_corrupt d; data := data d;
           rec_primary_buf := Some (P ++ [c]);
           rec_primary_error_mask := Some (buf_error_mask d);
           file_idx := file_idx d; files := files d |}).
Proof.
  intros Hprim Hbuf Hlen Hc Hne.
  assert (verify_record d = false) as Hver.
  { rewrite (verify_record_spec d P _ Hbuf Hlen). apply Z.eqb_neq.
    unfold TapeFormat.checksum in Hc. congruence. }
  unfold process_record. rewrite Hver, Hprim, Hbuf, buf_nonempty.
  cbn [negb].
  unfold mbind, St_bind, modify, mret, St_ret, get, lift. cbn.
  destruct (Z.eqb_spec (rec_idx d) (rec_cnt d)); [contradiction|].
  rewrite Hbuf. reflexivity.
Qed.

(** A valid secondary copy after a failed primary: its payload is
    appended. *)
Lemma process_record_secondary_rescues (d : t) (P : list Z) :
  rec_primary d = false ->
  rec_processed d = false ->
  buf d = P ++ [TapeFormat.checksum P] ->
  length P = 64%nat ->
  data_corrupt d = false ->
  Forall is_byte (data d ++ P) ->
  process_record d
  = if rec_idx d + 1 =? rec_cnt d then
      Ok (Some NOTIFY_DONE,
          {| buf := []; buf_error_mask := [];
             read_header := true; rec_cnt := 0; rec_idx := 0;
             rec_primary := true; rec_processed := false;
             data_corrupt := false; data := [];
             rec_primary_buf := rec_primary_buf d;
             rec_primary_error_mask := rec_primary_error_mask d;
             file_idx := file_idx d + 1;
             files := files d ++ [(file_idx d, data d ++ P)] |})
    else
      Ok (Some REQUEST_RESYNC,
          {| buf := []; buf_error_mask := [];
             read_header := read_header d; rec_cnt := rec_cnt d;
             rec_idx := rec_idx d + 1; rec_primary := true;
             rec_processed := false; data_corrupt := false;
             data := data d ++ P;
             rec_primary_buf := rec_primary_buf d;
             rec_primary_error_mask := rec_primary_error_mask d;
             file_idx := file_idx d; files := files d |}).
Proof.
  intros Hprim Hproc Hbuf Hlen Hcor Hbytes.
  assert (verify_record d = true) as Hver.
  { rewrite (verify_record_spec d P _ Hbuf Hlen). apply Z.eqb_refl. }
  unfold process_record. rewrite Hver.
  rewrite Hprim, Hproc, Hbuf, buf_nonempty, slice_drop_last. cbn [negb].
  unfold mbind, St_bind, modify, mret, St_ret, get, lift. cbn.
  destruct (rec_idx d + 1 =? rec_cnt d).
  - unfold data_complete. cbn. rewrite Hcor.
    assert (forallb (fun c => c <? 256) (data d ++ P) = true) as ->.
    { apply forallb_forall. intros x Hx.
      rewrite Forall_forall in Hbytes.
      apply list_elem_of_In, Hbytes in Hx. unfold is_byte in Hx.
      apply Z.ltb_lt. lia. }
    reflexivity.
  - unfold set_buf_error_mask, set_buf, set_rec, set_data. cbn.
    rewrite Hcor. reflexivity.
Qed.

(** A valid secondary copy that differs from the accepted primary marks
    the program corrupt; at the last record no file is written. *)
Lemma process_record_secondary_differs (d : t) (D P P2 : list Z) :
  rec_primary d = false ->
  rec_processed d = true ->
  buf d = P2 ++ [TapeFormat.checksum P2] ->
  length P2 = 64%nat ->
  length P = 64%nat ->
  data d = D ++ P ->
  P <> P2 ->
  process_record d
  = if rec_idx d + 1 =? rec_cnt d then
      Ok (Some NOTIFY_DONE,
          {| buf := []; buf_error_mask := [];
             read_header := true; rec_cnt := 0; rec_idx := 0;
             rec_primary := true; rec_processed := false;
             data_corrupt := false; data := [];
             rec_primary_buf := rec_primary_buf d;
             rec_primary_error_mask := rec_primary_error_mask d;
             file_idx := file_idx d; files := files d |})
    else
      Ok (Some REQUEST_RESYNC,
          {| buf := []; buf_error_mask := [];
             read_header := read_header d; rec_cnt := rec_cnt d;
             rec_idx := rec_idx d + 1; rec_primary := true;
             rec_processed := false; data_corrupt := true;
             data := data d;
             rec_primary_buf := rec_primary_buf d;
             rec_primary_error_mask := rec_primary_error_mask d;
             file_idx := file_idx d; files := files d |}).
Proof.
  intros Hprim Hproc Hbuf Hlen2 Hlen Hdata Hdiff.
  assert (verify_record d = true) as Hver.
  { rewrite (verify_record_spec d P2 _ Hbuf Hlen2). apply Z.eqb_refl. }
  unfold process_record. rewrite Hver.
  rewrite Hprim, Hproc, Hbuf, buf_nonempty, slice_drop_last. cbn [negb].
  unfold mbind, St_bind, modify, mret, St_ret, get, lift. cbn.
  rewrite Hdata, slice_from_last64 by assumption.
  rewrite bool_decide_eq_false_2 by assumption. cbn.
  destruct (rec_idx d + 1 =? rec_cnt d).
  - unfold data_complete. cbn. reflexivity.
  - unfold set_buf_error_mask, set_buf, set_rec, set_data_corrupt. cbn.
    rewrite Hdata. reflexivity.
Qed.

End DataProcCopies.

(** X6.  A record whose primary copy fails the checksum is taken from a
    secondary copy that validates: the secondary payload is appended, the
    program is not marked corrupt, and the failed copy is kept with its
    error masks.  At the last record the file is written. *)
Theorem X6_secondary_copy_rescues (n k fi : Z) (D mask r : list Z)
        (body : list (Z * Z)) (c mc : Z)
        (pb pm : option (list Z)) (fs : list (Z * list Z)) :
  k <> n ->
  length body = 64%nat ->
  Forall (fun b : Z * Z => is_byte b.1 /\ is_byte b.2) body ->
  is_byte c -> is_byte mc ->
  c <> TapeFormat.checksum body.*1 ->
  is_record r ->
  Forall is_byte D ->
  exists sigs,
    feed ((body ++ [(c, mc)]) ++ clean_copy r)
         (between_records n k D mask pb pm fi fs)
    = Ok (sigs,
          if k + 1 =? n
          then {| DataProc.buf := []; DataProc.buf_error_mask := [];
                  DataProc.read_header := true; DataProc.rec_cnt := 0;
                  DataProc.rec_idx := 0; DataProc.rec_primary := true;
                  DataProc.rec_processed := false;
                  DataProc.data_corrupt := false; DataProc.data := [];
                  DataProc.rec_primary_buf := Some (body.*1 ++ [c]);
                  DataProc.rec_primary_error_mask
                    := Some ((mask ++ body.*2) ++ [mc]);
                  DataProc.file_idx := fi + 1;
                  DataProc.files := fs ++ [(fi, D ++ r)] |}
          else between_records n (k + 1) (D ++ r) []
                               (Some (body.*1 ++ [c]))
                               (Some ((mask ++ body.*2) ++ [mc])) fi fs).
Proof.
  intros Hk Hlen Hbytes Hc Hmc Hbad Hr HD. rewrite feed_app.
  rewrite feed_copy by (assumption || reflexivity).
  rewrite (process_record_primary_invalid _ body.*1 c);
    [| reflexivity | reflexivity | rewrite length_fmap; exact Hlen
     | exact Hbad | exact Hk].
  cbn [DataProc.buf DataProc.buf_error_mask DataProc.read_header
       DataProc.rec_cnt DataProc.rec_idx DataProc.rec_primary
       DataProc.rec_processed DataProc.data_corrupt DataProc.data
       DataProc.rec_primary_buf DataProc.rec_primary_error_mask
       DataProc.file_idx DataProc.files DataProc.set_buf
       DataProc.set_buf_error_mask between_records].
  match goal with
  | |- context [feed (clean_copy r) ?d] =>
      destruct (feed_clean_copy d r)
        as (s2 & m2 & ->); [reflexivity|reflexivity|assumption|]
  end.
  rewrite (process_record_secondary_rescues _ r);
    [| reflexivity | reflexivity | reflexivity | apply Hr | reflexivity
     | cbn; apply Forall_app; split; [assumption|apply Hr]].
  cbn [DataProc.buf DataProc.buf_error_mask DataProc.read_header
       DataProc.rec_cnt DataProc.rec_idx DataProc.rec_primary
       DataProc.rec_processed DataProc.data_corrupt DataProc.data
       DataProc.rec_primary_buf DataProc.rec_primary_error_mask
       DataProc.file_idx DataProc.files DataProc.set_buf
       DataProc.set_buf_error_mask].
  destruct (k + 1 =? n); eexists; reflexivity.
Qed.

Lemma X6_secondary_copy_rescues_witness :
  exists sigs,
    feed ((((fun v => (v, 0)) <$> (Py.ord <$> payload_01_40)) ++ [(0, 1)])
          ++ clean_copy (Py.ord <$> payload_01_40))
         (between_records 1 0 [] [] None None 0 [])
    = Ok (sigs,
          if 0 + 1 =? 1
          then {| DataProc.buf := []; DataProc.buf_error_mask := [];
                  DataProc.read_header := true; DataProc.rec_cnt := 0;
                  DataProc.rec_idx := 0; DataProc.rec_primary := true;
                  DataProc.rec_processed := false;
                  DataProc.data_corrupt := false; DataProc.data := [];
                  DataProc.rec_primary_buf
                    := Some (((fun v => (v, 0))
                                <$> (Py.ord <$> payload_01_40)).*1 ++ [0]);
                  DataProc.rec_primary_error_mask
                    := Some (([] ++ ((fun v => (v, 0))
                                       <$> (Py.ord <$> payload_01_40)).*2)
                             ++ [1]);
                  DataProc.file_idx := 0 + 1;
                  DataProc.files
                    := [] ++ [(0, [] ++ (Py.ord <$> payload_01_40))] |}
          else between_records 1 (0 + 1) ([] ++ (Py.ord <$> payload_01_40)) []
                 (Some (((fun v => (v, 0))
                           <$> (Py.ord <$> payload_01_40)).*1 ++ [0]))
                 (Some (([] ++ ((fun v => (v, 0))
                                  <$> (Py.ord <$> payload_01_40)).*2)
                        ++ [1])) 0 []).
Proof.
  apply (X6_secondary_copy_rescues 1 0 0 [] [] (Py.ord <$> payload_01_40)
           ((fun v => (v, 0)) <$> (Py.ord <$> payload_01_40)) 0 1
           None None []).
  - lia.
  - reflexivity.
  - repeat (constructor; [unfold is_byte; cbn; lia|]). constructor.
  - unfold is_byte; lia.
  - unfold is_byte; lia.
  - vm_compute. discriminate.
  - split; [reflexivity|].
    repeat (constructor; [unfold is_byte; cbn; lia|]). constructor.
  - constructor.
Defined.

(** X7.  When both copies of a record validate but their payloads differ,
    the primary payload stays in the data and the program is marked
    corrupt; if the record is the last one, the state is cleared and no
    file is written. *)
Theorem X7_copies_disagree (n k fi : Z) (D mask p p2 : list Z)
        (pb pm : option (list Z)) (fs : list (Z * list Z)) :
  k <> n ->
  is_record p -> is_record p2 ->
  p <> p2 ->
  Forall is_byte D ->
  exists sigs,
    feed (clean_copy p ++ clean_copy p2)
         (between_records n k D mask pb pm fi fs)
    = Ok (sigs,
          if k + 1 =? n
          then {| DataProc.buf := []; DataProc.buf_error_mask := [];
                  DataProc.read_header := true; DataProc.rec_cnt := 0;
                  DataProc.rec_idx := 0; DataProc.rec_primary := true;
                  DataProc.rec_processed := false;
                  DataProc.data_corrupt := false; DataProc.data := [];
                  DataProc.rec_primary_buf := pb;
                  DataProc.rec_primary_error_mask := pm;
                  DataProc.file_idx := fi; DataProc.files := fs |}
          else {| DataProc.buf := []; DataProc.buf_error_mask := [];
                  DataProc.read_header := false; DataProc.rec_cnt := n;
                  DataProc.rec_idx := k + 1; DataProc.rec_primary := true;
                  DataProc.rec_processed := false;
                  DataProc.data_corrupt := true; DataProc.data := D ++ p;
                  DataProc.rec_primary_buf := pb;
                  DataProc.rec_primary_error_mask := pm;
                  DataProc.file_idx := fi; DataProc.files := fs |}).
Proof.
  intros Hk Hp Hp2 Hdiff HD. rewrite feed_app.
  destruct (feed_clean_copy (between_records n k D mask pb pm fi fs) p)
    as (s1 & m1 & ->); [reflexivity|reflexivity|assumption|].
  rewrite (process_record_primary_valid _ p);
    [| reflexivity | reflexivity | apply Hp | exact Hk].
  cbn [DataProc.buf DataProc.buf_error_mask DataProc.read_header
       DataProc.rec_cnt DataProc.rec_idx DataProc.rec_primary
       DataProc.rec_processed DataProc.data_corrupt DataProc.data
       DataProc.rec_primary_buf DataProc.rec_primary_error_mask
       DataProc.file_idx DataProc.files DataProc.set_buf
       DataProc.set_buf_error_mask between_records].
  match goal with
  | |- context [feed (clean_copy p2) ?d] =>
      destruct (feed_clean_copy d p2)
        as (s2 & m2 & ->); [reflexivity|reflexivity|assumption|]
  end.
  rewrite (process_record_secondary_differs _ D p p2);
    [| reflexivity | reflexivity | reflexivity | apply Hp2 | apply Hp
     | reflexivity | exact Hdiff].
  cbn [DataProc.buf DataProc.buf_error_mask DataProc.read_header
       DataProc.rec_cnt DataProc.rec_idx DataProc.rec_primary
       DataProc.rec_processed DataProc.data_corrupt DataProc.data
       DataProc.rec_primary_buf DataProc.rec_primary_error_mask
       DataProc.file_idx DataProc.files DataProc.set_buf
       DataProc.set_buf_error_mask].
  destruct (k + 1 =? n); eexists; reflexivity.
Qed.

Lemma X7_copies_disagree_witness :
  exists sigs,
    feed (clean_copy (Py.ord <$> payload_01_40) ++ clean_copy (replicate 64 0))
         (between_records 1 0 [] [] None None 0 [])
    = Ok (sigs,
          if 0 + 1 =? 1
          then {| DataProc.buf := []; DataProc.buf_error_mask := [];
                  DataProc.read_header := true; DataProc.rec_cnt := 0;
                  DataProc.rec_idx := 0; DataProc.rec_primary := true;
                  DataProc.rec_processed := false;
                  DataProc.data_corrupt := false; DataProc.data := [];
                  DataProc.rec_primary_buf := None;
                  DataProc.rec_primary_error_mask := None;
                  DataProc.file_idx := 0; DataProc.files := [] |}
          else {| DataProc.buf := []; DataProc.buf_error_mask := [];
                  DataProc.read_header := false; DataProc.rec_cnt := 1;
                  DataProc.rec_idx := 0 + 1; DataProc.rec_primary := true;
                  DataProc.rec_processed := false;
                  DataProc.data_corrupt := true;
                  DataProc.data := [] ++ (Py.ord <$> payload_01_40);
                  DataProc.rec_primary_buf := None;
                  DataProc.rec_primary_error_mask := None;
                  DataProc.file_idx := 0; DataProc.files := [] |}).
Proof.
  apply (X7_copies_disagree 1 0 0 [] [] (Py.ord <$> payload_01_40)
                            (replicate 64 0) None None []).
  - lia.
  - split; [reflexivity|].
    repeat (constructor; [unfold is_byte; cbn; lia|]). constructor.
  - split; [reflexivity|].
    repeat (constructor; [unfold is_byte; cbn; lia|]). constructor.
  - vm_compute. discriminate.
  - constructor.
Defined.

Section DataProcRecover.

Import DataProc.

Lemma lor_is_byte (a b : Z) : is_byte a -> is_byte b -> is_byte (Z.lor a b).
Proof.
  unfold is_byte. intros Ha Hb.
  assert (Z.lor a b = Z.lor a b `mod` 2 ^ 8) as ->.
  { rewrite <- !Z.land_ones by lia. rewrite Z.land_lor_distr_l.
    rewrite !Z.land_ones by lia. rewrite !Z.mod_small by lia. reflexivity. }
  apply Z.mod_pos_bound. lia.
Qed.

(** The loop of [__recover_record] stops at the first position where the
    two error masks share a bit. *)
Lemma recover_loop_overlap (d : t) (pb pm : list Z) (idxs : list Z) :
  forall acc,
    Forall (fun i => exists m1 m2 b1 b2,
                Py.getitem pm i = Ok m1
                /\ Py.getitem (buf_error_mask d) i = Ok m2
                /\ Py.getitem (buf d) i = Ok b2
                /\ Py.getitem pb i = Ok b1
                /\ is_byte b1 /\ is_byte b2) idxs ->
    Exists (fun i => exists m1 m2,
                Py.getitem pm i = Ok m1
                /\ Py.getitem (buf_error_mask d) i = Ok m2
                /\ Z.land m1 m2 <> 0) idxs ->
    recover_loop d pb pm idxs acc = Ok None.
Proof.
  induction idxs as [|i idxs IH]; intros acc Hall Hex.
  - inversion Hex.
  - inversion Hall as [|? ? (m1 & m2 & b1 & b2 & H1 & H2 & H3 & H4 & Hb1 & Hb2)
                          Hrest]; subst.
    cbn [recover_loop]. unfold mbind, result_bind. rewrite H1, H2.
    destruct (Z.eqb_spec (Z.land m1 m2) 0) as [Hz|Hnz]; [|reflexivity].
    cbn [negb]. rewrite H3, H4.
    rewrite chr_byte by (apply lor_is_byte; assumption).
    apply IH; [assumption|].
    inversion Hex as [? ? (m1' & m2' & H1' & H2' & Hov)|]; subst;
      [|assumption].
    rewrite H1 in H1'. rewrite H2 in H2'.
    injection H1' as <-. injection H2' as <-. contradiction.
Qed.

End DataProcRecover.

Section DataProcUnrecoverable.

Import DataProc.

Lemma recover_record_overlap (d : t) (pb pm : list Z) (i : nat) (m1 m2 : Z) :
  rec_primary_buf d = Some pb ->
  rec_primary_error_mask d = Some pm ->
  length (buf d) = 65%nat ->
  length pb = 65%nat ->
  (65 <= length pm)%nat ->
  (65 <= length (buf_error_mask d))%nat ->
  Forall is_byte (buf d) ->
  Forall is_byte pb ->
  (i < 65)%nat ->
  pm !! i = Some m1 ->
  buf_error_mask d !! i = Some m2 ->
  Z.land m1 m2 <> 0 ->
  recover_record d = Ok (false, d).
Proof.
  intros Hpb Hpm Hlb Hlp Hlm Hlm2 Hbb Hbp Hi H1 H2 Hov.
  unfold recover_record. rewrite Hpb, Hpm.
  rewrite bool_decide_eq_false_2 by (destruct pb; [discriminate|discriminate]).
  rewrite Hlb, Hlp. cbn [Z.eqb negb Z.of_nat Pos.eqb Pos.of_succ_nat].
  change (Z.of_nat 65 =? Z.of_nat 65) with true. cbn [negb].
  rewrite (recover_loop_overlap d pb pm); [reflexivity| |].
  - apply Forall_forall. intros j Hj. unfold Py.range in Hj.
    apply elem_of_seqZ in Hj.
    destruct (lookup_lt_is_Some_2 pm (Z.to_nat j)) as [x1 Hx1]; [lia|].
    destruct (lookup_lt_is_Some_2 (buf_error_mask d) (Z.to_nat j))
      as [x2 Hx2]; [lia|].
    destruct (lookup_lt_is_Some_2 (buf d) (Z.to_nat j)) as [y2 Hy2]; [lia|].
    destruct (lookup_lt_is_Some_2 pb (Z.to_nat j)) as [y1 Hy1]; [lia|].
    exists x1, x2, y1, y2.
    replace j with (Z.of_nat (Z.to_nat j)) by lia.
    repeat split; try (apply getitem_nat; assumption).
    + rewrite Forall_forall in Hbp. apply Hbp.
      apply list_elem_of_lookup. eauto.
    + rewrite Forall_forall in Hbp. apply Hbp.
      apply list_elem_of_lookup. eauto.
    + rewrite Forall_forall in Hbb. apply Hbb.
      apply list_elem_of_lookup. eauto.
    + rewrite Forall_forall in Hbb. apply Hbb.
      apply list_elem_of_lookup. eauto.
  - apply Exists_exists. exists (Z.of_nat i). split.
    + unfold Py.range. apply elem_of_seqZ. lia.
    + exists m1, m2. repeat split; try (apply getitem_nat; assumption).
      assumption.
Qed.

End DataProcUnrecoverable.

(** X8.  When the secondary copy fails the checksum after a failed
    primary, and the error masks of the two copies share a bit at some
    position, the record is not reconstructed: the program is marked
    corrupt and nothing is appended; at the last record the state is
    cleared and no file is written. *)
Theorem X8_overlapping_errors_unrecoverable (d : DataProc.t)
        (pb pm : list Z) (i : nat) (m1 m2 : Z) :
  DataProc.rec_primary d = false ->
  DataProc.rec_processed d = false ->
  DataProc.rec_primary_buf d = Some pb ->
  DataProc.rec_primary_error_mask d = Some pm ->
  length (DataProc.buf d) = 65%nat ->
  length pb = 65%nat ->
  (65 <= length pm)%nat ->
  (65 <= length (DataProc.buf_error_mask d))%nat ->
  Forall is_byte (DataProc.buf d) ->
  Forall is_byte pb ->
  DataProc.verify_record d = false ->
  (i < 65)%nat ->
  pm !! i = Some m1 ->
  DataProc.buf_error_mask d !! i = Some m2 ->
  Z.land m1 m2 <> 0 ->
  DataProc.process_record d
  = if DataProc.rec_idx d + 1 =? DataProc.rec_cnt d then
      Ok (Some NOTIFY_DONE,
          {| DataProc.buf := []; DataProc.buf_error_mask := [];
             DataProc.read_header := true; DataProc.rec_cnt := 0;
             DataProc.rec_idx := 0; DataProc.rec_primary := true;
             DataProc.rec_processed := false;
             DataProc.data_corrupt := false; DataProc.data := [];
             DataProc.rec_primary_buf := Some pb;
             DataProc.rec_primary_error_mask := Some pm;
             DataProc.file_idx := DataProc.file_idx d;
             DataProc.files := DataProc.files d |})
    else
      Ok (Some REQUEST_RESYNC,
          {| DataProc.buf := []; DataProc.buf_error_mask := [];
             DataProc.read_header := DataProc.read_header d;
             DataProc.rec_cnt := DataProc.rec_cnt d;
             DataProc.rec_idx := DataProc.rec_idx d + 1;
             DataProc.rec_primary := true;
             DataProc.rec_processed := false;
             DataProc.data_corrupt := true;
             DataProc.data := DataProc.data d;
             DataProc.rec_primary_buf := Some pb;
             DataProc.rec_primary_error_mask := Some pm;
             DataProc.file_idx := DataProc.file_idx d;
             DataProc.files := DataProc.files d |}).
Proof.
  intros Hprim Hproc Hpb Hpm Hlb Hlp Hlm Hlm2 Hbb Hbp Hver Hi H1 H2 Hov.
  pose proof (recover_record_overlap d pb pm i m1 m2 Hpb Hpm Hlb Hlp Hlm Hlm2
                                     Hbb Hbp Hi H1 H2 Hov) as Hrec.
  unfold DataProc.process_record. rewrite Hprim, Hproc, Hver.
  rewrite bool_decide_eq_false_2
    by (destruct (DataProc.buf d); [discriminate|discriminate]).
  cbn [negb].
  unfold mbind at 1, St_bind at 1. unfold mbind at 1, St_bind at 1.
  unfold mbind at 1, St_bind at 1. unfold mbind at 1, St_bind at 1.
  rewrite Hrec. cbn [negb].
  unfold mbind, St_bind, modify, mret, St_ret, get, lift,
    DataProc.data_complete. cbn.
  destruct (DataProc.rec_idx d + 1 =? DataProc.rec_cnt d);
    unfold DataProc.clear_state, DataProc.set_buf_error_mask,
      DataProc.set_buf, DataProc.set_rec, DataProc.set_data_corrupt;
    cbn; rewrite Hpb, Hpm; reflexivity.
Qed.

Lemma X8_overlapping_errors_unrecoverable_witness :
  DataProc.process_record OverlappingErrors.state
  = if DataProc.rec_idx OverlappingErrors.state + 1
       =? DataProc.rec_cnt OverlappingErrors.state then
      Ok (Some NOTIFY_DONE,
          {| DataProc.buf := []; DataProc.buf_error_mask := [];
             DataProc.read_header := true; DataProc.rec_cnt := 0;
             DataProc.rec_idx := 0; DataProc.rec_primary := true;
             DataProc.rec_processed := false;
             DataProc.data_corrupt := false; DataProc.data := [];
             DataProc.rec_primary_buf := Some OverlappingErrors.copy;
             DataProc.rec_primary_error_mask := Some OverlappingErrors.mask;
             DataProc.file_idx := DataProc.file_idx OverlappingErrors.state;
             DataProc.files := DataProc.files OverlappingErrors.state |})
    else
      Ok (Some REQUEST_RESYNC,
          {| DataProc.buf := []; DataProc.buf_error_mask := [];
             DataProc.read_header
               := DataProc.read_header OverlappingErrors.state;
             DataProc.rec_cnt := DataProc.rec_cnt OverlappingErrors.state;
             DataProc.rec_idx := DataProc.rec_idx OverlappingErrors.state + 1;
             DataProc.rec_primary := true;
             DataProc.rec_processed := false;
             DataProc.data_corrupt := true;
             DataProc.data := DataProc.data OverlappingErrors.state;
             DataProc.rec_primary_buf := Some OverlappingErrors.copy;
             DataProc.rec_primary_error_mask := Some OverlappingErrors.mask;
             DataProc.file_idx := DataProc.file_idx OverlappingErrors.state;
             DataProc.files := DataProc.files OverlappingErrors.state |}).
Proof.
  apply (X8_overlapping_errors_unrecoverable
           OverlappingErrors.state OverlappingErrors.copy
           OverlappingErrors.mask 0 1 1);
    try reflexivity;
    try (cbn; lia);
    try (cbn; discriminate);
    repeat (constructor; [unfold is_byte; cbn; lia|]); constructor.
Defined.

Section DataProcEof.

Import DataProc.

(** Whole records from a clean tape, with more to come. *)
Lemma feed_clean_pairs (n fi : Z) (pb pm : option (list Z))
      (fs : list (Z * list Z)) (recs : list (list Z)) :
  forall (k : Z) (D mask : list Z),
    Forall is_record recs ->
    Forall is_byte D ->
    k + Z.of_nat (length recs) < n ->
    exists sigs mask',
      feed (mjoin ((fun r => clean_copy r ++ clean_copy r) <$> recs))
           (between_records n k D mask pb pm fi fs)
      = Ok (sigs,
            between_records n (k + Z.of_nat (length recs)) (D ++ mjoin recs)
                            mask' pb pm fi fs).
Proof.
  induction recs as [|r recs IH]; intros k D mask Hall HD Hn.
  - cbn. rewrite Z.add_0_r, app_nil_r. eexists _, _. reflexivity.
  - inversion Hall as [|? ? Hr Hrest]; subst.
    change (mjoin ((fun r => clean_copy r ++ clean_copy r) <$> r :: recs))
      with ((clean_copy r ++ clean_copy r)
            ++ mjoin ((fun r => clean_copy r ++ clean_copy r) <$> recs)).
    rewrite feed_app.
    destruct (feed_clean_pair n k fi D mask r pb pm fs) as (s1 & ->);
      [cbn [length] in Hn; lia | assumption | assumption |].
    destruct (Z.eqb_spec (k + 1) n); [cbn [length] in Hn; lia|].
    destruct (IH (k + 1) (D ++ r) []) as (s2 & mask' & ->);
      [assumption | apply Forall_app; split; [assumption|apply Hr]
       | cbn [length] in Hn; lia |].
    exists (s1 ++ s2), mask'. do 2 f_equal.
    change (mjoin (r :: recs)) with (r ++ mjoin recs).
    rewrite app_assoc. cbn [length].
    replace (k + 1 + Z.of_nat (length recs))
      with (k + Z.of_nat (S (length recs))) by lia.
    reflexivity.
Qed.

End DataProcEof.

(** X9.  End of input.  If the input ends after the primary copy of the
    last record was accepted, the program is written, with that record;
    if it ends between two records, nothing is written.  In both cases
    [DataProc] is left in its cleared state. *)
Theorem X9_end_of_input (d : DataProc.t) (recs : list (list Z))
        (last : list Z) :
  Forall is_record recs ->
  is_record last ->
  (length recs < 255)%nat ->
  let n := Z.of_nat (length recs) + 1 in
  let header := [(n, 0); (n, 0)] in
  let pairs := mjoin ((fun r => clean_copy r ++ clean_copy r) <$> recs) in
  (exists sigs d1 d2,
     feed (header ++ pairs ++ clean_copy last) (DataProc.clear_state d)
     = Ok (sigs, d1)
     /\ DataProc.process_eof d1 = Ok (tt, d2)
     /\ DataProc.files d2
        = DataProc.files d ++ [(DataProc.file_idx d, mjoin recs ++ last)]
     /\ DataProc.clear_state d2 = d2)
  /\ (exists sigs d1 d2,
        feed (header ++ pairs) (DataProc.clear_state d) = Ok (sigs, d1)
        /\ DataProc.process_eof d1 = Ok (tt, d2)
        /\ DataProc.files d2 = DataProc.files d
        /\ DataProc.clear_state d2 = d2).
Proof.
  intros Hall Hlast Hlen n header pairs.
  assert (exists sigs mask',
             feed (header ++ pairs) (DataProc.clear_state d)
             = Ok (sigs,
                   between_records n (Z.of_nat (length recs)) (mjoin recs)
                     mask' (DataProc.rec_primary_buf d)
                     (DataProc.rec_primary_error_mask d)
                     (DataProc.file_idx d) (DataProc.files d)))
    as (s0 & mask' & Hfeed).
  { subst header pairs. rewrite feed_app.
    cbn [feed]. unfold mbind at 1 2, St_bind at 1 2.
    rewrite header_first_byte by (reflexivity || lia).
    unfold mbind at 1 2, St_bind at 1 2.
    rewrite (header_second_byte _ n) by (reflexivity || lia).
    rewrite Z.eqb_refl. unfold mret, St_ret.
    match goal with
    | |- context [feed _ ?s] =>
        change s with (between_records n 0 [] [0; 0]
                         (DataProc.rec_primary_buf d)
                         (DataProc.rec_primary_error_mask d)
                         (DataProc.file_idx d) (DataProc.files d))
    end.
    destruct (feed_clean_pairs n (DataProc.file_idx d)
                (DataProc.rec_primary_buf d)
                (DataProc.rec_primary_error_mask d)
                (DataProc.files d) recs 0 [] [0; 0])
      as (s & mask' & ->); [assumption | constructor | lia |].
    eexists _, _. reflexivity. }
  assert (Forall is_byte (mjoin recs)) as Hbytes.
  { apply Forall_join. eapply Forall_impl; [exact Hall|].
    intros r Hr. apply Hr. }
  split.
  - rewrite app_assoc, feed_app, Hfeed.
    match goal with
    | |- context [feed (clean_copy last) ?s] =>
        destruct (feed_clean_copy s last)
          as (s1 & m1 & ->); [reflexivity|reflexivity|assumption|]
    end.
    rewrite (process_record_primary_valid _ last);
      [| reflexivity | reflexivity | apply Hlast | cbn; lia].
    eexists _, _, _. split; [reflexivity|].
    unfold DataProc.process_eof, DataProc.data_complete.
    unfold mbind, St_bind, get, modify, mret, St_ret. cbn.
    subst n. rewrite Z.eqb_refl. cbn.
    assert (forallb (fun c => c <? 256) (mjoin recs ++ last) = true) as ->.
    { apply forallb_forall. intros x Hx. apply list_elem_of_In in Hx.
      apply elem_of_app in Hx as [Hx|Hx].
      - rewrite Forall_forall in Hbytes. apply Hbytes in Hx.
        unfold is_byte in Hx. apply Z.ltb_lt. lia.
      - destruct Hlast as [_ Hb]. rewrite Forall_forall in Hb.
        apply Hb in Hx. unfold is_byte in Hx. apply Z.ltb_lt. lia. }
    repeat split.
  - rewrite Hfeed. eexists _, _, _. split; [reflexivity|].
    unfold DataProc.process_eof.
    unfold mbind, St_bind, get, modify, mret, St_ret. cbn.
    rewrite andb_false_r. repeat split.
Qed.

Lemma X9_end_of_input_witness :
  let n := Z.of_nat (length ([] : list (list Z))) + 1 in
  let header := [(n, 0); (n, 0)] in
  let pairs :=
    mjoin ((fun r => clean_copy r ++ clean_copy r) <$> ([] : list (list Z))) in
  (exists sigs d1 d2,
     feed (header ++ pairs ++ clean_copy (Py.ord <$> payload_01_40))
          (DataProc.clear_state DataProc.init)
     = Ok (sigs, d1)
     /\ DataProc.process_eof d1 = Ok (tt, d2)
     /\ DataProc.files d2
        = DataProc.files DataProc.init
          ++ [(DataProc.file_idx DataProc.init,
               mjoin [] ++ (Py.ord <$> payload_01_40))]
     /\ DataProc.clear_state d2 = d2)
  /\ (exists sigs d1 d2,
        feed (header ++ pairs) (DataProc.clear_state DataProc.init)
        = Ok (sigs, d1)
        /\ DataProc.process_eof d1 = Ok (tt, d2)
        /\ DataProc.files d2 = DataProc.files DataProc.init
        /\ DataProc.clear_state d2 = d2).
Proof.
  apply (X9_end_of_input DataProc.init [] (Py.ord <$> payload_01_40)).
  - constructor.
  - split; [reflexivity|].
    repeat (constructor; [unfold is_byte; cbn; lia|]). constructor.
  - cbn. lia.
Defined.

(** X10.  The buffer of error masks is not emptied with the buffer of
    bytes when the header is accepted: a primary copy of the first record
    that fails the checksum is kept with 65 bytes but 67 error masks, the
    two of the header bytes first. *)
Theorem X10_header_masks_stay (d : DataProc.t) (n m1 m2 c mc : Z)
        (body : list (Z * Z)) :
  is_byte n -> n <> 0 ->
  is_byte m1 -> is_byte m2 ->
  length body = 64%nat ->
  Forall (fun b : Z * Z => is_byte b.1 /\ is_byte b.2) body ->
  is_byte c -> is_byte mc ->
  c <> TapeFormat.checksum body.*1 ->
  exists sigs d',
    feed ([(n, m1); (n, m2)] ++ body ++ [(c, mc)]) (DataProc.clear_state d)
    = Ok (sigs, d')
    /\ DataProc.rec_primary_buf d' = Some (body.*1 ++ [c])
    /\ DataProc.rec_primary_error_mask d'
       = Some ([m1; m2] ++ body.*2 ++ [mc]).
Proof.
  intros Hn Hn0 Hm1 Hm2 Hlen Hbytes Hc Hmc Hbad.
  rewrite feed_app. cbn [feed]. unfold mbind at 1 2, St_bind at 1 2.
  rewrite header_first_byte by (reflexivity || assumption).
  unfold mbind at 1 2, St_bind at 1 2.
  rewrite (header_second_byte _ n) by (reflexivity || assumption).
  rewrite Z.eqb_refl. unfold mret, St_ret.
  rewrite feed_copy by (assumption || reflexivity).
  rewrite (process_record_primary_invalid _ body.*1 c);
    [| reflexivity | reflexivity | rewrite length_fmap; exact Hlen
     | exact Hbad | cbn; lia].
  eexists _, _. split; [reflexivity|]. split; [reflexivity|].
  cbn [DataProc.rec_primary_error_mask DataProc.buf_error_mask
       DataProc.set_buf DataProc.set_buf_error_mask DataProc.set_header
       DataProc.clear_state].
  rewrite <- !app_assoc. reflexivity.
Qed.

Lemma X10_header_masks_stay_witness :
  exists sigs d',
    feed ([(1, 0); (1, 0)]
          ++ ((fun v => (v, 0)) <$> (Py.ord <$> payload_01_40)) ++ [(0, 1)])
         (DataProc.clear_state DataProc.init)
    = Ok (sigs, d')
    /\ DataProc.rec_primary_buf d'
       = Some (((fun v => (v, 0)) <$> (Py.ord <$> payload_01_40)).*1 ++ [0])
    /\ DataProc.rec_primary_error_mask d'
       = Some ([0; 0]
               ++ ((fun v => (v, 0)) <$> (Py.ord <$> payload_01_40)).*2
               ++ [1]).
Proof.
  apply (X10_header_masks_stay DataProc.init 1 0 0 0 1
           ((fun v => (v, 0)) <$> (Py.ord <$> payload_01_40)));
    try (unfold is_byte; lia);
    try reflexivity;
    try (vm_compute; discriminate).
  repeat (constructor; [unfold is_byte; cbn; lia|]). constructor.
Defined.
